(** * Image-to-video client and inference handler: a shallow embedding

    The two Python programs of the repository are embedded here:

    - [Inference]: [src/inference/inference.py], the SageMaker inference
      handler ([predict_fn]);
    - [App]: [src/streamlit_web_app/app.py], the Streamlit client (session
      defaults, upload check, request staging, asynchronous invocation, the
      polling loop, frame decoding and the call of the video encoder).

    Python dictionaries are [gmap string _], exceptions are an explicit result,
    the mutable world (session state, local files, the bucket, everything the
    program prints, shows or calls) is threaded through a small state and
    exception monad, and the [while True] loop of the poller runs on fuel:
    [Running] is the answer of a loop that has not returned yet. *)

From Stdlib Require Import ZArith QArith Lia Ascii.
From stdpp Require Import gmap strings list fin_maps sorting pretty.

(** ** The Python runtime the two programs share *)

Module Py.

(** Exceptions.  [ClientError] is botocore's exception and carries
    [e.response["Error"]["Code"]]; every other exception class is named. *)
Inductive exn : Type :=
| ClientError (code : string)
| PyError (cls : string).

(** What running a piece of code gives: a value, an exception that
    propagates, or nothing yet ([Running], the fuel of a loop ran out). *)
Inductive outcome (A : Type) : Type :=
| Ret (a : A)
| Raise (e : exn)
| Running.
Arguments Ret {A} a.
Arguments Raise {A} e.
Arguments Running {A}.

(** A file handed over by [st.file_uploader]. *)
Record UploadedFile : Type :=
  { name : string; size : Z; data : list Byte.byte }.

(** The values the programs keep in dictionaries. *)
Inductive PyVal : Type :=
| VNone
| VBool (b : bool)
| VInt (z : Z)
| VFloat (q : Q)
| VStr (s : string)
| VFile (f : UploadedFile).

(** A decoded picture (a PIL image), as far as the programs look at it. *)
Record Image : Type :=
  { im_width : Z; im_height : Z; im_pixels : list Byte.byte }.

(** The document the inference handler answers with, and the client reads:
    [{"frames": [...], "config": {...}}]. *)
Record ResultDoc : Type :=
  { frames : list string; config : gmap string PyVal }.

(** [base64.b64encode] and [base64.b64decode] of the standard library. *)
Class Base64 : Type :=
  { b64encode : list Byte.byte → string;
    b64decode : string → exn + list Byte.byte }.

(** State and exception monad over a world [W]. *)
Definition M (W A : Type) : Type := W → outcome A * W.

Definition ret {W A} (a : A) : M W A := λ w, (Ret a, w).
Definition raise {W A} (e : exn) : M W A := λ w, (Raise e, w).
Definition running {W A} : M W A := λ w, (Running, w).
Definition bind {W A B} (c : M W A) (k : A → M W B) : M W B :=
  λ w, match c w with
       | (Ret a, w') => k a w'
       | (Raise e, w') => (Raise e, w')
       | (Running, w') => (Running, w')
       end.
Definition gets {W A} (f : W → A) : M W A := λ w, (Ret (f w), w).
Definition modify {W} (f : W → W) : M W unit := λ w, (Ret tt, f w).

(** [try: body except ClientError as e: handler e]: only botocore's
    [ClientError] is caught, any other exception goes through. *)
Definition try_except_ClientError {W A}
    (body : M W A) (handler : string → M W A) : M W A :=
  λ w, match body w with
       | (Raise (ClientError code), w') => handler code w'
       | r => r
       end.

(** [try: body except Exception: handler]. *)
Definition try_except_Exception {W A}
    (body : M W A) (handler : exn → M W A) : M W A :=
  λ w, match body w with
       | (Raise e, w') => handler e w'
       | r => r
       end.

(** [while True: body], where the body answers [Some a] for [return a] and
    [None] for [continue]; the iteration number is handed to the body. *)
Fixpoint while_True {W A} (fuel : nat) (body : nat → M W (option A))
    (i : nat) : M W A :=
  match fuel with
  | O => running
  | S fuel' =>
      bind (body i) (λ r,
        match r with
        | Some a => ret a
        | None => while_True fuel' body (S i)
        end)
  end.

(** [s.removeprefix(p)] when [s.startswith(p)]. *)
Fixpoint strip_prefix (p s : string) : option string :=
  match p, s with
  | EmptyString, _ => Some s
  | String a p', String b s' =>
      if Ascii.eqb a b then strip_prefix p' s' else None
  | String _ _, EmptyString => None
  end.

(** [wp c Q w]: running [c] in [w] ends in an outcome and a world that
    satisfy [Q]. *)
Definition wp {W A} (c : M W A) (Q : outcome A → W → Prop) (w : W) : Prop :=
  Q (c w).1 (c w).2.

(** Lifting a call that either raises or returns. *)
Definition call {W A} (r : exn + A) : M W A :=
  match r with inl e => raise e | inr a => ret a end.
Definition call_ {W} (r : option exn) : M W unit :=
  match r with Some e => raise e | None => ret tt end.

End Py.

Import Py.

Declare Scope py_scope.
Delimit Scope py_scope with py.
Notation "'let*' x ':=' c 'in' k" := (bind c (λ x, k))
  (at level 10, x name, c at level 100, k at level 200) : py_scope.
Notation "c '>>' k" := (bind c (λ _, k))
  (at level 100, k at level 200, right associativity) : py_scope.

(** ** [base64] of the Python standard library

    [b64encode], and [b64decode] in its default, non-validating mode
    ([binascii.a2b_base64]): characters outside the alphabet are skipped, and
    the padding decides whether the input is accepted. *)

Module PyBase64.

Local Open Scope N_scope.

Definition alphabet : string :=
  "ABCDEFGHIJKLMNOPQRSTUVWXYZabcdefghijklmnopqrstuvwxyz0123456789+/".

(** The character of a 6-bit value. *)
Definition table_b2a (n : N) : ascii :=
  default "="%char (String.get (N.to_nat n) alphabet).

(** The 6-bit value of a character of the alphabet. *)
Definition table_a2b (c : ascii) : option N :=
  let n := N_of_ascii c in
  if (65 <=? n) && (n <=? 90) then Some (n - 65)
  else if (97 <=? n) && (n <=? 122) then Some (n - 71)
  else if (48 <=? n) && (n <=? 57) then Some (n + 4)
  else if n =? 43 then Some 62
  else if n =? 47 then Some 63
  else None.

Definition byte_to_N (b : Byte.byte) : N := Byte.to_N b.
Definition byte_of_N (n : N) : Byte.byte :=
  byte_of_ascii (ascii_of_N (n mod 256)).

Definition chars (l : list N) : string :=
  foldr (λ n s, String (table_b2a n) s) EmptyString l.

Fixpoint encode (bs : list Byte.byte) : string :=
  match bs with
  | [] => EmptyString
  | [a] =>
      let a := byte_to_N a in
      (chars [N.shiftr a 2; N.shiftl (N.land a 3) 4] +:+ "==")%string
  | [a; b] =>
      let a := byte_to_N a in
      let b := byte_to_N b in
      (chars [N.shiftr a 2;
              N.lor (N.shiftl (N.land a 3) 4) (N.shiftr b 4);
              N.shiftl (N.land b 15) 2] +:+ "=")%string
  | a :: b :: c :: rest =>
      let a := byte_to_N a in
      let b := byte_to_N b in
      let c := byte_to_N c in
      (chars [N.shiftr a 2;
              N.lor (N.shiftl (N.land a 3) 4) (N.shiftr b 4);
              N.lor (N.shiftl (N.land b 15) 2) (N.shiftr c 6);
              N.land c 63] +:+ encode rest)%string
  end.

(** The loop of [a2b_base64]: [quad_pos] counts the characters of the
    current group of four, [leftchar] holds the bits not yet written,
    [pads] the padding characters seen since the last data character, and
    [out] the bytes written so far, last first. *)
Fixpoint a2b_loop (s : string) (quad_pos : nat) (leftchar : N) (pads : nat)
    (out : list Byte.byte) : exn + list Byte.byte :=
  match s with
  | EmptyString =>
      match quad_pos with
      | O => inr (rev out)
      | _ => inl (PyError "binascii.Error")
      end
  | String this_ch rest =>
      if Ascii.eqb this_ch "=" then
        if (2 <=? quad_pos)%nat && (4 <=? quad_pos + S pads)%nat
        then inr (rev out)
        else a2b_loop rest quad_pos leftchar
               (if (2 <=? quad_pos)%nat then S pads else pads) out
      else
        match table_a2b this_ch with
        | None => a2b_loop rest quad_pos leftchar pads out
        | Some v =>
            match quad_pos with
            | 0%nat => a2b_loop rest 1 v 0 out
            | 1%nat =>
                a2b_loop rest 2 (N.land v 15) 0
                  (byte_of_N (N.lor (N.shiftl leftchar 2) (N.shiftr v 4)) :: out)
            | 2%nat =>
                a2b_loop rest 3 (N.land v 3) 0
                  (byte_of_N (N.lor (N.shiftl leftchar 4) (N.shiftr v 2)) :: out)
            | _ =>
                a2b_loop rest 0 0 0
                  (byte_of_N (N.lor (N.shiftl leftchar 6) v) :: out)
            end
        end
  end.

(** [base64.b64decode(s)] on a [str]: the string has to be ASCII. *)
Fixpoint is_ascii (s : string) : bool :=
  match s with
  | EmptyString => true
  | String c rest => (N_of_ascii c <? 128) && is_ascii rest
  end.

Definition decode (s : string) : exn + list Byte.byte :=
  if is_ascii s then a2b_loop s 0 0 0 [] else inl (PyError "ValueError").

(** The strings [b64decode(s, validate=True)] takes: characters of the
    alphabet, then at most two padding characters, four characters a group. *)
Fixpoint valid_tail (s : string) : bool :=
  match s with
  | EmptyString => true
  | String c rest =>
      match table_a2b c with
      | Some _ => valid_tail rest
      | None =>
          Ascii.eqb c "="
          && (String.eqb rest EmptyString || String.eqb rest "=")
      end
  end.

Definition is_valid (s : string) : bool :=
  (String.length s mod 4 =? 0)%nat && valid_tail s.

#[export] Instance base64 : Base64 :=
  {| b64encode := encode; b64decode := decode |}.

(** The vocabulary of the codec's round trip: every byte, the four 6-bit
    values of a group of three bytes, and the check that a 6-bit value is
    written as a character of the alphabet that is ASCII, is not the padding
    and is read back as that value. *)
Definition all_bytes : list Byte.byte :=
  omap Byte.of_N (N.of_nat <$> seq 0 256).

Definition v0 (a : Byte.byte) : N := N.shiftr (byte_to_N a) 2.
Definition v1 (a b : Byte.byte) : N :=
  N.lor (N.shiftl (N.land (byte_to_N a) 3) 4) (N.shiftr (byte_to_N b) 4).
Definition v2 (b c : Byte.byte) : N :=
  N.lor (N.shiftl (N.land (byte_to_N b) 15) 2) (N.shiftr (byte_to_N c) 6).
Definition v3 (c : Byte.byte) : N := N.land (byte_to_N c) 63.

Definition sextet (v : N) : bool :=
  negb (Ascii.eqb (table_b2a v) "=") && (N_of_ascii (table_b2a v) <? 128)
  && bool_decide (table_a2b (table_b2a v) = Some v).

Definition N_eqb_byte (n : N) (b : Byte.byte) : bool :=
  Byte.eqb (byte_of_N n) b.

End PyBase64.

(** ** The inference handler, [src/inference/inference.py] *)

Module Inference.

Local Open Scope Z_scope.
Local Open Scope py_scope.

Definition BASE64_PREFIX : string := "data:text/plain;base64,".

(** The keyword arguments of the call of the pipeline. *)
Record PipeArgs : Type :=
  { p_image : Image; p_width : Z; p_height : Z;
    p_num_frames : PyVal; p_num_inference_steps : PyVal;
    p_min_guidance_scale : PyVal; p_max_guidance_scale : PyVal;
    p_fps : PyVal; p_motion_bucket_id : PyVal;
    p_noise_aug_strength : PyVal; p_decode_chunk_size : PyVal;
    p_generator : PyVal }.

(** The library functions the handler calls (PIL, torch, diffusers), next to
    [Base64].  [Image_thumbnail image size] is the image that
    [image.thumbnail(size, Image.Resampling.LANCZOS)] leaves (the method
    resizes in place), or the exception it raises; [manual_seed] is
    [torch.manual_seed] and gives the generator; [pipe] is the loaded
    pipeline and answers with [.frames[0]]. *)
Class Lib : Type :=
  { Image_open_bytes : list Byte.byte → exn + Image;
    load_image : string → exn + Image;
    Image_thumbnail : Image → PyVal * PyVal → exn + Image;
    manual_seed : PyVal → exn + PyVal;
    frame_jpeg : Image → list Byte.byte;
    pipe : PipeArgs → exn + list Image }.

(** The handler pops from the dictionary it is given and calls the
    pipeline. *)
Record World : Type :=
  { data : gmap string PyVal; pipe_calls : list PipeArgs }.

(** [data.pop(k)] and [data.pop(k, default)]. *)
Definition pop (k : string) : M World PyVal :=
  λ w, match data w !! k with
       | Some v =>
           (Ret v, {| data := delete k (data w); pipe_calls := pipe_calls w |})
       | None => (Raise (PyError "KeyError"), w)
       end.
Definition pop_default (k : string) (d : PyVal) : M World PyVal :=
  λ w, (Ret (default d (data w !! k)),
        {| data := delete k (data w); pipe_calls := pipe_calls w |}).

(** What the handler reads from the request, the arguments it calls the
    pipeline with and the configuration it echoes: the vocabulary of the
    handler's properties. *)
Definition param (d : gmap string PyVal) (k : string) (dflt : PyVal) : PyVal :=
  default dflt (d !! k).

Definition requested_width (d : gmap string PyVal) : PyVal := param d "width" (VInt 1024).
Definition requested_height (d : gmap string PyVal) : PyVal := param d "height" (VInt 576).

Definition pipe_args_of (d : gmap string PyVal) (image : Image)
    (generator : PyVal) : PipeArgs :=
  {| p_image := image;
     p_width := im_width image;
     p_height := im_height image;
     p_num_frames := param d "num_frames" (VInt 25);
     p_num_inference_steps := param d "num_inference_steps" (VInt 25);
     p_min_guidance_scale := param d "min_guidance_scale" (VFloat 1.0);
     p_max_guidance_scale := param d "max_guidance_scale" (VFloat 3.0);
     p_fps := param d "fps" (VInt 6);
     p_motion_bucket_id := param d "motion_bucket_id" (VInt 127);
     p_noise_aug_strength := param d "noise_aug_strength" (VFloat 0.02);
     p_decode_chunk_size := param d "decode_chunk_size" (VInt 8);
     p_generator := generator |}.



Definition echoed_config (d : gmap string PyVal) (movie_title : PyVal) : gmap string PyVal :=
  list_to_map
    [ ("movie_title", movie_title);
      ("width", requested_width d);
      ("height", requested_height d);
      ("num_frames", param d "num_frames" (VInt 25));
      ("num_inference_steps", param d "num_inference_steps" (VInt 25));
      ("min_guidance_scale", param d "min_guidance_scale" (VFloat 1.0));
      ("max_guidance_scale", param d "max_guidance_scale" (VFloat 3.0));
      ("fps", param d "fps" (VInt 6));
      ("motion_bucket_id", param d "motion_bucket_id" (VInt 127));
      ("noise_aug_strength", param d "noise_aug_strength" (VFloat 0.02));
      ("decode_chunk_size", param d "decode_chunk_size" (VInt 8));
      ("seed", param d "seed" (VInt 42)) ].

(** The parameters the handler takes with a default, and the keys it pops
    from the request. *)
Definition optional_parameters : list (string * PyVal) :=
  [ ("width", VInt 1024); ("height", VInt 576); ("num_frames", VInt 25);
    ("num_inference_steps", VInt 25); ("min_guidance_scale", VFloat 1.0);
    ("max_guidance_scale", VFloat 3.0); ("fps", VInt 6);
    ("motion_bucket_id", VInt 127); ("noise_aug_strength", VFloat 0.02);
    ("decode_chunk_size", VInt 8); ("seed", VInt 42) ].
Definition popped_keys : list string :=
  "movie_title" :: "image" :: optional_parameters.*1.

Section Handler.

Context {codec : Base64} {hlib : Lib}.

(** Both branches of [if image.startswith(BASE64_PREFIX)]. *)
Definition open_conditioning_image (image : PyVal) : exn + Image :=
  match image with
  | VStr s =>
      match strip_prefix BASE64_PREFIX s with
      | Some payload =>
          match b64decode payload with
          | inl e => inl e
          | inr bytes => Image_open_bytes bytes
          end
      | None => load_image s
      end
  | _ => inl (PyError "AttributeError")
  end.

(** *** [predict_fn] *)
Definition call_pipe (args : PipeArgs) : M World (list Image) :=
  modify (λ w, {| data := data w; pipe_calls := pipe_calls w ++ [args] |}) >>
  call (pipe args).

Definition predict_fn : M World ResultDoc :=
  let* movie_title := pop "movie_title" in
  let* image := pop "image" in
  let* width := pop_default "width" (VInt 1024) in
  let* height := pop_default "height" (VInt 576) in
  let* num_frames := pop_default "num_frames" (VInt 25) in
  let* num_inference_steps := pop_default "num_inference_steps" (VInt 25) in
  let* min_guidance_scale := pop_default "min_guidance_scale" (VFloat 1.0) in
  let* max_guidance_scale := pop_default "max_guidance_scale" (VFloat 3.0) in
  let* fps := pop_default "fps" (VInt 6) in
  let* motion_bucket_id := pop_default "motion_bucket_id" (VInt 127) in
  let* noise_aug_strength := pop_default "noise_aug_strength" (VFloat 0.02) in
  let* decode_chunk_size := pop_default "decode_chunk_size" (VInt 8) in
  let* seed := pop_default "seed" (VInt 42) in
  let* image := call (open_conditioning_image image) in
  let* image := call (Image_thumbnail image (width, height)) in
  let* generator := call (manual_seed seed) in
  let* frames :=
    call_pipe
      {| p_image := image;
         p_width := im_width image;
         p_height := im_height image;
         p_num_frames := num_frames;
         p_num_inference_steps := num_inference_steps;
         p_min_guidance_scale := min_guidance_scale;
         p_max_guidance_scale := max_guidance_scale;
         p_fps := fps;
         p_motion_bucket_id := motion_bucket_id;
         p_noise_aug_strength := noise_aug_strength;
         p_decode_chunk_size := decode_chunk_size;
         p_generator := generator |} in
  let encoded_frames := map (λ frame, b64encode (frame_jpeg frame)) frames in
  ret {| Py.frames := encoded_frames;
         config :=
           list_to_map
             [ ("movie_title", movie_title);
               ("width", width);
               ("height", height);
               ("num_frames", num_frames);
               ("num_inference_steps", num_inference_steps);
               ("min_guidance_scale", min_guidance_scale);
               ("max_guidance_scale", max_guidance_scale);
               ("fps", fps);
               ("motion_bucket_id", motion_bucket_id);
               ("noise_aug_strength", noise_aug_strength);
               ("decode_chunk_size", decode_chunk_size);
               ("seed", seed) ] |}.

End Handler.

End Inference.

(** ** The Streamlit client, [src/streamlit_web_app/app.py] *)

Module App.

Local Open Scope Z_scope.
Local Open Scope py_scope.

(** *** Constants *)

Definition MAX_FILE_SIZE : Z := 5 * 1024 * 1024.
Definition S3_BUCKET : string := "sagemaker-us-east-1-CHANGE-ME".
Definition ENDPOINT_NAME : string := "huggingface-pytorch-inference-CHANGE-ME".
Definition REQUEST_PAYLOAD : string := "tmp/request_payloads/payload.json".
Definition RESPONSE_PAYLOAD : string := "tmp/response_output.json".

(** *** Data *)

(** Contents of a file or of a bucket object. *)
Inductive FileData : Type :=
| Bytes (b : list Byte.byte)
| RequestJson (d : gmap string PyVal)
| ResultJson (d : ResultDoc)
| Video (framerate : PyVal) (pictures : list (list Byte.byte)).

Record InvokeResponse : Type :=
  { OutputLocation : string; FailureLocation : string }.

(** The call [ffmpeg.input(..).output(..).run(..)]. *)
Record FfmpegArgs : Type :=
  { ff_input : string; ff_pattern_type : string; ff_framerate : PyVal;
    ff_output : string; ff_crf : Z; ff_preset : string; ff_movflags : string;
    ff_pix_fmt : string; ff_vcodec : string;
    ff_overwrite_output : bool; ff_quiet : bool }.

(** Everything the program does to the outside, in the order it does it. *)
Inductive Event : Type :=
| StMarkdown (text : string)
| StWrite (text : string)
| StImage (image : Image)
| StError (msg : string)
| StSuccess (msg : string)
| StWarning (msg : string)
| StVideo (video : FileData)
| Print (msg : string)
| PrintFailure (blob : list Byte.byte)
| S3UploadFile (Filename : string) (Bucket : PyVal) (Key ContentType : string)
| InvokeEndpointAsync (EndpointName : PyVal) (InputLocation : string)
    (InvocationTimeoutSeconds : Z)
| HeadObject (Bucket Key : string)
| DownloadFile (Bucket Key Filename : string)
| DownloadFileobj (Bucket Key : string)
| Sleep (seconds : Z)
| FfmpegRun (args : FfmpegArgs).

Record World : Type :=
  { session_state : gmap string PyVal;
    files : gmap string FileData;
    s3 : gmap (string * string) FileData;
    log : list Event }.

Definition set_session_state (f : gmap string PyVal → gmap string PyVal)
    (w : World) : World :=
  {| session_state := f (session_state w); files := files w;
     s3 := s3 w; log := log w |}.
Definition set_files (f : gmap string FileData → gmap string FileData)
    (w : World) : World :=
  {| session_state := session_state w; files := f (files w);
     s3 := s3 w; log := log w |}.
Definition set_s3
    (f : gmap (string * string) FileData → gmap (string * string) FileData)
    (w : World) : World :=
  {| session_state := session_state w; files := files w;
     s3 := f (s3 w); log := log w |}.
Definition set_log (f : list Event → list Event) (w : World) : World :=
  {| session_state := session_state w; files := files w;
     s3 := s3 w; log := f (log w) |}.

(** What the user did on the page before this run of the script: the file in
    the uploader, the widgets they changed (by label), the buttons pressed. *)
Record UserInput : Type :=
  { file_uploader : option UploadedFile;
    inputs : gmap string PyVal;
    buttons : gset string }.

(** The library functions the client calls (PIL, os.path, urllib, the
    built-in [open]), next to [Base64].  [open_error path] is what the
    operating system raises when it refuses to open [path] for another
    reason than a missing file (a name that is too long, a directory). *)
Class PyLib : Type :=
  { Image_open : UploadedFile → exn + Image;
    jpeg_save : Image → exn + list Byte.byte;
    splitext : string → string;
    urlparse : string → string * string;
    repr : PyVal → string;
    open_error : string → option exn }.

(** The remote side: the bucket, the endpoint and the encoder process. The
    poller's three calls are answered per iteration of its loop. *)
Record Remote : Type :=
  { s3_upload_file : PyVal → string → option exn;
    invoke_endpoint_async : PyVal → string → Z → exn + InvokeResponse;
    head_object : nat → string → string → option exn;
    download_file : nat → string → string → exn + FileData;
    download_fileobj : nat → string → string → exn + list Byte.byte;
    ffmpeg_run : FfmpegArgs → option exn }.

(** *** Primitives *)

Definition add_events (evs : list Event) : World → World :=
  set_log (λ l, l ++ evs).
Definition emit (e : Event) : M World unit := modify (add_events [e]).

(** [st.session_state[k]], [st.session_state.get(k)] and assignment. *)
Definition ss_getitem (k : string) : M World PyVal :=
  λ w, match session_state w !! k with
       | Some v => (Ret v, w)
       | None => (Raise (PyError "KeyError"), w)
       end.
Definition ss_get (k : string) : M World PyVal :=
  gets (λ w, default VNone (session_state w !! k)).
Definition ss_setitem (k : string) (v : PyVal) : M World unit :=
  modify (set_session_state (insert k v)).

Definition write_file (path : string) (d : FileData) : M World unit :=
  modify (set_files (insert path d)).
Definition read_file (path : string) : M World FileData :=
  λ w, match files w !! path with
       | Some d => (Ret d, w)
       | None => (Raise (PyError "FileNotFoundError"), w)
       end.

(** [str(v)], as an f-string formats a value. *)
Definition py_str {pylib : PyLib} (v : PyVal) : string :=
  match v with
  | VStr s => s
  | VNone => "None"
  | VBool true => "True"
  | VBool false => "False"
  | v => repr v
  end.

(** [f"{n:02}"] for an index [n ≥ 0]: decimal, at least two digits. *)
Definition format_02 (n : nat) : string :=
  if (n <? 10)%nat then "0" +:+ pretty n else pretty n.

(** Seconds slept so far. *)
Definition elapsed (l : list Event) : Z :=
  foldr (λ e t, match e with Sleep s => s + t | _ => t end) 0 l.

(** How often the success location was checked, and how often the failure
    location was fetched. *)
Definition is_check (e : Event) : bool :=
  match e with HeadObject _ _ => true | _ => false end.
Definition is_failure_fetch (e : Event) : bool :=
  match e with DownloadFileobj _ _ => true | _ => false end.
Definition checks (l : list Event) : nat :=
  length (List.filter is_check l).
Definition failure_fetches (l : list Event) : nat :=
  length (List.filter is_failure_fetch l).

(** Whether [json.dump] takes the value. *)
Definition json_serializable (v : PyVal) : bool :=
  match v with VFile _ => false | _ => true end.

(** [path[1:]]. *)
Definition str_from1 (s : string) : string :=
  match s with EmptyString => EmptyString | String _ s' => s' end.

(** [code in ("NoSuchKey", "404")]. *)
Definition not_found (code : string) : bool :=
  bool_decide (code ∈ ["NoSuchKey"; "404"]).

(** *** The glob of the encoder, [frames_out/*.jpg]

    The encoder is a process outside the repository; its glob gives the
    matching paths in the order of their bytes. *)

Fixpoint has_slash (s : string) : bool :=
  match s with
  | EmptyString => false
  | String a s' => Ascii.eqb a "/"%char || has_slash s'
  end.

Definition ends_with (suffix s : string) : bool :=
  match strip_prefix (String.rev suffix) (String.rev s) with
  | Some _ => true
  | None => false
  end.

Definition is_frame_jpg (path : string) : bool :=
  match strip_prefix "frames_out/" path with
  | Some base =>
      negb (has_slash base) && negb (String.prefix "." base)
      && ends_with ".jpg" base
  | None => false
  end.

Definition glob_jpg (fs : gmap string FileData) : list string :=
  merge_sort String.le
    (filter (λ p, is_frame_jpg p = true) (elements (dom fs))).

(** The pictures the encoder reads, in the order it reads them. *)
Definition pictures (fs : gmap string FileData) : list (list Byte.byte) :=
  omap (λ p, match fs !! p with Some (Bytes b) => Some b | _ => None end)
       (glob_jpg fs).

Definition frame_name (idx : nat) : string :=
  "frames_out/frame_" +:+ format_02 (idx + 1) +:+ ".jpg".

(** The names of the first 99 frames, [frame_01.jpg] to [frame_99.jpg]. *)
Definition names99 : list string := frame_name <$> seq 0 99.

Section Program.

Context {codec : Base64} {pylib : PyLib} (remote : Remote) (ui : UserInput).

(** *** [configure_page] *)
Definition configure_page : M World unit :=
  emit (StMarkdown "custom_css") >>
  emit (StMarkdown "# Generative Video Creation") >>
  emit (StMarkdown
          "### Stable Video Diffusion XT 1.1 Image-to-Video Generation") >>
  emit (StMarkdown "---").

(** *** [reset_session_states] *)
Definition session_state_defaults : list (string * PyVal) :=
  [ ("aws_region", VStr "us-east-1");
    ("s3_bucket", VStr S3_BUCKET);
    ("sagemaker_endpoint_name", VStr ENDPOINT_NAME);
    ("play_video_disabled", VBool true);
    ("invocation_time", VInt 0);
    ("movie_title", VNone);
    ("width", VInt 1024);
    ("height", VInt 576);
    ("num_frames", VInt 25);
    ("num_inference_steps", VInt 25);
    ("min_guidance_scale", VFloat 1.0);
    ("max_guidance_scale", VFloat 3.0);
    ("fps", VInt 6);
    ("motion_bucket_id", VInt 127);
    ("noise_aug_strength", VFloat 0.02);
    ("decode_chunk_size", VInt 8);
    ("seed", VInt 42);
    ("uploaded_image", VNone) ].

Definition set_default (ss : gmap string PyVal) (kv : string * PyVal)
    : gmap string PyVal :=
  match ss !! kv.1 with
  | Some _ => ss
  | None => <[kv.1 := kv.2]> ss
  end.

Definition reset_session_states : M World unit :=
  modify (set_session_state
            (λ ss, foldl set_default ss session_state_defaults)).

(** *** [display_image] and [handle_file_upload] *)
Definition display_image (image : Image) : M World unit :=
  emit (StWrite "Conditioning Image :camera:") >> emit (StImage image).

Definition handle_file_upload : M World unit :=
  match file_uploader ui with
  | Some uploaded_file =>
      if MAX_FILE_SIZE <? size uploaded_file then
        emit (StError "The uploaded file is too large. Please upload an image smaller than 5 MiB.")
      else
        ss_setitem "uploaded_image" (VFile uploaded_file) >>
        ss_setitem "movie_title" (VStr (splitext (name uploaded_file))) >>
        let* image := call (Image_open uploaded_file) in
        ss_setitem "width" (VInt (im_width image)) >>
        ss_setitem "height" (VInt (im_height image)) >>
        display_image image
  | None => ret tt
  end.

(** *** [display_input_fields]

    A widget gives what the user entered, or its [value] argument. *)
Definition widget (label : string) (value : PyVal) : PyVal :=
  default value (inputs ui !! label).

(** [st.session_state[target] = st.xxx_input(label,
    value=st.session_state[source])]. *)
Definition input_field (target label source : string) : M World unit :=
  let* value := ss_getitem source in
  ss_setitem target (widget label value).

Definition display_input_fields : M World unit :=
  input_field "region" "AWS Region" "aws_region" >>
  input_field "s3_bucket" "S3 Bucket" "s3_bucket" >>
  input_field "sagemaker_endpoint_name" "SageMaker Endpoint name"
              "sagemaker_endpoint_name" >>
  input_field "movie_title" "Movie Title" "movie_title" >>
  input_field "width" "Width" "width" >>
  input_field "height" "Height" "height" >>
  input_field "num_frames" "Number of Frames" "num_frames" >>
  input_field "num_inference_steps" "Number of Inference Steps"
              "num_inference_steps" >>
  input_field "min_guidance_scale" "Minimum Guidance Scale"
              "min_guidance_scale" >>
  input_field "max_guidance_scale" "Maximum Guidance Scale"
              "max_guidance_scale" >>
  input_field "fps" "Frames per Second" "fps" >>
  input_field "motion_bucket_id" "Motion Bucket ID" "motion_bucket_id" >>
  input_field "noise_aug_strength" "Noise Augmentation Strength"
              "noise_aug_strength" >>
  input_field "decode_chunk_size" "Decode Chunk Size"
              "decode_chunk_size" >>
  input_field "seed" "Seed" "seed".

(** *** [upload_file] *)
Definition upload_file (file_path : string) : M World unit :=
  let* bucket := ss_get "s3_bucket" in
  emit (S3UploadFile file_path bucket
          "async_inference/input/payload.json" "application/json") >>
  let* body := read_file file_path in
  call_ (s3_upload_file remote bucket
           "async_inference/input/payload.json") >>
  match bucket with
  | VStr b =>
      modify (set_s3 (insert (b, "async_inference/input/payload.json") body))
  | _ => raise (PyError "ParamValidationError")
  end.

(** *** [encode_image] *)
Definition encode_image (image : Image) : M World string :=
  let* jpeg := call (jpeg_save image) in
  ret ("data:text/plain;base64," +:+ b64encode jpeg).

(** *** [invoke_model] *)

(** [Image.open(v)] on what the session holds for the upload. *)
Definition Image_open_value (v : PyVal) : exn + Image :=
  match v with
  | VFile f => Image_open f
  | _ => inl (PyError "AttributeError")
  end.

(** [with open(path, "w") as f: json.dump(data, f)]. *)
Definition json_dump (data : gmap string PyVal) (path : string)
    : M World unit :=
  write_file path (Bytes []) >>
  if bool_decide (map_Forall (λ _ v, json_serializable v = true) data)
  then write_file path (RequestJson data)
  else raise (PyError "TypeError").

(** The dictionary [data] of [invoke_model], by the session it is read from
    and the encoded image. *)
Definition request_document (ss : gmap string PyVal) (encoded : string)
    : gmap string PyVal :=
  list_to_map
    [ ("movie_title", default VNone (ss !! "movie_title"));
      ("image", VStr encoded);
      ("width", default VNone (ss !! "width"));
      ("height", default VNone (ss !! "height"));
      ("num_frames", default VNone (ss !! "num_frames"));
      ("num_inference_steps", default VNone (ss !! "num_inference_steps"));
      ("min_guidance_scale", default VNone (ss !! "min_guidance_scale"));
      ("max_guidance_scale", default VNone (ss !! "max_guidance_scale"));
      ("fps", default VNone (ss !! "fps"));
      ("motion_bucket_id", default VNone (ss !! "motion_bucket_id"));
      ("noise_aug_strength", default VNone (ss !! "noise_aug_strength"));
      ("decode_chunk_size", default VNone (ss !! "decode_chunk_size"));
      ("seed", default VNone (ss !! "seed")) ].

Definition invoke_model : M World InvokeResponse :=
  let* uploaded_image := ss_getitem "uploaded_image" in
  let* image := call (Image_open_value uploaded_image) in
  let* movie_title := ss_getitem "movie_title" in
  let* encoded := encode_image image in
  let* width := ss_getitem "width" in
  let* height := ss_getitem "height" in
  let* num_frames := ss_getitem "num_frames" in
  let* num_inference_steps := ss_getitem "num_inference_steps" in
  let* min_guidance_scale := ss_getitem "min_guidance_scale" in
  let* max_guidance_scale := ss_getitem "max_guidance_scale" in
  let* fps := ss_getitem "fps" in
  let* motion_bucket_id := ss_getitem "motion_bucket_id" in
  let* noise_aug_strength := ss_getitem "noise_aug_strength" in
  let* decode_chunk_size := ss_getitem "decode_chunk_size" in
  let* seed := ss_getitem "seed" in
  let data : gmap string PyVal :=
    list_to_map
      [ ("movie_title", movie_title);
        ("image", VStr encoded);
        ("width", width);
        ("height", height);
        ("num_frames", num_frames);
        ("num_inference_steps", num_inference_steps);
        ("min_guidance_scale", min_guidance_scale);
        ("max_guidance_scale", max_guidance_scale);
        ("fps", fps);
        ("motion_bucket_id", motion_bucket_id);
        ("noise_aug_strength", noise_aug_strength);
        ("decode_chunk_size", decode_chunk_size);
        ("seed", seed) ] in
  json_dump data REQUEST_PAYLOAD >>
  upload_file REQUEST_PAYLOAD >>
  let* _region := ss_getitem "aws_region" in
  let* endpoint_name := ss_getitem "sagemaker_endpoint_name" in
  let* s3_bucket := ss_getitem "s3_bucket" in
  let input_location :=
    "s3://" +:+ py_str s3_bucket +:+ "/async_inference/input/payload.json" in
  emit (InvokeEndpointAsync endpoint_name input_location 3600) >>
  call (invoke_endpoint_async remote endpoint_name input_location 3600).

(** *** [get_model_response]

    One turn of the [while True] loop: [Some b] is [return b], [None] is
    [continue]. *)
Definition poll_iteration (bucket key failure_bucket failure_key : string)
    (i : nat) : M World (option bool) :=
  try_except_ClientError
    (emit (HeadObject bucket key) >>
     call_ (head_object remote i bucket key) >>
     emit (DownloadFile bucket key RESPONSE_PAYLOAD) >>
     let* body := call (download_file remote i bucket key) in
     write_file RESPONSE_PAYLOAD body >>
     emit (Print "Model response successfully received.") >>
     ret (Some true))
    (λ code,
       if not_found code then
         emit (Print "Waiting for model output...") >>
         let* returned :=
           try_except_Exception
             (emit (DownloadFileobj failure_bucket failure_key) >>
              let* blob :=
                call (download_fileobj remote i failure_bucket failure_key) in
              emit (PrintFailure blob) >>
              ret (Some false))
             (λ _, ret None) in
         match returned with
         | Some b => ret (Some b)
         | None => emit (Sleep 15) >> ret None
         end
       else raise (ClientError code)).

Definition get_model_response (fuel : nat)
    (invoke_response : InvokeResponse) : M World bool :=
  let output_url := urlparse (OutputLocation invoke_response) in
  let bucket := output_url.1 in
  let key := str_from1 output_url.2 in
  let failure_url := urlparse (FailureLocation invoke_response) in
  let failure_bucket := failure_url.1 in
  let failure_key := str_from1 failure_url.2 in
  let* _region := ss_getitem "aws_region" in
  while_True fuel (poll_iteration bucket key failure_bucket failure_key) 0.

(** What a turn of the loop meets: the vocabulary of the poller's
    properties. *)

(** The two locations of a job. *)
Definition success_location (r : InvokeResponse) : string * string :=
  ((urlparse (OutputLocation r)).1, str_from1 (urlparse (OutputLocation r)).2).
Definition failure_location (r : InvokeResponse) : string * string :=
  ((urlparse (FailureLocation r)).1, str_from1 (urlparse (FailureLocation r)).2).

(** What the check of the success location gives at turn [i]: the
    [head_object] call, then the [download_file] call. *)
Definition success_check (r : InvokeResponse) (i : nat) : exn + FileData :=
  match head_object remote i (success_location r).1 (success_location r).2 with
  | Some e => inl e
  | None => download_file remote i (success_location r).1 (success_location r).2
  end.

(** The calls that check makes. *)
Definition success_events (r : InvokeResponse) (i : nat) : list Event :=
  HeadObject (success_location r).1 (success_location r).2 ::
  match head_object remote i (success_location r).1 (success_location r).2 with
  | Some _ => []
  | None => [DownloadFile (success_location r).1 (success_location r).2
               RESPONSE_PAYLOAD]
  end.

Definition failure_fetch (r : InvokeResponse) (i : nat)
    : exn + list Byte.byte :=
  download_fileobj remote i (failure_location r).1 (failure_location r).2.

(** The error kinds that keep the loop waiting. *)
Definition is_not_found (e : exn) : bool :=
  match e with
  | ClientError code => not_found code
  | PyError _ => false
  end.

(** Turn [i] finds nothing at either location. *)
Definition pending_at (r : InvokeResponse) (i : nat) : Prop :=
  (∃ e, success_check r i = inl e ∧ is_not_found e = true) ∧
  (∃ e, failure_fetch r i = inl e).

Definition turn (r : InvokeResponse) : nat → M World (option bool) :=
  poll_iteration (success_location r).1 (success_location r).2
    (failure_location r).1 (failure_location r).2.

(** The loop of [get_model_response], once the client has been made. *)
Definition poll_loop (fuel : nat) (r : InvokeResponse) : M World bool :=
  while_True fuel (turn r) 0.

(** *** [process_video_frames] *)

(** The [for idx, video_frame in enumerate(..)] loop, from index [idx]:
    the file is opened (created or emptied) before the frame is decoded. *)
Fixpoint write_frames (idx : nat) (video_frames : list string)
    : M World unit :=
  match video_frames with
  | [] => ret tt
  | video_frame :: rest =>
      write_file (frame_name idx) (Bytes []) >>
      let* decoded := call (b64decode video_frame) in
      write_file (frame_name idx) (Bytes decoded) >>
      write_frames (S idx) rest
  end.

Definition process_video_frames : M World unit :=
  let* payload := read_file RESPONSE_PAYLOAD in
  match payload with
  | ResultJson data => write_frames 0 (frames data)
  | RequestJson _ => raise (PyError "KeyError")
  | _ => raise (PyError "JSONDecodeError")
  end.

(** What the loop leaves on disk when the frames decode to [decoded], and
    the frames decoding to them: the vocabulary of the decoder's
    properties. *)
Fixpoint store_frames (idx : nat) (decoded : list (list Byte.byte))
    (fs : gmap string FileData) : gmap string FileData :=
  match decoded with
  | [] => fs
  | d :: rest => store_frames (S idx) rest (<[frame_name idx := Bytes d]> fs)
  end.

Definition decodes (video_frames : list string)
    (decoded : list (list Byte.byte)) : Prop :=
  Forall2 (λ f d, b64decode f = inr d) video_frames decoded.

(** *** [convert_frames_to_video]

    When the encoder process succeeds, the video holds the pictures its
    glob found, at the frame rate it was given. *)
Definition convert_frames_to_video (video_path : string) : M World unit :=
  let* fps := ss_getitem "fps" in
  let args :=
    {| ff_input := "frames_out/*.jpg"; ff_pattern_type := "glob";
       ff_framerate := fps; ff_output := video_path;
       ff_crf := 20; ff_preset := "slower"; ff_movflags := "faststart";
       ff_pix_fmt := "yuv420p"; ff_vcodec := "libx264";
       ff_overwrite_output := true; ff_quiet := true |} in
  emit (FfmpegRun args) >>
  call_ (ffmpeg_run remote args) >>
  let* fs := gets files in
  write_file video_path (Video fps (pictures fs)).

(** *** [play_video] *)

(** [except FileNotFoundError]. *)
Definition is_missing_file (e : exn) : bool :=
  match e with PyError "FileNotFoundError" => true | _ => false end.

(** [open(path, "rb")] and [.read()]: the operating system may refuse the
    path, and a file that is not there is [FileNotFoundError]. *)
Definition open_rb (path : string) : M World FileData :=
  call_ (open_error path) >> read_file path.

Definition play_video (video_path : string) : M World unit :=
  ss_setitem "play_video_disabled" (VBool false) >>
  if bool_decide ("Play Video" ∈ buttons ui) then
    try_except_Exception
      (let* video := open_rb video_path in emit (StVideo video))
      (λ e, if is_missing_file e
            then emit (StWarning
                         "Video does not exist. Please create the video first.")
            else raise e)
  else ret tt.

(** How [play_video] ends and what it shows, by the buttons, the path and
    the files: the vocabulary of its properties. *)
Definition play_video_outcome (path : string) (fs : gmap string FileData)
    : outcome unit * list Event :=
  if bool_decide ("Play Video" ∈ buttons ui) then
    match open_error path with
    | Some e =>
        if is_missing_file e
        then (Ret tt,
              [StWarning "Video does not exist. Please create the video first."])
        else (Raise e, [])
    | None =>
        match fs !! path with
        | Some video => (Ret tt, [StVideo video])
        | None =>
            (Ret tt,
             [StWarning "Video does not exist. Please create the video first."])
        end
    end
  else (Ret tt, []).

(** *** [handle_video_creation] *)
Definition video_path_of (movie_title : PyVal) : string :=
  "video_out/" +:+ py_str movie_title +:+ ".mp4".

Definition handle_video_creation (fuel : nat) : M World unit :=
  (if bool_decide ("Create Video" ∈ buttons ui) then
     let* response := invoke_model in
     let* received := get_model_response fuel response in
     if received then
       process_video_frames >>
       let* movie_title := ss_getitem "movie_title" in
       let video_path := video_path_of movie_title in
       convert_frames_to_video video_path >>
       emit (StSuccess ("Video created: " +:+ video_path))
     else ret tt
   else ret tt) >>
  let* movie_title := ss_getitem "movie_title" in
  play_video (video_path_of movie_title).

(** *** [main]: one run of the script *)
Definition main (fuel : nat) : M World unit :=
  configure_page >>
  reset_session_states >>
  handle_file_upload >>
  display_input_fields >>
  handle_video_creation fuel.

End Program.

(** *** The page before the button

    The script up to [handle_video_creation], and what it makes of the
    session: the vocabulary of the page's properties. *)

Definition field_table : list (string * string * string) :=
  [ ("region", "AWS Region", "aws_region");
    ("s3_bucket", "S3 Bucket", "s3_bucket");
    ("sagemaker_endpoint_name", "SageMaker Endpoint name", "sagemaker_endpoint_name");
    ("movie_title", "Movie Title", "movie_title");
    ("width", "Width", "width");
    ("height", "Height", "height");
    ("num_frames", "Number of Frames", "num_frames");
    ("num_inference_steps", "Number of Inference Steps", "num_inference_steps");
    ("min_guidance_scale", "Minimum Guidance Scale", "min_guidance_scale");
    ("max_guidance_scale", "Maximum Guidance Scale", "max_guidance_scale");
    ("fps", "Frames per Second", "fps");
    ("motion_bucket_id", "Motion Bucket ID", "motion_bucket_id");
    ("noise_aug_strength", "Noise Augmentation Strength", "noise_aug_strength");
    ("decode_chunk_size", "Decode Chunk Size", "decode_chunk_size");
    ("seed", "Seed", "seed") ].

Definition after_reset (ss : gmap string PyVal) : gmap string PyVal :=
  foldl set_default ss session_state_defaults.

Definition after_upload {pylib : PyLib} (f : UploadedFile) (image : Image)
    (ss : gmap string PyVal) : gmap string PyVal :=
  <["height" := VInt (im_height image)]>
    (<["width" := VInt (im_width image)]>
       (<["movie_title" := VStr (splitext (name f))]>
          (<["uploaded_image" := VFile f]> ss))).

Definition field_update (ui : UserInput) (ss : gmap string PyVal) (row : string * string * string)
    : gmap string PyVal :=
  <[row.1.1 := widget ui row.1.2 (default VNone (ss !! row.2))]> ss.

Definition after_fields (ui : UserInput) (ss : gmap string PyVal) : gmap string PyVal :=
  foldl (field_update ui) ss field_table.

Definition page {pylib : PyLib} (ui : UserInput) : M World unit :=
  configure_page >> reset_session_states >> handle_file_upload ui >>
  display_input_fields ui.

(** The fields of the page, one after the other. *)
Fixpoint fields_loop (ui : UserInput) (table : list (string * string * string)) : M World unit :=
  match table with
  | [] => ret tt
  | (target, label, source) :: rest =>
      input_field ui target label source >> fields_loop ui rest
  end.

Definition targets (table : list (string * string * string)) : list string :=
  (λ row, row.1.1) <$> table.

(** What the page shows before the upload, and the message for a file over
    the limit. *)
Definition page_events : list Event :=
  [ StMarkdown "custom_css";
    StMarkdown "# Generative Video Creation";
    StMarkdown "### Stable Video Diffusion XT 1.1 Image-to-Video Generation";
    StMarkdown "---" ].

Definition too_large : string :=
  "The uploaded file is too large. Please upload an image smaller than 5 MiB.".

(** The keys the upload writes, and the keys of the request next to the
    image. *)
Definition upload_keys : list string :=
  ["uploaded_image"; "movie_title"; "width"; "height"].
Definition request_fields : list string :=
  [ "movie_title"; "width"; "height"; "num_frames"; "num_inference_steps";
    "min_guidance_scale"; "max_guidance_scale"; "fps"; "motion_bucket_id";
    "noise_aug_strength"; "decode_chunk_size"; "seed" ].

(** The runs of the encoder among the events, and the events that only show
    something on the page. *)
Definition is_encoder_run (e : Event) : bool :=
  match e with FfmpegRun _ => true | _ => false end.
Definition encoder_runs (l : list Event) : list Event :=
  List.filter is_encoder_run l.
Definition is_display (e : Event) : bool :=
  match e with
  | StMarkdown _ | StWrite _ | StImage _ | StError _ | StSuccess _
  | StWarning _ | StVideo _ => true
  | _ => false
  end.

End App.

(** ** Stand-ins for the libraries and the remote side

    Concrete library functions and remote behaviours, to run the programs on
    concrete inputs. *)

Module Demo.

Import App.
Local Open Scope Z_scope.

(** [os.path.splitext(name)[0]] for a plain file name. *)
Fixpoint drop_ext (rev_name : string) : option string :=
  match rev_name with
  | EmptyString => None
  | String c rest =>
      if Ascii.eqb c "." then Some (String.rev rest) else drop_ext rest
  end.
Definition splitext_root (name : string) : string :=
  default name (drop_ext (String.rev name)).

(** [urlparse] on [scheme://netloc/path]: the network location and the
    path. *)
Fixpoint split_slash (s : string) : string * string :=
  match s with
  | EmptyString => (EmptyString, EmptyString)
  | String c rest =>
      if Ascii.eqb c "/" then (EmptyString, s)
      else let (netloc, path) := split_slash rest in (String c netloc, path)
  end.
Definition urlparse_s3 (url : string) : string * string :=
  match strip_prefix "s3://" url with
  | Some rest => split_slash rest
  | None => (EmptyString, url)
  end.

(** A client library in which every upload decodes to [picture], the JPEG of
    a picture is its pixel bytes, and a path of more than 255 characters
    cannot be opened. *)
Definition lib (picture : Image) : PyLib :=
  {| Image_open := λ _, inr picture;
     jpeg_save := λ image, inr (im_pixels image);
     splitext := splitext_root;
     urlparse := urlparse_s3;
     repr := λ v, match v with VInt z => pretty z | _ => "<object>" end;
     open_error := λ path,
       if (255 <? String.length path)%nat then Some (PyError "OSError")
       else None |}.

(** A stand-in for [Image.thumbnail] on integer sizes: an image that fits
    is left alone, a larger one is scaled down in proportion, rounding down,
    to at least one pixel; and a stand-in for [torch.manual_seed], which
    takes the integers of 64 bits. *)
Definition shrink (source : Image) (size : PyVal * PyVal) : exn + Image :=
  match size with
  | (VInt x, VInt y) =>
      if (x <=? 0) || (y <=? 0) || (im_width source <=? 0)
         || (im_height source <=? 0)
      then inl (PyError "ValueError")
      else if (im_width source <=? x) && (im_height source <=? y)
      then inr source
      else if im_width source * y <=? x * im_height source
      then inr {| im_width := Z.max (y * im_width source / im_height source) 1;
                  im_height := y; im_pixels := im_pixels source |}
      else inr {| im_width := x;
                  im_height := Z.max (x * im_height source / im_width source) 1;
                  im_pixels := im_pixels source |}
  | _ => inl (PyError "TypeError")
  end.

Definition seed_generator (seed : PyVal) : exn + PyVal :=
  match seed with
  | VInt z =>
      if (0 <=? z) && (z <? 2 ^ 64) then inr (VInt z)
      else inl (PyError "RuntimeError")
  | _ => inl (PyError "TypeError")
  end.

(** A handler library in which every payload decodes to [picture] and the
    pipeline answers with [num_frames] frames of the size it is called with,
    frame [i] holding the byte [i]. *)
Definition frame (w h : Z) (i : nat) : Image :=
  {| im_width := w; im_height := h;
     im_pixels := [PyBase64.byte_of_N (N.of_nat i)] |}.

Definition handler_lib (picture : Image) : Inference.Lib :=
  {| Inference.Image_open_bytes := λ _, inr picture;
     Inference.load_image := λ _, inl (PyError "OSError");
     Inference.Image_thumbnail := shrink;
     Inference.manual_seed := seed_generator;
     Inference.frame_jpeg := im_pixels;
     Inference.pipe := λ args,
       match Inference.p_num_frames args with
       | VInt n =>
           inr (frame (Inference.p_width args) (Inference.p_height args)
                  <$> seq 1 (Z.to_nat n))
       | _ => inl (PyError "TypeError")
       end |}.

Definition job : InvokeResponse :=
  {| OutputLocation := "s3://demo-bucket/async_inference/output/job.out";
     FailureLocation := "s3://demo-bucket/async_inference/failure/job-error.out" |}.

(** A remote side that accepts every upload and every invocation, runs the
    encoder without error, and answers the poller as scripted: [answer i]
    for the success location and [failure i] for the failure location at
    turn [i]. *)
Definition scripted (answer : nat → exn + FileData)
    (failure : nat → exn + list Byte.byte) : Remote :=
  {| s3_upload_file := λ _ _, None;
     invoke_endpoint_async := λ _ _ _, inr job;
     head_object := λ i _ _,
       match answer i with inl e => Some e | inr _ => None end;
     download_file := λ i _ _, answer i;
     download_fileobj := λ i _ _, failure i;
     ffmpeg_run := λ _, None |}.

(** Neither location ever holds anything. *)
Definition never_ready : Remote :=
  scripted (λ _, inl (ClientError "404")) (λ _, inl (ClientError "NoSuchKey")).

(** Nothing for [n] turns, then the result; a failure record lies at the
    failure location from that same turn on. *)
Definition ready_at (n : nat) (doc : ResultDoc) : Remote :=
  scripted
    (λ i, if (i <? n)%nat then inl (ClientError "404") else inr (ResultJson doc))
    (λ i, if (i <? n)%nat then inl (ClientError "NoSuchKey")
          else inr [Byte.x21]).

(** Nothing for [n] turns, then the bucket denies access. *)
Definition denied_at (n : nat) : Remote :=
  scripted
    (λ i, if (i <? n)%nat then inl (ClientError "404")
          else inl (ClientError "AccessDenied"))
    (λ _, inl (ClientError "NoSuchKey")).

(** Nothing at the success location, and a failure location the client may
    not read. *)
Definition unreadable_failure : Remote :=
  scripted (λ _, inl (ClientError "404"))
           (λ _, inl (ClientError "AccessDenied")).

(** Nothing for [n] turns, then only a failure record. *)
Definition failed_at (n : nat) : Remote :=
  scripted
    (λ _, inl (ClientError "404"))
    (λ i, if (i <? n)%nat then inl (ClientError "NoSuchKey")
          else inr [Byte.x21]).

Definition empty_world : World :=
  {| session_state := ∅; files := ∅; s3 := ∅; log := [] |}.

(** A 64 x 64 picture, and the client library that decodes every upload to
    it. *)
Definition picture : Image :=
  {| im_width := 64; im_height := 64; im_pixels := [Byte.x50; Byte.x49] |}.
Definition client_lib : PyLib := lib picture.

(** A result document of two frames. *)
Definition two_frames : ResultDoc :=
  {| frames := ["AQ=="; "Ag=="]; config := {["fps" := VInt 6]} |}.

(** An upload of 4096 bytes, the page with that upload, untouched widgets
    and the "Create Video" button pressed, and the world after the script has
    shown the page from the empty world. *)
Definition upload : UploadedFile :=
  {| name := "demo.png"; size := 4096; data := [] |}.
Definition page : UserInput :=
  {| file_uploader := Some upload; inputs := ∅; buttons := {["Create Video"]} |}.
Definition shown : World :=
  ((configure_page >> reset_session_states >>
    handle_file_upload (pylib := client_lib) page >>
    display_input_fields page)%py empty_world).2.

(** Staging the request of the session of [w], and two stagings in a row, the
    second under another movie title. *)
Definition stage (w : World) : outcome InvokeResponse * World :=
  invoke_model (codec := PyBase64.base64) (pylib := client_lib) never_ready w.
Definition staged_once : World := (stage shown).2.
Definition retitled : World :=
  set_session_state (insert "movie_title" (VStr "sequel")) staged_once.
Definition staged_twice : World := (stage retitled).2.

(** The world after the poller has downloaded [doc], and decoding from
    there. *)
Definition downloaded (doc : ResultDoc) : World :=
  {| session_state := ∅; files := {[RESPONSE_PAYLOAD := ResultJson doc]};
     s3 := ∅; log := [] |}.
Definition decode_run (doc : ResultDoc) : outcome unit * World :=
  process_video_frames (codec := PyBase64.base64) (downloaded doc).

(** A hundred frames: frame [i] is the one byte [i], base64-encoded. *)
Definition hundred_pictures : list (list Byte.byte) :=
  (λ i, [PyBase64.byte_of_N (N.of_nat i)]) <$> seq 1 100.
Definition hundred_frames : ResultDoc :=
  {| frames := PyBase64.encode <$> hundred_pictures; config := ∅ |}.

(** A request that names only the title and the image, the same request
    asking for 1024 x 576, a 2048 x 1536 picture, and the handler on a request
    whose image decodes to a given picture. *)
Definition bare_request : gmap string PyVal :=
  list_to_map [ ("movie_title", VStr "demo");
                ("image", VStr "data:text/plain;base64,UEk=") ].
Definition sized_request : gmap string PyVal :=
  <["width" := VInt 1024]> (<["height" := VInt 576]> bare_request).
Definition handle (source : Image) (request : gmap string PyVal)
    : outcome ResultDoc * Inference.World :=
  Inference.predict_fn (codec := PyBase64.base64) (hlib := handler_lib source)
    {| Inference.data := request; Inference.pipe_calls := [] |}.

Definition answer (source : Image) (request : gmap string PyVal) : ResultDoc :=
  match (handle source request).1 with
  | Ret doc => doc
  | _ => {| frames := []; config := ∅ |}
  end.

(** The poller on the job, from a world whose session holds only the
    region. *)
Definition region_world : World :=
  {| session_state := {["aws_region" := VStr "us-east-1"]};
     files := ∅; s3 := ∅; log := [] |}.
Definition poll (remote : Remote) (fuel : nat) : outcome bool * World :=
  get_model_response (pylib := client_lib) remote fuel job region_world.

(** Uploads over and at the size limit, a page with a given upload on which
    the user has typed a region and a frame rate, a client library whose
    [Image.open] rejects every file, and the page shown from the empty
    world. *)
Definition big_upload : UploadedFile :=
  {| name := "big.png"; size := 5 * 1024 * 1024 + 1; data := [] |}.
Definition limit_upload : UploadedFile :=
  {| name := "limit.png"; size := 5 * 1024 * 1024; data := [] |}.
Definition with_upload (f : UploadedFile) : UserInput :=
  {| file_uploader := Some f;
     inputs := {["AWS Region" := VStr "eu-west-1"; "Frames per Second" := VInt 12]};
     buttons := {["Create Video"]} |}.
Definition broken_lib : PyLib :=
  {| Image_open := λ _, inl (PyError "UnidentifiedImageError");
     jpeg_save := λ image, inr (im_pixels image);
     splitext := Demo.splitext_root;
     urlparse := Demo.urlparse_s3;
     repr := λ _, "<object>";
     open_error := λ _, None |}.
Definition show (lib : PyLib) (ui : UserInput) : outcome unit * World :=
  App.page (pylib := lib) ui empty_world.

(** The script run again with the file over the limit, on the session that
    the first such run has left; and the same file put in the uploader of a
    session in which an upload had been accepted before. *)
Definition shown_again : outcome unit * World :=
  App.page (pylib := Demo.client_lib) (with_upload big_upload)
    (show Demo.client_lib (with_upload big_upload)).2.
Definition replaced : outcome unit * World :=
  App.page (pylib := Demo.client_lib) (with_upload big_upload) shown.

(** A world in which the response of two frames has been received, the
    frames of an earlier run of three frames, and the world of a second run
    that finds them in [frames_out]. *)
Definition received : World :=
  {| session_state := {["fps" := VInt 6]};
     files := {[RESPONSE_PAYLOAD := ResultJson Demo.two_frames]};
     s3 := ∅; log := [] |}.
Definition earlier_frames : list (list Byte.byte) :=
  [[Byte.x0a]; [Byte.x0b]; [Byte.x0c]].
Definition second_run : World :=
  set_files (store_frames 0 earlier_frames) received.

(** A run of the button on the shown page with a job that is ready at the
    second turn, a video path whose title has 300 letters, and a first run
    of the script with nothing uploaded and only Play Video pressed. *)
Definition created : outcome unit * World :=
  handle_video_creation (codec := PyBase64.base64) (pylib := Demo.client_lib)
    (Demo.ready_at 1 Demo.two_frames) Demo.page 5 Demo.shown.
Definition idle : UserInput :=
  {| file_uploader := None; inputs := ∅; buttons := {["Play Video"]} |}.
Definition long_path : string :=
  "video_out/" +:+ foldr (λ _ s, String "a" s) ".mp4" (seq 0 300).
Definition idle_run : outcome unit * World :=
  main (codec := PyBase64.base64) (pylib := Demo.client_lib)
    Demo.never_ready idle 5 Demo.empty_world.

End Demo.

(** * Properties *)

Import App.

Local Open Scope Z_scope.
Local Open Scope py_scope.

(** ** The monad *)

Lemma bind_Ret {W A B} (c : M W A) (k : A → M W B) w a w' :
  c w = (Ret a, w') → bind c k w = k a w'.
Proof. unfold bind. by intros ->. Qed.

Lemma bind_Raise {W A B} (c : M W A) (k : A → M W B) w e w' :
  c w = (Raise e, w') → bind c k w = (Raise e, w').
Proof. unfold bind. by intros ->. Qed.

(** Running the loop for [n + m] turns is running it for [n] turns and, when
    it has not left by then, for [m] more from where it stands; the body
    itself holds no loop. *)
Lemma while_True_add {W A} (body : nat → M W (option A)) n m i w :
  (∀ j v, (body j v).1 ≠ Running) →
  while_True (n + m) body i w =
    match while_True n body i w with
    | (Running, w') => while_True m body (i + n) w'
    | r => r
    end.
Proof.
  intros Hbody. revert i w. induction n as [|n IH]; intros i w; simpl.
  - by rewrite Nat.add_0_r.
  - unfold bind. specialize (Hbody i w).
    destruct (body i w) as [[[a|]|e|] w']; simpl in *; try done.
    rewrite IH. by replace (S i + n)%nat with (i + S n)%nat by lia.
Qed.

(** After [n] turns that all ended in [continue], the next turn decides. *)
Lemma while_True_next {W A} (body : nat → M W (option A)) n m i w w' :
  (∀ j v, (body j v).1 ≠ Running) →
  while_True n body i w = (Running, w') →
  while_True (n + S m) body i w =
    bind (body (i + n)%nat)
      (λ r, match r with
            | Some a => ret a
            | None => while_True m body (S (i + n))
            end) w'.
Proof. intros Hbody Hn. by rewrite while_True_add, Hn. Qed.

(** ** Running a program step by step *)

Lemma wp_bind {W A B} (c : M W A) (k : A → M W B) Q w :
  wp c (λ o w', match o with
                | Ret a => wp (k a) Q w'
                | Raise e => Q (Raise e) w'
                | Running => Q Running w'
                end) w →
  wp (bind c k) Q w.
Proof. unfold wp, bind. by destruct (c w) as [[a|e|] w']. Qed.

Lemma wp_mono {W A} (c : M W A) (Q1 Q2 : outcome A → W → Prop) w :
  wp c Q1 w → (∀ o w', Q1 o w' → Q2 o w') → wp c Q2 w.
Proof. unfold wp. auto. Qed.

Lemma wp_ret {W A} (a : A) (Q : outcome A → W → Prop) w :
  Q (Ret a) w → wp (ret a) Q w.
Proof. done. Qed.

Lemma wp_raise {W A} e (Q : outcome A → W → Prop) w :
  Q (Raise e) w → wp (raise e) Q w.
Proof. done. Qed.

Lemma wp_running {W A} (Q : outcome A → W → Prop) w :
  Q Running w → wp running Q w.
Proof. done. Qed.

Lemma wp_gets {W A} (f : W → A) (Q : outcome A → W → Prop) w :
  Q (Ret (f w)) w → wp (gets f) Q w.
Proof. done. Qed.

Lemma wp_modify {W} (f : W → W) (Q : outcome unit → W → Prop) w :
  Q (Ret tt) (f w) → wp (modify f) Q w.
Proof. done. Qed.

Lemma wp_call {W A} (r : exn + A) (Q : outcome A → W → Prop) w :
  match r with inl e => Q (Raise e) w | inr a => Q (Ret a) w end →
  wp (call r) Q w.
Proof. by destruct r. Qed.

Lemma wp_call_ {W} (r : option exn) (Q : outcome unit → W → Prop) w :
  match r with Some e => Q (Raise e) w | None => Q (Ret tt) w end →
  wp (call_ r) Q w.
Proof. by destruct r. Qed.

Lemma wp_emit e (Q : outcome unit → World → Prop) w :
  Q (Ret tt) (add_events [e] w) → wp (emit e) Q w.
Proof. done. Qed.

Lemma wp_ss_getitem k (Q : outcome PyVal → World → Prop) w :
  match session_state w !! k with
  | Some v => Q (Ret v) w
  | None => Q (Raise (PyError "KeyError")) w
  end →
  wp (ss_getitem k) Q w.
Proof. unfold wp, ss_getitem. by destruct (session_state w !! k). Qed.

Lemma wp_ss_get k (Q : outcome PyVal → World → Prop) w :
  Q (Ret (default VNone (session_state w !! k))) w → wp (ss_get k) Q w.
Proof. done. Qed.

Lemma wp_ss_setitem k v (Q : outcome unit → World → Prop) w :
  Q (Ret tt) (set_session_state (insert k v) w) → wp (ss_setitem k v) Q w.
Proof. done. Qed.

Lemma wp_write_file p d (Q : outcome unit → World → Prop) w :
  Q (Ret tt) (set_files (insert p d) w) → wp (write_file p d) Q w.
Proof. done. Qed.

Lemma wp_read_file p (Q : outcome FileData → World → Prop) w :
  match files w !! p with
  | Some d => Q (Ret d) w
  | None => Q (Raise (PyError "FileNotFoundError")) w
  end →
  wp (read_file p) Q w.
Proof. unfold wp, read_file. by destruct (files w !! p). Qed.

(** From a run that ended in [(o, w')] to the steps it took. *)
Lemma wp_run {W A} (c : M W A) w o w' (G : Prop) :
  wp c (λ o1 w1, o1 = o → w1 = w' → G) w → c w = (o, w') → G.
Proof. unfold wp. intros H E. rewrite E in H. by apply H. Qed.

Lemma wp_eq {W A} (c : M W A) w : wp c (λ o w', c w = (o, w')) w.
Proof. unfold wp. by destruct (c w). Qed.

Ltac wp_simpl :=
  cbn [log session_state files s3 add_events set_log set_files set_s3
       set_session_state fst snd default from_option id];
  rewrite ?lookup_insert_eq.

(** Case analysis on what a call or a lookup gives, unless it is known. *)
Ltac wp_case x :=
  first [ match goal with H : ?y = _ |- _ => constr_eq x y; rewrite H end
        | destruct x eqn:? ].

Ltac wp_step :=
  lazymatch goal with
  | |- wp (bind _ _) _ _ => apply wp_bind
  | |- wp (ret _) _ _ => apply wp_ret
  | |- wp (raise _) _ _ => apply wp_raise
  | |- wp running _ _ => apply wp_running
  | |- wp (emit _) _ _ => apply wp_emit
  | |- wp (gets _) _ _ => apply wp_gets
  | |- wp (modify _) _ _ => apply wp_modify
  | |- wp (ss_setitem _ _) _ _ => apply wp_ss_setitem
  | |- wp (write_file _ _) _ _ => apply wp_write_file
  | |- wp (ss_get _) _ _ =>
      apply wp_ss_get; wp_simpl;
      lazymatch goal with |- context [default VNone ?x] => wp_case x end
  | |- wp (ss_getitem _) _ _ =>
      apply wp_ss_getitem; wp_simpl;
      lazymatch goal with |- match ?x with _ => _ end => wp_case x end
  | |- wp (read_file _) _ _ =>
      apply wp_read_file; wp_simpl;
      lazymatch goal with
      | |- match ?x with _ => _ end => wp_case x
      | |- _ => idtac
      end
  | |- wp (call _) _ _ =>
      apply wp_call;
      lazymatch goal with |- match ?x with _ => _ end => wp_case x end
  | |- wp (call_ _) _ _ =>
      apply wp_call_;
      lazymatch goal with |- match ?x with _ => _ end => wp_case x end
  | |- wp (match ?x with _ => _ end) _ _ => wp_case x
  end;
  cbv beta iota zeta; wp_simpl.

(** At the end of a path: the outcome it ends in against the one asked for. *)
Ltac wp_leaf :=
  lazymatch goal with
  | |- (_ = _) → _ =>
      let Ho := fresh "Ho" in intros Ho; try discriminate Ho
  end.

Ltac wp_go := repeat (wp_step; try wp_leaf).

(** ** The poller, [get_model_response] *)

Section Poller.

Context {pylib : PyLib} (remote : Remote).

(** [get_model_response] reads the region of the session before its loop:
    with the key it is the loop, without it it raises before the first
    call. *)
Lemma get_model_response_region fuel r w region :
  session_state w !! "aws_region" = Some region →
  get_model_response remote fuel r w = poll_loop remote fuel r w.
Proof.
  intros Hr. unfold get_model_response, bind, ss_getitem. by rewrite Hr.
Qed.

Lemma get_model_response_no_region fuel r w :
  session_state w !! "aws_region" = None →
  get_model_response remote fuel r w = (Raise (PyError "KeyError"), w).
Proof.
  intros Hr. unfold get_model_response, bind, ss_getitem. by rewrite Hr.
Qed.

(** A call that has not raised has found the region. *)
Lemma get_model_response_started fuel r w o w' :
  get_model_response remote fuel r w = (o, w') → (∀ e, o ≠ Raise e) →
  ∃ region, session_state w !! "aws_region" = Some region.
Proof.
  intros Hrun Ho.
  destruct (session_state w !! "aws_region") as [region|] eqn:Hr;
    [by exists region|].
  rewrite (get_model_response_no_region _ _ _ Hr) in Hrun.
  injection Hrun as <- _. by destruct (Ho (PyError "KeyError")).
Qed.

Lemma add_events_app evs1 evs2 w :
  add_events evs2 (add_events evs1 w) = add_events (evs1 ++ evs2) w.
Proof. unfold add_events, set_log. simpl. by rewrite <-app_assoc. Qed.

(** One turn, by what the two locations answer. *)
Lemma turn_success r i w body :
  success_check remote r i = inr body →
  turn remote r i w =
    (Ret (Some true),
     add_events [Print "Model response successfully received."]
       (set_files (insert RESPONSE_PAYLOAD body)
          (add_events (success_events remote r i) w))).
Proof.
  unfold success_check, success_events, turn, poll_iteration.
  destruct (success_location r) as [b k]. cbn [fst snd].
  intros Hc. destruct (head_object remote i b k) eqn:Hh; [done|].
  unfold try_except_ClientError, bind, emit, modify, call_, call, ret.
  rewrite Hc. unfold write_file, modify. by rewrite add_events_app.
Qed.

Lemma turn_hard_error r i w e :
  success_check remote r i = inl e → is_not_found e = false →
  turn remote r i w = (Raise e, add_events (success_events remote r i) w).
Proof.
  unfold success_check, success_events, turn, poll_iteration.
  destruct (success_location r) as [b k]. cbn [fst snd].
  intros Hc Hnf.
  unfold try_except_ClientError, bind, emit, modify, call_, call, ret, raise.
  destruct (head_object remote i b k) eqn:Hh.
  - injection Hc as ->. destruct e as [code|cls]; simpl in *; [|done].
    by rewrite Hnf.
  - rewrite Hc. destruct e as [code|cls]; simpl in *.
    + rewrite Hnf. by rewrite add_events_app.
    + by rewrite add_events_app.
Qed.

Lemma turn_not_found r i w e :
  success_check remote r i = inl e → is_not_found e = true →
  turn remote r i w =
    match failure_fetch remote r i with
    | inr blob =>
        (Ret (Some false),
         add_events (success_events remote r i ++
                     [Print "Waiting for model output...";
                      DownloadFileobj (failure_location r).1
                        (failure_location r).2;
                      PrintFailure blob]) w)
    | inl _ =>
        (Ret None,
         add_events (success_events remote r i ++
                     [Print "Waiting for model output...";
                      DownloadFileobj (failure_location r).1
                        (failure_location r).2;
                      Sleep 15]) w)
    end.
Proof.
  unfold success_check, success_events, failure_fetch, turn, poll_iteration.
  destruct (success_location r) as [b k].
  destruct (failure_location r) as [fb fk]. cbn [fst snd].
  intros Hc Hnf. destruct e as [code|cls]; simpl in Hnf; [|done].
  unfold try_except_ClientError, try_except_Exception, bind, emit, modify,
    call_, call, ret, raise.
  destruct (head_object remote i b k) eqn:Hh.
  - injection Hc as ->. rewrite Hnf.
    destruct (download_fileobj remote i fb fk);
      by rewrite !add_events_app.
  - rewrite Hc, Hnf.
    destruct (download_fileobj remote i fb fk);
      by rewrite !add_events_app.
Qed.

(** A turn returns, continues or raises: it holds no loop of its own. *)
Lemma turn_not_Running r i w : (turn remote r i w).1 ≠ Running.
Proof.
  destruct (success_check remote r i) as [e|body] eqn:Hc.
  - destruct (is_not_found e) eqn:Hnf.
    + rewrite (turn_not_found _ _ _ _ Hc Hnf).
      by destruct (failure_fetch remote r i).
    + by rewrite (turn_hard_error _ _ _ _ Hc Hnf).
  - by rewrite (turn_success _ _ _ _ Hc).
Qed.

Lemma elapsed_app l1 l2 : elapsed (l1 ++ l2) = elapsed l1 + elapsed l2.
Proof.
  unfold elapsed. induction l1 as [|e l1 IH]; simpl; [done|].
  destruct e; lia.
Qed.

Lemma checks_app l1 l2 : checks (l1 ++ l2) = (checks l1 + checks l2)%nat.
Proof. unfold checks. by rewrite List.filter_app, length_app. Qed.

Lemma failure_fetches_app l1 l2 :
  failure_fetches (l1 ++ l2) = (failure_fetches l1 + failure_fetches l2)%nat.
Proof. unfold failure_fetches. by rewrite List.filter_app, length_app. Qed.

Lemma checks_success_events r i : checks (success_events remote r i) = 1%nat.
Proof.
  unfold success_events.
  by destruct (head_object remote i (success_location r).1 (success_location r).2).
Qed.

Lemma failure_fetches_success_events r i :
  failure_fetches (success_events remote r i) = 0%nat.
Proof.
  unfold success_events.
  by destruct (head_object remote i (success_location r).1 (success_location r).2).
Qed.

Lemma elapsed_success_events r i : elapsed (success_events remote r i) = 0.
Proof.
  unfold success_events.
  by destruct (head_object remote i (success_location r).1 (success_location r).2).
Qed.

(** A turn that finds nothing sleeps and continues: one more check, one more
    fetch attempt, fifteen more seconds, nothing else touched. *)
Lemma turn_pending r i w :
  pending_at remote r i →
  ∃ w', turn remote r i w = (Ret None, w') ∧
        session_state w' = session_state w ∧ files w' = files w ∧
        s3 w' = s3 w ∧
        elapsed (log w') = elapsed (log w) + 15 ∧
        checks (log w') = S (checks (log w)) ∧
        failure_fetches (log w') = S (failure_fetches (log w)).
Proof.
  intros [(e & Hc & Hnf) (e' & Hf)].
  rewrite (turn_not_found _ _ _ _ Hc Hnf), Hf.
  eexists; split; [done|].
  unfold add_events, set_log. cbn [log session_state files s3].
  rewrite !elapsed_app, !checks_app, !failure_fetches_app.
  rewrite elapsed_success_events, checks_success_events,
    failure_fetches_success_events.
  repeat split; try done; unfold elapsed, checks, failure_fetches; simpl; lia.
Qed.

Lemma poller_waits r :
  (∀ i, pending_at remote r i) →
  ∀ fuel i w,
    ∃ w', while_True fuel (turn remote r) i w = (Running, w') ∧
          session_state w' = session_state w ∧ files w' = files w ∧
          s3 w' = s3 w ∧
          elapsed (log w') = elapsed (log w) + 15 * Z.of_nat fuel ∧
          checks (log w') = (checks (log w) + fuel)%nat ∧
          failure_fetches (log w') = (failure_fetches (log w) + fuel)%nat.
Proof.
  intros Hp. induction fuel as [|fuel IH]; intros i w.
  - exists w. cbn [while_True running]. repeat split; lia.
  - destruct (turn_pending r i w (Hp i)) as (w1 & Ht & ? & ? & ? & ? & ? & ?).
    destruct (IH (S i) w1) as (w' & Hl & ? & ? & ? & ? & ? & ?).
    exists w'. cbn [while_True]. rewrite (bind_Ret _ _ _ _ _ Ht), Hl.
    repeat split; try congruence; lia.
Qed.

(** After [i] turns of waiting, turn [i] decides for every larger fuel. *)
Lemma poller_decides r w i wi fuel :
  poll_loop remote i r w = (Running, wi) →
  (i < fuel)%nat →
  poll_loop remote fuel r w =
    bind (turn remote r i)
      (λ o, match o with
            | Some b => ret b
            | None => while_True (fuel - S i) (turn remote r) (S i)
            end) wi.
Proof.
  unfold poll_loop. intros Hi Hlt.
  replace fuel with (i + S (fuel - S i))%nat at 1 by lia.
  by rewrite (while_True_next _ _ _ _ _ _ (turn_not_Running r) Hi).
Qed.

(** C1, as the code has it: the loop has no deadline.  On a session that
    holds the region the client is made from, when neither location ever
    becomes fetchable (every check of the success location ends in a
    not-found error, every fetch of the failure location raises), the poller
    has not returned after any number of turns: after [fuel] turns it has
    checked the success location [fuel] times, tried the failure location
    [fuel] times and slept [15 * fuel] seconds, and it goes on. *)
Theorem poller_has_no_deadline r w fuel region :
  session_state w !! "aws_region" = Some region →
  (∀ i, pending_at remote r i) →
  ∃ w', get_model_response remote fuel r w = (Running, w') ∧
        elapsed (log w') = elapsed (log w) + 15 * Z.of_nat fuel ∧
        checks (log w') = (checks (log w) + fuel)%nat ∧
        failure_fetches (log w') = (failure_fetches (log w) + fuel)%nat.
Proof.
  intros Hr Hp. rewrite (get_model_response_region _ _ _ _ Hr).
  unfold poll_loop.
  destruct (poller_waits r Hp fuel 0%nat w) as (w' & Hl & _ & _ & _ & ? & ? & ?).
  by exists w'.
Qed.

(** C2: the success location is looked at first.  When the loop reaches a
    turn on which the success object is fetchable, it returns [True] there
    and does not touch the failure location on that turn, whatever lies at
    the failure location on that turn or later; and a run that returns
    [False] does so on a turn whose check of the success location ended in
    a not-found error. *)
Theorem success_is_checked_first r w :
  (∀ i wi body fuel,
     get_model_response remote i r w = (Running, wi) →
     success_check remote r i = inr body →
     (i < fuel)%nat →
     get_model_response remote fuel r w =
       (Ret true,
        add_events [Print "Model response successfully received."]
          (set_files (insert RESPONSE_PAYLOAD body)
             (add_events (success_events remote r i) wi)))) ∧
  (∀ fuel w',
     get_model_response remote fuel r w = (Ret false, w') →
     ∃ i wi e blob,
       (i < fuel)%nat ∧
       get_model_response remote i r w = (Running, wi) ∧
       success_check remote r i = inl e ∧ is_not_found e = true ∧
       failure_fetch remote r i = inr blob).
Proof.
  split.
  - intros i wi body fuel Hi Hc Hlt.
    destruct (get_model_response_started _ _ _ _ _ Hi ltac:(done))
      as [region Hr].
    rewrite (get_model_response_region i _ _ _ Hr) in Hi.
    rewrite (get_model_response_region fuel _ _ _ Hr).
    rewrite (poller_decides _ _ _ _ _ Hi Hlt).
    by rewrite (bind_Ret _ _ _ _ _ (turn_success r i wi body Hc)).
  - intros fuel w' Hrun.
    destruct (get_model_response_started _ _ _ _ _ Hrun ltac:(done))
      as [region Hr].
    rewrite (get_model_response_region _ _ _ _ Hr) in Hrun.
    assert (∃ i wi e blob,
              (i < fuel)%nat ∧
              poll_loop remote i r w = (Running, wi) ∧
              success_check remote r i = inl e ∧ is_not_found e = true ∧
              failure_fetch remote r i = inr blob)
      as (i & wi & e & blob & ? & Hi & ? & ? & ?).
    { revert w' Hrun.
      induction fuel as [|fuel IH]; intros w' Hrun; [done|].
      destruct (poll_loop remote fuel r w) as [[b|e|] wi] eqn:Hfuel.
      + unfold poll_loop in Hrun, Hfuel.
        replace (S fuel) with (fuel + 1)%nat in Hrun by lia.
        rewrite (while_True_add _ _ _ _ _ (turn_not_Running r)), Hfuel in Hrun.
        injection Hrun as -> ->.
        destruct (IH _ eq_refl) as (i & wj & e & blob & ? & ? & ? & ? & ?).
        exists i, wj, e, blob. repeat split; try done. lia.
      + unfold poll_loop in Hrun, Hfuel.
        replace (S fuel) with (fuel + 1)%nat in Hrun by lia.
        by rewrite (while_True_add _ _ _ _ _ (turn_not_Running r)), Hfuel in Hrun.
      + rewrite (poller_decides _ _ _ _ (S fuel) Hfuel) in Hrun by lia.
        destruct (success_check remote r fuel) as [e|body] eqn:Hc.
        * destruct (is_not_found e) eqn:Hnf.
          -- pose proof (turn_not_found r fuel wi e Hc Hnf) as Ht.
             destruct (failure_fetch remote r fuel) as [e'|blob] eqn:Hf.
             ++ rewrite (bind_Ret _ _ _ _ _ Ht) in Hrun.
                by rewrite Nat.sub_diag in Hrun.
             ++ exists fuel, wi, e, blob. repeat split; try done. lia.
          -- by rewrite (bind_Raise _ _ _ _ _ (turn_hard_error _ _ _ _ Hc Hnf))
               in Hrun.
        * by rewrite (bind_Ret _ _ _ _ _ (turn_success _ _ _ _ Hc)) in Hrun. }
    exists i, wi, e, blob.
    by rewrite (get_model_response_region _ _ _ _ Hr).
Qed.

(** C5: an error of the check of the success location that is not of the
    not-found kind leaves the loop at once.  When the loop reaches turn [i]
    and the check raises [e] there, then, if [e] is not a not-found error,
    the poller raises [e] for every larger fuel, having made only the calls
    of that check (no fetch of the failure location, no sleep, no further
    turn); and if the loop is still running after that turn, [e] was a
    not-found error. *)
Theorem hard_error_propagates r w i wi e :
  get_model_response remote i r w = (Running, wi) →
  success_check remote r i = inl e →
  (is_not_found e = false →
   ∀ fuel, (i < fuel)%nat →
     get_model_response remote fuel r w =
       (Raise e, add_events (success_events remote r i) wi)) ∧
  (∀ wj, get_model_response remote (S i) r w = (Running, wj) →
         is_not_found e = true).
Proof.
  intros Hi Hc.
  destruct (get_model_response_started _ _ _ _ _ Hi ltac:(done))
    as [region Hr].
  rewrite (get_model_response_region _ _ _ _ Hr) in Hi. split.
  - intros Hnf fuel Hlt.
    rewrite (get_model_response_region _ _ _ _ Hr).
    rewrite (poller_decides _ _ _ _ _ Hi Hlt).
    by rewrite (bind_Raise _ _ _ _ _ (turn_hard_error r i wi e Hc Hnf)).
  - intros wj Hrun. destruct (is_not_found e) eqn:Hnf; [done|].
    rewrite (get_model_response_region _ _ _ _ Hr) in Hrun.
    rewrite (poller_decides _ _ _ _ (S i) Hi) in Hrun by lia.
    by rewrite (bind_Raise _ _ _ _ _ (turn_hard_error r i wi e Hc Hnf)) in Hrun.
Qed.

End Poller.

(** ** The poller on concrete remote sides *)

(** C1 fails on the code: on a session that holds the region, with 3600
    seconds as the longest duration of the job ([InvocationTimeoutSeconds])
    and nothing ever at either location, the poller has slept 3615 seconds
    after 241 turns, has not returned, and checks the success location a
    242nd time. *)
Lemma poller_polls_past_deadline :
  (Demo.poll Demo.never_ready 241).1 = Running ∧
  3600 < elapsed (log (Demo.poll Demo.never_ready 241).2) ∧
  (Demo.poll Demo.never_ready 242).1 = Running ∧
  checks (log (Demo.poll Demo.never_ready 241).2) = 241%nat ∧
  checks (log (Demo.poll Demo.never_ready 242).2) = 242%nat.
Proof. vm_compute. repeat split. Qed.

Lemma poller_has_no_deadline_witness :
  session_state Demo.region_world !! "aws_region" = Some (VStr "us-east-1") ∧
  (∀ i, pending_at (pylib := Demo.client_lib) Demo.never_ready Demo.job i) ∧
  ∃ w', Demo.poll Demo.never_ready 300 = (Running, w') ∧
        elapsed (log w') = elapsed (log Demo.region_world) + 15 * Z.of_nat 300 ∧
        checks (log w') = (checks (log Demo.region_world) + 300)%nat ∧
        failure_fetches (log w') =
          (failure_fetches (log Demo.region_world) + 300)%nat.
Proof.
  assert (∀ i, pending_at (pylib := Demo.client_lib) Demo.never_ready Demo.job i)
    as Hp by (intros i; split; eexists; [split|]; reflexivity).
  split; [reflexivity|]. split; [exact Hp|].
  exact (poller_has_no_deadline (pylib := Demo.client_lib)
           Demo.never_ready Demo.job Demo.region_world 300 (VStr "us-east-1")
           eq_refl Hp).
Defined.

Lemma success_is_checked_first_witness :
  failure_fetch (pylib := Demo.client_lib)
    (Demo.ready_at 2 Demo.two_frames) Demo.job 2 = inr [Byte.x21] ∧
  Demo.poll (Demo.ready_at 2 Demo.two_frames) 5 =
    (Ret true,
     add_events [Print "Model response successfully received."]
       (set_files (insert RESPONSE_PAYLOAD (ResultJson Demo.two_frames))
          (add_events
             (success_events (pylib := Demo.client_lib)
                (Demo.ready_at 2 Demo.two_frames) Demo.job 2)
             (Demo.poll (Demo.ready_at 2 Demo.two_frames) 2).2))) ∧
  ∃ i wi e blob,
    (i < 5)%nat ∧
    Demo.poll (Demo.failed_at 1) i = (Running, wi) ∧
    success_check (pylib := Demo.client_lib) (Demo.failed_at 1) Demo.job i = inl e ∧
    is_not_found e = true ∧
    failure_fetch (pylib := Demo.client_lib) (Demo.failed_at 1) Demo.job i
      = inr blob.
Proof.
  split; [reflexivity|]. split.
  - apply (proj1 (success_is_checked_first (pylib := Demo.client_lib) (Demo.ready_at 2 Demo.two_frames)
                    Demo.job Demo.region_world)
             2%nat (Demo.poll (Demo.ready_at 2 Demo.two_frames) 2).2).
    + vm_compute. reflexivity.
    + reflexivity.
    + lia.
  - apply (proj2 (success_is_checked_first (pylib := Demo.client_lib) (Demo.failed_at 1)
                    Demo.job Demo.region_world)
             5%nat (Demo.poll (Demo.failed_at 1) 5).2).
    vm_compute. reflexivity.
Defined.

Lemma hard_error_propagates_witness :
  Demo.poll (Demo.denied_at 2) 2 =
    (Running, (Demo.poll (Demo.denied_at 2) 2).2) ∧
  success_check (pylib := Demo.client_lib) (Demo.denied_at 2) Demo.job 2
    = inl (ClientError "AccessDenied") ∧
  is_not_found (ClientError "AccessDenied") = false ∧
  Demo.poll (Demo.denied_at 2) 7 =
    (Raise (ClientError "AccessDenied"),
     add_events
       (success_events (pylib := Demo.client_lib) (Demo.denied_at 2) Demo.job 2)
       (Demo.poll (Demo.denied_at 2) 2).2).
Proof.
  assert (Demo.poll (Demo.denied_at 2) 2 =
            (Running, (Demo.poll (Demo.denied_at 2) 2).2)) as Hi
    by (vm_compute; reflexivity).
  split; [exact Hi|]. split; [reflexivity|]. split; [reflexivity|].
  refine (proj1 (hard_error_propagates (pylib := Demo.client_lib) (Demo.denied_at 2) Demo.job
                   Demo.region_world 2%nat _ (ClientError "AccessDenied")
                   Hi eq_refl) eq_refl 7%nat _).
  lia.
Defined.

(** ** Staging the request, [invoke_model] *)

Section Staging.

Context {codec : Base64} {pylib : PyLib}.

(** A call of [invoke_model] that returns has written the request document,
    uploaded it and invoked the endpoint, and nothing else. *)
Lemma invoke_model_Ret remote w r w' :
  invoke_model remote w = (Ret r, w') →
  ∃ uploaded image jpeg b endpoint,
    session_state w !! "uploaded_image" = Some uploaded ∧
    Image_open_value uploaded = inr image ∧
    jpeg_save image = inr jpeg ∧
    session_state w !! "s3_bucket" = Some (VStr b) ∧
    session_state w !! "sagemaker_endpoint_name" = Some endpoint ∧
    let data := request_document (session_state w)
                  ("data:text/plain;base64," +:+ b64encode jpeg) in
    w' = add_events
           [InvokeEndpointAsync endpoint
              ("s3://" +:+ b +:+ "/async_inference/input/payload.json") 3600]
           (set_s3
              (insert (b, "async_inference/input/payload.json")
                      (RequestJson data))
              (add_events
                 [S3UploadFile REQUEST_PAYLOAD (VStr b)
                    "async_inference/input/payload.json" "application/json"]
                 (set_files (insert REQUEST_PAYLOAD (RequestJson data)) w))).
Proof.
  apply wp_run. unfold invoke_model, upload_file, encode_image, json_dump.
  wp_go. intros <-.
  match goal with
  | H1 : session_state w !! "uploaded_image" = Some ?u,
    H2 : Image_open_value ?u = inr ?i,
    H3 : jpeg_save ?i = inr ?j,
    H4 : session_state w !! "s3_bucket" = Some (VStr ?b),
    H5 : session_state w !! "sagemaker_endpoint_name" = Some ?e |- _ =>
      exists u, i, j, b, e
  end.
  do 5 (split; [done|]). cbv zeta. unfold request_document.
  repeat match goal with
         | H : session_state w !! _ = Some _ |- _ => rewrite H; clear H
         end.
  cbn [default from_option id]. unfold set_files; cbn [files session_state s3 log].
  rewrite insert_insert_eq. reflexivity.
Qed.

(** C9: every request goes to one key.  A call of [invoke_model] that returns
    has uploaded the request document to the key
    [async_inference/input/payload.json] of the session's bucket and has
    invoked the endpoint on [s3://<bucket>/async_inference/input/payload.json],
    whatever the movie title, the image and the parameters are; so the second
    of two calls on the same bucket replaces what the first one staged. *)
Theorem requests_share_one_key remote1 remote2 w0 w1 w1' w2 r1 r2 b :
  session_state w0 !! "s3_bucket" = Some (VStr b) →
  invoke_model remote1 w0 = (Ret r1, w1) →
  session_state w1' !! "s3_bucket" = Some (VStr b) →
  s3 w1' = s3 w1 →
  invoke_model remote2 w1' = (Ret r2, w2) →
  ∃ endpoint1 endpoint2 data1 data2,
    log w1 = log w0 ++
      [S3UploadFile REQUEST_PAYLOAD (VStr b)
         "async_inference/input/payload.json" "application/json";
       InvokeEndpointAsync endpoint1
         ("s3://" +:+ b +:+ "/async_inference/input/payload.json") 3600] ∧
    log w2 = log w1' ++
      [S3UploadFile REQUEST_PAYLOAD (VStr b)
         "async_inference/input/payload.json" "application/json";
       InvokeEndpointAsync endpoint2
         ("s3://" +:+ b +:+ "/async_inference/input/payload.json") 3600] ∧
    files w1 !! REQUEST_PAYLOAD = Some (RequestJson data1) ∧
    files w2 !! REQUEST_PAYLOAD = Some (RequestJson data2) ∧
    s3 w1 = <[(b, "async_inference/input/payload.json") := RequestJson data1]>
              (s3 w0) ∧
    s3 w2 = <[(b, "async_inference/input/payload.json") := RequestJson data2]>
              (s3 w0).
Proof.
  intros Hb0 Hrun1 Hb1 Hs3 Hrun2.
  destruct (invoke_model_Ret _ _ _ _ Hrun1)
    as (u1 & i1 & j1 & b1 & e1 & _ & _ & _ & Hb1' & _ & ->).
  destruct (invoke_model_Ret _ _ _ _ Hrun2)
    as (u2 & i2 & j2 & b2 & e2 & _ & _ & _ & Hb2' & _ & ->).
  assert (b1 = b) as -> by congruence. assert (b2 = b) as -> by congruence.
  eexists e1, e2, _, _.
  cbn [log files s3 add_events set_log set_files set_s3].
  rewrite <-!app_assoc, !lookup_insert_eq.
  split; [done|]. split; [done|]. split; [done|]. split; [done|].
  split; [done|]. rewrite Hs3. cbn [s3 add_events set_log set_s3 set_files].
  by rewrite insert_insert_eq.
Qed.

End Staging.

Lemma requests_share_one_key_witness :
  ∃ endpoint1 endpoint2 data1 data2,
    log Demo.staged_once = log Demo.shown ++
      [S3UploadFile REQUEST_PAYLOAD (VStr S3_BUCKET)
         "async_inference/input/payload.json" "application/json";
       InvokeEndpointAsync endpoint1
         ("s3://" +:+ S3_BUCKET +:+ "/async_inference/input/payload.json")
         3600] ∧
    log Demo.staged_twice = log Demo.retitled ++
      [S3UploadFile REQUEST_PAYLOAD (VStr S3_BUCKET)
         "async_inference/input/payload.json" "application/json";
       InvokeEndpointAsync endpoint2
         ("s3://" +:+ S3_BUCKET +:+ "/async_inference/input/payload.json")
         3600] ∧
    files Demo.staged_once !! REQUEST_PAYLOAD = Some (RequestJson data1) ∧
    files Demo.staged_twice !! REQUEST_PAYLOAD = Some (RequestJson data2) ∧
    s3 Demo.staged_once =
      <[(S3_BUCKET, "async_inference/input/payload.json") := RequestJson data1]>
        (s3 Demo.shown) ∧
    s3 Demo.staged_twice =
      <[(S3_BUCKET, "async_inference/input/payload.json") := RequestJson data2]>
        (s3 Demo.shown).
Proof.
  apply (requests_share_one_key (codec := PyBase64.base64)
           (pylib := Demo.client_lib) Demo.never_ready Demo.never_ready
           Demo.shown Demo.staged_once Demo.retitled Demo.staged_twice
           Demo.job Demo.job S3_BUCKET).
  - vm_compute. reflexivity.
  - vm_compute. reflexivity.
  - vm_compute. reflexivity.
  - reflexivity.
  - vm_compute. reflexivity.
Defined.


(** ** Decoding the frames, [process_video_frames] *)

Section Frames.
Context {codec : Base64}.

Lemma set_files_set_files f g w : set_files g (set_files f w) = set_files (g ∘ f) w.
Proof. done. Qed.

Lemma write_frames_decoded video_frames decoded idx w :
  decodes video_frames decoded →
  write_frames idx video_frames w = (Ret tt, set_files (store_frames idx decoded) w).
Proof.
  intros Hd. revert idx w. induction Hd as [|f d fs ds Hf _ IH]; intros idx w.
  - by destruct w.
  - cbn [write_frames store_frames]. unfold bind, write_file, modify, call.
    rewrite Hf. unfold ret. rewrite IH. f_equal.
    unfold set_files; cbn. by rewrite insert_insert_eq.
Qed.

Lemma write_frames_rejected good decoded bad rest e idx w :
  decodes good decoded → b64decode bad = inl e →
  write_frames idx (good ++ bad :: rest) w =
    (Raise e,
     set_files (λ fs, <[frame_name (idx + length good) := Bytes []]>
                        (store_frames idx decoded fs)) w).
Proof.
  intros Hd Hbad. revert idx w. induction Hd as [|f d fs ds Hf _ IH]; intros idx w.
  - cbn [app write_frames store_frames length]. unfold bind, write_file, modify, call.
    rewrite Hbad. by rewrite Nat.add_0_r.
  - cbn [app write_frames store_frames length]. unfold bind, write_file, modify, call.
    rewrite Hf. unfold ret. rewrite IH. f_equal.
    unfold set_files; cbn. rewrite insert_insert_eq.
    by replace (idx + S (length fs))%nat with (S (idx + length fs)) by lia.
Qed.

Lemma first_rejected (video_frames : list string) :
  (∃ decoded, decodes video_frames decoded) ∨
  (∃ good decoded bad rest e, video_frames = good ++ bad :: rest ∧ decodes good decoded ∧ b64decode bad = inl e).
Proof.
  induction video_frames as [|f fs IH].
  - left. exists []. constructor.
  - destruct (b64decode f) as [e|d] eqn:Hf.
    + right. exists [], [], f, fs, e. repeat split; [constructor|done].
    + destruct IH as [[ds Hds]|(good & ds & bad & rest & e & -> & Hg & Hb)].
      * left. exists (d :: ds). by constructor.
      * right. exists (f :: good), (d :: ds), bad, rest, e. repeat split; [by constructor|done].
Qed.
End Frames.

Lemma names99_sorted : StronglySorted String.le names99.
Proof. apply (bool_decide_unpack _). vm_compute. exact I. Qed.
Lemma names99_NoDup : NoDup names99.
Proof. apply (bool_decide_unpack _). vm_compute. exact I. Qed.
Lemma names99_match : Forall (λ p, is_frame_jpg p = true) names99.
Proof. apply (bool_decide_unpack _). vm_compute. exact I. Qed.

Lemma names99_lookup i : (i < 99)%nat → names99 !! i = Some (frame_name i).
Proof.
  intros Hi. unfold names99. rewrite list_lookup_fmap, lookup_seq_lt by done. done.
Qed.

Lemma frame_name_inj99 i j :
  (i < 99)%nat → (j < 99)%nat → frame_name i = frame_name j → i = j.
Proof.
  intros Hi Hj Heq.
  apply (NoDup_lookup names99 i j (frame_name i) names99_NoDup).
  - by apply names99_lookup.
  - rewrite Heq. by apply names99_lookup.
Qed.

Lemma names_prefix n :
  (n ≤ 99)%nat → names99 = (frame_name <$> seq 0 n) ++ (frame_name <$> seq n (99 - n)).
Proof.
  intros Hn. unfold names99. rewrite <-fmap_app. f_equal.
  replace 99%nat with (n + (99 - n))%nat at 1 by lia. by rewrite seq_app.
Qed.

Lemma store_frames_dom decoded idx fs :
  dom (store_frames idx decoded fs) =
    list_to_set (frame_name <$> seq idx (length decoded)) ∪ dom fs.
Proof.
  revert idx fs. induction decoded as [|d ds IH]; intros idx fs; cbn.
  - by rewrite union_empty_l_L.
  - rewrite IH, dom_insert_L.
    by rewrite (assoc_L (∪)), (comm_L (∪) (list_to_set _) {[_]}).
Qed.

Lemma store_frames_before decoded idx fs j :
  (j < idx)%nat → (idx + length decoded ≤ 99)%nat →
  store_frames idx decoded fs !! frame_name j = fs !! frame_name j.
Proof.
  revert idx fs. induction decoded as [|d ds IH]; intros idx fs Hj Hn; cbn in *; [done|].
  rewrite IH by lia. apply lookup_insert_ne.
  intros Heq. apply frame_name_inj99 in Heq; lia.
Qed.

Lemma store_frames_lookup decoded idx fs i d :
  (idx + length decoded ≤ 99)%nat → decoded !! i = Some d →
  store_frames idx decoded fs !! frame_name (idx + i) = Some (Bytes d).
Proof.
  revert idx fs i. induction decoded as [|d' ds IH]; intros idx fs i Hn Hi; [done|].
  cbn in *. destruct i as [|i]; simplify_eq/=.
  - rewrite Nat.add_0_r, store_frames_before by lia. apply lookup_insert_eq.
  - replace (idx + S i)%nat with (S idx + i)%nat by lia. apply IH; [lia|done].
Qed.

Lemma omap_Forall2 {A B} (f : A → option B) l k :
  Forall2 (λ x y, f x = Some y) l k → omap f l = k.
Proof. induction 1 as [|x y l k Hx _ IH]; cbn; [done|]. by rewrite Hx, IH. Qed.

Lemma glob_jpg_store decoded fs :
  (length decoded ≤ 99)%nat →
  (∀ p, is_frame_jpg p = true → fs !! p = None) →
  glob_jpg (store_frames 0 decoded fs) = frame_name <$> seq 0 (length decoded).
Proof.
  intros Hn Hfs. unfold glob_jpg.
  pose proof names99_sorted as Hs. pose proof names99_NoDup as Hnd.
  pose proof names99_match as Hm.
  rewrite (names_prefix _ Hn) in Hs, Hnd, Hm.
  apply StronglySorted_app_1_l in Hs. apply NoDup_app in Hnd as (Hnd & _ & _).
  apply Forall_app in Hm as [Hm _]. rewrite Forall_forall in Hm.
  apply (StronglySorted_unique String.le).
  - apply StronglySorted_merge_sort; apply _.
  - done.
  - rewrite merge_sort_Permutation. apply NoDup_Permutation.
    + apply NoDup_filter, NoDup_elements.
    + done.
    + intros p. rewrite list_elem_of_filter, elem_of_elements, store_frames_dom.
      rewrite elem_of_union, elem_of_list_to_set, elem_of_dom. split.
      * intros [Hp [Hin|[x Hx]]]; [done|]. by rewrite (Hfs p Hp) in Hx.
      * intros Hin. split; [by apply Hm|by left].
Qed.

Lemma pictures_store decoded fs :
  (length decoded ≤ 99)%nat →
  (∀ p, is_frame_jpg p = true → fs !! p = None) →
  pictures (store_frames 0 decoded fs) = decoded.
Proof.
  intros Hn Hfs. unfold pictures. rewrite glob_jpg_store by done.
  apply omap_Forall2. apply Forall2_same_length_lookup_2.
  - by rewrite length_fmap, length_seq.
  - intros i p d Hp Hd. rewrite list_lookup_fmap in Hp.
    destruct (seq 0 (length decoded) !! i) as [j|] eqn:Hj; [|done].
    apply lookup_seq in Hj as [-> _]. simplify_eq/=.
    pose proof (store_frames_lookup decoded 0 fs i d Hn Hd) as Hl.
    cbn [Nat.add] in Hl. by rewrite Hl.
Qed.

Section Decoding.

Context {codec : Base64}.

(** Up to 99 frames that all decode are read back by the encoder in the order
    of the result document, when no [frames_out/*.jpg] lay there before. *)
Lemma frames_read_in_order w data decoded :
  files w !! RESPONSE_PAYLOAD = Some (ResultJson data) →
  decodes (frames data) decoded →
  (length (frames data) ≤ 99)%nat →
  (∀ p, is_frame_jpg p = true → files w !! p = None) →
  ∃ w', process_video_frames w = (Ret tt, w') ∧ pictures (files w') = decoded.
Proof.
  intros Hfile Hd Hn Hfs. eexists. split.
  - unfold process_video_frames, bind, read_file. rewrite Hfile.
    by apply write_frames_decoded.
  - cbn [files set_files]. apply pictures_store; [|done].
    by rewrite <-(Forall2_length _ _ _ Hd).
Qed.

(** C4, as the code has it: decoding raises exactly when [base64.b64decode]
    raises on an entry.  On an empty frames array it returns normally and
    writes nothing.  When every entry decodes it returns normally with one file
    per frame.  When [bad] is the first entry that [b64decode] rejects, the
    decoder's exception propagates, the frames before [bad] are on disk and the
    file of [bad] has been created empty. *)
Theorem decoding_raises_with_b64decode w data :
  files w !! RESPONSE_PAYLOAD = Some (ResultJson data) →
  (frames data = [] → process_video_frames w = (Ret tt, w)) ∧
  (∀ decoded,
     decodes (frames data) decoded →
     process_video_frames w = (Ret tt, set_files (store_frames 0 decoded) w)) ∧
  (∀ good decoded bad rest e,
     frames data = good ++ bad :: rest →
     decodes good decoded →
     b64decode bad = inl e →
     process_video_frames w =
       (Raise e,
        set_files (λ fs, <[frame_name (length good) := Bytes []]>
                           (store_frames 0 decoded fs)) w)).
Proof.
  intros Hfile. unfold process_video_frames, bind, read_file. rewrite Hfile.
  split; [|split].
  - intros ->. by destruct w.
  - intros decoded Hd. by apply write_frames_decoded.
  - intros good decoded bad rest e -> Hd Hbad.
    by rewrite (write_frames_rejected _ _ _ _ _ _ _ Hd Hbad).
Qed.

End Decoding.

(** C4 fails on the code: an empty frames array is decoded without an error
    and leaves the world as it was, and so is the entry ["@@@@"], which is not
    valid base64: its frame file is written, empty. *)
Lemma empty_and_invalid_frames_are_accepted :
  Demo.decode_run {| frames := []; config := ∅ |} =
    (Ret tt, Demo.downloaded {| frames := []; config := ∅ |}) ∧
  PyBase64.is_valid "@@@@" = false ∧
  (Demo.decode_run {| frames := ["@@@@"]; config := ∅ |}).1 = Ret tt ∧
  files (Demo.decode_run {| frames := ["@@@@"]; config := ∅ |}).2
    !! "frames_out/frame_01.jpg" = Some (Bytes []).
Proof. vm_compute. repeat split. Qed.

Lemma decoding_raises_with_b64decode_witness :
  files (Demo.downloaded {| frames := ["AQ=="; "Ag"; "Aw=="]; config := ∅ |})
    !! RESPONSE_PAYLOAD
    = Some (ResultJson {| frames := ["AQ=="; "Ag"; "Aw=="]; config := ∅ |}) ∧
  Demo.decode_run {| frames := ["AQ=="; "Ag"; "Aw=="]; config := ∅ |} =
    (Raise (PyError "binascii.Error"),
     set_files (λ fs, <[frame_name 1 := Bytes []]>
                        (store_frames 0 [[Byte.x01]] fs))
       (Demo.downloaded {| frames := ["AQ=="; "Ag"; "Aw=="]; config := ∅ |})).
Proof.
  split; [reflexivity|].
  refine (proj2 (proj2 (decoding_raises_with_b64decode (codec := PyBase64.base64)
            (Demo.downloaded {| frames := ["AQ=="; "Ag"; "Aw=="]; config := ∅ |})
            {| frames := ["AQ=="; "Ag"; "Aw=="]; config := ∅ |} eq_refl))
            ["AQ=="] [[Byte.x01]] "Ag" ["Aw=="] (PyError "binascii.Error")
            eq_refl _ eq_refl).
  repeat constructor.
Defined.

(** One byte survives encoding and decoding. *)
Lemma single_byte_roundtrip b :
  PyBase64.decode (PyBase64.encode [b]) = inr [b].
Proof. destruct b; vm_compute; reflexivity. Qed.

Lemma hundred_frames_decode :
  decodes (codec := PyBase64.base64) (frames Demo.hundred_frames)
    Demo.hundred_pictures.
Proof.
  unfold decodes, Demo.hundred_frames. cbn [frames].
  apply Forall2_fmap_l, Forall_Forall2_diag, Forall_forall.
  intros d Hd. unfold Demo.hundred_pictures in Hd.
  apply list_elem_of_fmap in Hd as (i & -> & _).
  apply single_byte_roundtrip.
Qed.

(** C3 on a hundred frames: all of them decode and are written, and the
    encoder's glob finds [frame_100.jpg] between [frame_10.jpg] and
    [frame_11.jpg]; the pictures it reads are not in the order of the result
    document, the hundredth frame comes eleventh. *)
Theorem hundredth_frame_is_read_eleventh :
  (Demo.decode_run Demo.hundred_frames).1 = Ret tt ∧
  decodes (codec := PyBase64.base64) (frames Demo.hundred_frames)
    Demo.hundred_pictures ∧
  glob_jpg (files (Demo.decode_run Demo.hundred_frames).2) =
    take 10 names99 ++ ["frames_out/frame_100.jpg"] ++ drop 10 names99 ∧
  pictures (files (Demo.decode_run Demo.hundred_frames).2) =
    take 10 Demo.hundred_pictures ++ drop 99 Demo.hundred_pictures
      ++ take 89 (drop 10 Demo.hundred_pictures) ∧
  pictures (files (Demo.decode_run Demo.hundred_frames).2)
    ≠ Demo.hundred_pictures.
Proof.
  assert (pictures (files (Demo.decode_run Demo.hundred_frames).2) =
            take 10 Demo.hundred_pictures ++ drop 99 Demo.hundred_pictures
              ++ take 89 (drop 10 Demo.hundred_pictures)) as Hp
    by (vm_compute; reflexivity).
  split; [vm_compute; reflexivity|]. split.
  { exact hundred_frames_decode. }
  split; [vm_compute; reflexivity|]. split; [exact Hp|].
  rewrite Hp. vm_compute. intros Heq.
  apply (f_equal (λ l, l !! 10%nat)) in Heq. discriminate Heq.
Qed.

(** ** The inference handler, [predict_fn] *)


Section HandlerSteps.

Import Inference.

Lemma wp_pop k (Q : outcome PyVal → Inference.World → Prop) w :
  match data w !! k with
  | Some v => Q (Ret v) {| data := delete k (data w); pipe_calls := pipe_calls w |}
  | None => Q (Raise (PyError "KeyError")) w
  end → wp (pop k) Q w.
Proof. unfold wp, pop. by destruct (data w !! k). Qed.

Lemma wp_pop_default k d (Q : outcome PyVal → Inference.World → Prop) w :
  Q (Ret (default d (data w !! k)))
    {| data := delete k (data w); pipe_calls := pipe_calls w |} →
  wp (pop_default k d) Q w.
Proof. done. Qed.

Ltac inf_step :=
  lazymatch goal with
  | |- wp (pop _) _ _ =>
      apply wp_pop; cbn [data pipe_calls]; rewrite ?lookup_delete_ne by done;
      lazymatch goal with |- match ?x with _ => _ end => wp_case x end;
      cbv beta iota zeta
  | |- wp (pop_default _ _) _ _ =>
      apply wp_pop_default; cbn [data pipe_calls];
      rewrite ?lookup_delete_ne by done; cbv beta iota zeta
  | |- _ => wp_step
  end; cbn [data pipe_calls].

Context {codec : Base64} {hlib : Lib}.

Lemma predict_fn_Ret w doc w' :
  predict_fn w = (Ret doc, w') →
  ∃ movie_title image_value source image generator pictures,
    data w !! "movie_title" = Some movie_title ∧
    data w !! "image" = Some image_value ∧
    open_conditioning_image image_value = inr source ∧
    Image_thumbnail source
      (requested_width (data w), requested_height (data w)) = inr image ∧
    manual_seed (param (data w) "seed" (VInt 42)) = inr generator ∧
    pipe (pipe_args_of (data w) image generator) = inr pictures ∧
    pipe_calls w' = pipe_calls w ++ [pipe_args_of (data w) image generator] ∧
    doc = {| frames := map (λ frame, b64encode (frame_jpeg frame)) pictures;
             config := echoed_config (data w) movie_title |}.
Proof.
  apply wp_run. unfold predict_fn, call_pipe.
  repeat (inf_step; try wp_leaf).
  intros <-. injection Ho as <-.
  match goal with
  | H1 : data w !! "movie_title" = Some ?t,
    H2 : data w !! "image" = Some ?v,
    H3 : open_conditioning_image ?v = inr ?s,
    H4 : Image_thumbnail ?s _ = inr ?i,
    H5 : manual_seed _ = inr ?g,
    H6 : pipe _ = inr ?l |- _ => exists t, v, s, i, g, l
  end.
  do 7 (split; [done|]). reflexivity.
Qed.

End HandlerSteps.


(** ** The page, up to the button *)

Section Page.
Context {codec : Base64} {pylib : PyLib} (remote : Remote) (ui : UserInput).

Lemma after_reset_union ss :
  after_reset ss = ss ∪ list_to_map session_state_defaults.
Proof.
  unfold after_reset. generalize session_state_defaults as l.
  intros l. revert ss. induction l as [|[k v] l IH]; intros ss; cbn [foldl list_to_map foldr].
  - by rewrite (right_id_L ∅ (∪)).
  - rewrite IH. unfold set_default. cbn [fst snd].
    destruct (ss !! k) as [v'|] eqn:Hk.
    + apply map_eq. intros j. rewrite !lookup_union.
      destruct (decide (k = j)) as [<-|Hne].
      * rewrite Hk. by destruct (list_to_map l !! k), (<[k:=v]> (list_to_map l) !! k).
      * by rewrite lookup_insert_ne.
    + by rewrite <-insert_union_r, insert_union_l.
Qed.

Lemma after_reset_lookup ss k d :
  (list_to_map session_state_defaults : gmap string PyVal) !! k = Some d →
  after_reset ss !! k = Some (default d (ss !! k)).
Proof.
  intros Hd. rewrite after_reset_union, lookup_union, Hd.
  by destruct (ss !! k).
Qed.

Lemma input_field_run target label source w v :
  session_state w !! source = Some v →
  input_field ui target label source w =
    (Ret tt, set_session_state (insert target (widget ui label v)) w).
Proof. intros Hv. unfold input_field, bind, ss_getitem. by rewrite Hv. Qed.

Lemma display_input_fields_loop w :
  display_input_fields ui w = fields_loop ui field_table w.
Proof.
  unfold display_input_fields, field_table. cbn [fields_loop].
  unfold bind, ret.
  repeat (match goal with
          | |- context [input_field ui ?t ?l ?s ?v] =>
              destruct (input_field ui t l s v) as [[[]|?|] ?]
          end; try reflexivity).
Qed.

Lemma fields_loop_run table w :
  Forall (λ row, is_Some (session_state w !! row.2)) table →
  fields_loop ui table w =
    (Ret tt, set_session_state (λ ss, foldl (field_update ui) ss table) w).
Proof.
  revert w. induction table as [|[[t l] s] table IH]; intros w Hp.
  - by destruct w.
  - apply Forall_cons in Hp as [[v Hv] Hp]. cbn [fields_loop foldl].
    rewrite (bind_Ret _ _ _ _ _ (input_field_run t l s w v Hv)).
    rewrite IH.
    + unfold set_session_state, field_update. cbn in *. by rewrite Hv.
    + eapply Forall_impl; [exact Hp|]. intros [[t' l'] s'] [v' Hv']. cbn in *.
      apply lookup_insert_is_Some'. by right.
Qed.

Lemma display_input_fields_run w :
  Forall (λ row, is_Some (session_state w !! row.2)) field_table →
  display_input_fields ui w = (Ret tt, set_session_state (after_fields ui) w).
Proof.
  intros Hp. rewrite display_input_fields_loop. by apply fields_loop_run.
Qed.

Lemma after_reset_present ss :
  Forall (λ row, is_Some (after_reset ss !! row.2)) field_table.
Proof.
  unfold field_table.
  repeat (constructor; [cbn [snd]; erewrite after_reset_lookup by reflexivity; eauto|]).
  constructor.
Qed.

Lemma fields_other table ss k :
  k ∉ targets table → foldl (field_update ui) ss table !! k = ss !! k.
Proof.
  revert ss. induction table as [|[[t l] s] table IH]; intros ss Hk; [done|].
  cbn [foldl]. rewrite IH.
  - unfold field_update. cbn [fst snd]. apply lookup_insert_ne.
    intros ->. apply Hk. cbn. apply elem_of_cons. by left.
  - intros Hin. apply Hk. cbn. apply elem_of_cons. by right.
Qed.

Lemma fields_lookup table ss t l s :
  NoDup (targets table) →
  Forall (λ row, row.2 = row.1.1 ∨ row.2 ∉ targets table) table →
  (t, l, s) ∈ table →
  foldl (field_update ui) ss table !! t
    = Some (widget ui l (default VNone (ss !! s))).
Proof.
  revert ss. induction table as [|[[t0 l0] s0] table IH]; intros ss Hnd Hsrc Hin.
  - by apply elem_of_nil in Hin.
  - cbn in Hnd. apply NoDup_cons in Hnd as [Hfresh Hnd].
    apply Forall_cons in Hsrc as [Hsrc0 Hsrc]. cbn [foldl].
    apply elem_of_cons in Hin as [[= -> -> ->]|Hin].
    + rewrite fields_other by done. unfold field_update. cbn [fst snd].
      apply lookup_insert_eq.
    + rewrite IH; [|done| |done].
      * do 3 f_equal. unfold field_update. cbn [fst snd].
        apply lookup_insert_ne. intros ->.
        rewrite Forall_forall in Hsrc. destruct (Hsrc _ Hin) as [Heq|Hout].
        -- cbn in Heq. subst s. apply Hfresh.
           apply list_elem_of_fmap. by exists (t, l, t).
        -- apply Hout. cbn. apply elem_of_cons. by left.
      * eapply Forall_impl; [exact Hsrc|]. intros [[t' l'] s'] [?|Hout]; [by left|right].
        intros Hin'. apply Hout. cbn. apply elem_of_cons. by right.
Qed.

Lemma field_table_targets : NoDup (targets field_table).
Proof. apply (bool_decide_unpack _). vm_compute. exact I. Qed.

Lemma field_table_sources :
  Forall (λ row, row.2 = row.1.1 ∨ row.2 ∉ targets field_table) field_table.
Proof. apply (bool_decide_unpack _). vm_compute. exact I. Qed.

Lemma after_fields_lookup ss t l s :
  (t, l, s) ∈ field_table →
  after_fields ui ss !! t = Some (widget ui l (default VNone (ss !! s))).
Proof.
  apply fields_lookup; [apply field_table_targets|apply field_table_sources].
Qed.

Lemma after_fields_other ss k :
  k ∉ targets field_table → after_fields ui ss !! k = ss !! k.
Proof. apply fields_other. Qed.
End Page.

(** ** The page as a whole *)

(** Reading a world that was written. *)
Lemma session_state_set_session_state f w :
  session_state (set_session_state f w) = f (session_state w).
Proof. reflexivity. Qed.
Lemma files_set_session_state f w : files (set_session_state f w) = files w.
Proof. reflexivity. Qed.
Lemma s3_set_session_state f w : s3 (set_session_state f w) = s3 w.
Proof. reflexivity. Qed.
Lemma log_set_session_state f w : log (set_session_state f w) = log w.
Proof. reflexivity. Qed.
Lemma session_state_add_events evs w :
  session_state (add_events evs w) = session_state w.
Proof. reflexivity. Qed.
Lemma files_add_events evs w : files (add_events evs w) = files w.
Proof. reflexivity. Qed.
Lemma s3_add_events evs w : s3 (add_events evs w) = s3 w.
Proof. reflexivity. Qed.
Lemma log_add_events evs w : log (add_events evs w) = log w ++ evs.
Proof. reflexivity. Qed.
Lemma session_state_set_files f w :
  session_state (set_files f w) = session_state w.
Proof. reflexivity. Qed.
Lemma files_set_files f w : files (set_files f w) = f (files w).
Proof. reflexivity. Qed.
Lemma s3_set_files f w : s3 (set_files f w) = s3 w.
Proof. reflexivity. Qed.
Lemma log_set_files f w : log (set_files f w) = log w.
Proof. reflexivity. Qed.
Lemma session_state_set_s3 f w : session_state (set_s3 f w) = session_state w.
Proof. reflexivity. Qed.
Lemma files_set_s3 f w : files (set_s3 f w) = files w.
Proof. reflexivity. Qed.
Lemma s3_set_s3 f w : s3 (set_s3 f w) = f (s3 w).
Proof. reflexivity. Qed.
Lemma log_set_s3 f w : log (set_s3 f w) = log w.
Proof. reflexivity. Qed.
Lemma set_session_state_compose f g w :
  set_session_state f (set_session_state g w)
    = set_session_state (λ ss, f (g ss)) w.
Proof. reflexivity. Qed.
Lemma set_session_state_ext f g w :
  (∀ ss, f ss = g ss) → set_session_state f w = set_session_state g w.
Proof. intros Hfg. unfold set_session_state. by rewrite Hfg. Qed.
Lemma add_events_set_session_state evs f w :
  add_events evs (set_session_state f w)
    = set_session_state f (add_events evs w).
Proof. reflexivity. Qed.

Ltac world_simpl :=
  repeat match goal with
    | |- context [session_state (set_session_state ?f ?w)] =>
        rewrite (session_state_set_session_state f w)
    | |- context [files (set_session_state ?f ?w)] =>
        rewrite (files_set_session_state f w)
    | |- context [s3 (set_session_state ?f ?w)] =>
        rewrite (s3_set_session_state f w)
    | |- context [log (set_session_state ?f ?w)] =>
        rewrite (log_set_session_state f w)
    | |- context [session_state (add_events ?evs ?w)] =>
        rewrite (session_state_add_events evs w)
    | |- context [files (add_events ?evs ?w)] =>
        rewrite (files_add_events evs w)
    | |- context [s3 (add_events ?evs ?w)] =>
        rewrite (s3_add_events evs w)
    | |- context [log (add_events ?evs ?w)] =>
        rewrite (log_add_events evs w)
    | |- context [session_state (set_files ?f ?w)] =>
        rewrite (session_state_set_files f w)
    | |- context [files (set_files ?f ?w)] =>
        rewrite (files_set_files f w)
    | |- context [s3 (set_files ?f ?w)] =>
        rewrite (s3_set_files f w)
    | |- context [log (set_files ?f ?w)] =>
        rewrite (log_set_files f w)
    | |- context [session_state (set_s3 ?f ?w)] =>
        rewrite (session_state_set_s3 f w)
    | |- context [files (set_s3 ?f ?w)] =>
        rewrite (files_set_s3 f w)
    | |- context [s3 (set_s3 ?f ?w)] =>
        rewrite (s3_set_s3 f w)
    | |- context [log (set_s3 ?f ?w)] =>
        rewrite (log_set_s3 f w)
    end;
  cbv beta.

Section PageRuns.
Context {codec : Base64} {pylib : PyLib} (ui : UserInput).

Lemma configure_page_run w :
  configure_page w = (Ret tt, add_events page_events w).
Proof.
  unfold configure_page, bind, emit, modify. rewrite !add_events_app.
  reflexivity.
Qed.

Lemma reset_session_states_run w :
  reset_session_states w = (Ret tt, set_session_state after_reset w).
Proof. unfold reset_session_states, after_reset, modify. reflexivity. Qed.

(** [handle_file_upload], by what lies in the uploader. *)
Lemma handle_file_upload_none w :
  file_uploader ui = None → handle_file_upload ui w = (Ret tt, w).
Proof. intros Hf. unfold handle_file_upload. by rewrite Hf. Qed.

Lemma handle_file_upload_rejected w f :
  file_uploader ui = Some f → MAX_FILE_SIZE < size f →
  handle_file_upload ui w = (Ret tt, add_events [StError too_large] w).
Proof.
  intros Hf Hsize. unfold handle_file_upload. rewrite Hf.
  replace (MAX_FILE_SIZE <? size f) with true by (symmetry; by apply Z.ltb_lt).
  reflexivity.
Qed.

Lemma handle_file_upload_accepted w f image :
  file_uploader ui = Some f → size f ≤ MAX_FILE_SIZE →
  Image_open f = inr image →
  handle_file_upload ui w =
    (Ret tt,
     add_events [StWrite "Conditioning Image :camera:"; StImage image]
       (set_session_state (after_upload f image) w)).
Proof.
  intros Hf Hsize Himg. unfold handle_file_upload, display_image. rewrite Hf.
  replace (MAX_FILE_SIZE <? size f) with false by (symmetry; by apply Z.ltb_ge).
  unfold bind, emit, modify, ss_setitem, call. rewrite Himg.
  unfold ret, modify. rewrite add_events_app. reflexivity.
Qed.

Lemma handle_file_upload_undecodable w f e :
  file_uploader ui = Some f → size f ≤ MAX_FILE_SIZE →
  Image_open f = inl e →
  handle_file_upload ui w =
    (Raise e,
     set_session_state
       (λ ss, <["movie_title" := VStr (splitext (name f))]>
                (<["uploaded_image" := VFile f]> ss)) w).
Proof.
  intros Hf Hsize Himg. unfold handle_file_upload, display_image. rewrite Hf.
  replace (MAX_FILE_SIZE <? size f) with false by (symmetry; by apply Z.ltb_ge).
  unfold bind, emit, modify, ss_setitem, call. rewrite Himg. reflexivity.
Qed.

Lemma after_upload_present f image ss :
  Forall (λ row, is_Some (after_upload f image (after_reset ss) !! row.2)) field_table.
Proof.
  eapply Forall_impl; [apply (after_reset_present ss)|].
  intros row Hrow. unfold after_upload.
  repeat (apply lookup_insert_is_Some'; right). exact Hrow.
Qed.

Lemma page_steps w :
  page ui w =
    bind (handle_file_upload ui) (λ _, display_input_fields ui)
      (set_session_state after_reset (add_events page_events w)).
Proof.
  unfold page.
  rewrite (bind_Ret _ _ _ _ _ (configure_page_run w)).
  by rewrite (bind_Ret _ _ _ _ _ (reset_session_states_run _)).
Qed.

(** The page with no file in the uploader. *)
Lemma page_without_upload w :
  file_uploader ui = None →
  page ui w =
    (Ret tt,
     set_session_state (λ ss, after_fields ui (after_reset ss))
       (add_events page_events w)).
Proof.
  intros Hf. rewrite page_steps.
  rewrite (bind_Ret _ _ _ _ _ (handle_file_upload_none _ Hf)).
  rewrite display_input_fields_run.
  - by rewrite set_session_state_compose.
  - world_simpl. apply after_reset_present.
Qed.

Lemma page_rejected w f :
  file_uploader ui = Some f → MAX_FILE_SIZE < size f →
  page ui w =
    (Ret tt,
     set_session_state (λ ss, after_fields ui (after_reset ss))
       (add_events (page_events ++ [StError too_large]) w)).
Proof.
  intros Hf Hsize. rewrite page_steps.
  rewrite (bind_Ret _ _ _ _ _ (handle_file_upload_rejected _ _ Hf Hsize)).
  rewrite display_input_fields_run.
  - by rewrite add_events_set_session_state, add_events_app,
      set_session_state_compose.
  - world_simpl. apply after_reset_present.
Qed.

Lemma page_accepted w f image :
  file_uploader ui = Some f → size f ≤ MAX_FILE_SIZE →
  Image_open f = inr image →
  page ui w =
    (Ret tt,
     set_session_state
       (λ ss, after_fields ui (after_upload f image (after_reset ss)))
       (add_events (page_events ++
                    [StWrite "Conditioning Image :camera:"; StImage image]) w)).
Proof.
  intros Hf Hsize Himg. rewrite page_steps.
  rewrite (bind_Ret _ _ _ _ _ (handle_file_upload_accepted _ _ _ Hf Hsize Himg)).
  rewrite display_input_fields_run.
  - by rewrite !add_events_set_session_state, add_events_app,
      !set_session_state_compose.
  - world_simpl. apply after_upload_present.
Qed.

Lemma page_undecodable w f e :
  file_uploader ui = Some f → size f ≤ MAX_FILE_SIZE →
  Image_open f = inl e →
  page ui w =
    (Raise e,
     set_session_state
       (λ ss, <["movie_title" := VStr (splitext (name f))]>
                (<["uploaded_image" := VFile f]> (after_reset ss)))
       (add_events page_events w)).
Proof.
  intros Hf Hsize Himg. rewrite page_steps.
  rewrite (bind_Raise _ _ _ _ _ (handle_file_upload_undecodable _ _ _ Hf Hsize Himg)).
  by rewrite set_session_state_compose.
Qed.

Lemma after_upload_lookup f image ss :
  after_upload f image ss !! "uploaded_image" = Some (VFile f) ∧
  after_upload f image ss !! "movie_title" = Some (VStr (splitext (name f))) ∧
  after_upload f image ss !! "width" = Some (VInt (im_width image)) ∧
  after_upload f image ss !! "height" = Some (VInt (im_height image)).
Proof.
  unfold after_upload.
  repeat split; rewrite ?lookup_insert_ne by done; apply lookup_insert_eq.
Qed.

Lemma after_upload_other f image ss k :
  k ∉ upload_keys → after_upload f image ss !! k = ss !! k.
Proof.
  intros Hk. unfold after_upload.
  rewrite !lookup_insert_ne; [done|..]; intros <-; apply Hk; unfold upload_keys;
    set_solver.
Qed.

(** A page that comes up has run the fields on the session as the reset and
    the upload left it; files and bucket are as before. *)
Lemma page_Ret w w' :
  page ui w = (Ret tt, w') →
  ∃ ss, session_state w' = after_fields ui ss ∧
        files w' = files w ∧ s3 w' = s3 w ∧
        (∀ k, k ∉ upload_keys → ss !! k = after_reset (session_state w) !! k).
Proof.
  intros Hrun. destruct (file_uploader ui) as [f|] eqn:Hf.
  - destruct (Z_lt_le_dec MAX_FILE_SIZE (size f)) as [Hbig|Hfit].
    + rewrite (page_rejected _ _ Hf Hbig) in Hrun. injection Hrun as <-.
      by exists (after_reset (session_state w)).
    + destruct (Image_open f) as [e|image] eqn:Himg.
      * by rewrite (page_undecodable _ _ _ Hf Hfit Himg) in Hrun.
      * rewrite (page_accepted _ _ _ Hf Hfit Himg) in Hrun. injection Hrun as <-.
        exists (after_upload f image (after_reset (session_state w))).
        do 3 (split; [done|]). intros k Hk. by apply after_upload_other.
  - rewrite (page_without_upload _ Hf) in Hrun. injection Hrun as <-.
    by exists (after_reset (session_state w)).
Qed.

Lemma after_reset_idemp ss : after_reset (after_reset ss) = after_reset ss.
Proof.
  rewrite !after_reset_union, <-(assoc_L (∪)).
  rewrite (idemp_L (∪) (list_to_map session_state_defaults : gmap string PyVal)).
  reflexivity.
Qed.

(** X1: [reset_session_states] only fills in.  A key the session holds keeps
    its value, an absent key takes its default (and a key that is neither held
    nor among the defaults stays absent); files, bucket and log are untouched,
    and a second call changes nothing. *)
Theorem reset_only_fills_absent_keys w :
  ∃ w', reset_session_states w = (Ret tt, w') ∧
    files w' = files w ∧ s3 w' = s3 w ∧ log w' = log w ∧
    (∀ k v, session_state w !! k = Some v → session_state w' !! k = Some v) ∧
    (∀ k, session_state w !! k = None →
          session_state w' !! k
            = (list_to_map session_state_defaults : gmap string PyVal) !! k) ∧
    reset_session_states w' = (Ret tt, w').
Proof.
  exists (set_session_state after_reset w).
  split; [apply reset_session_states_run|]. world_simpl.
  do 3 (split; [reflexivity|]). split; [|split].
  - intros k v Hk. rewrite after_reset_union. by apply lookup_union_Some_l.
  - intros k Hk. rewrite after_reset_union. by apply lookup_union_r.
  - rewrite reset_session_states_run, set_session_state_compose. f_equal.
    apply set_session_state_ext. apply after_reset_idemp.
Qed.

(** X2: a file over the limit is not taken.  With a file of more than
    [MAX_FILE_SIZE] bytes in the uploader the page comes up, the only thing
    shown beyond the header is the error message, and the session is what
    the same page without a file gives: [uploaded_image] keeps what the
    session held before (an earlier upload, or [None]). *)
Theorem oversized_upload_is_ignored w f :
  file_uploader ui = Some f → MAX_FILE_SIZE < size f →
  ∃ w', page ui w = (Ret tt, w') ∧
    log w' = log w ++ page_events ++ [StError too_large] ∧
    session_state w' = after_fields ui (after_reset (session_state w)) ∧
    session_state w' !! "uploaded_image"
      = Some (default VNone (session_state w !! "uploaded_image")) ∧
    files w' = files w ∧ s3 w' = s3 w.
Proof.
  intros Hf Hbig. eexists. split; [exact (page_rejected _ _ Hf Hbig)|].
  world_simpl.
  do 2 (split; [done|]). split; [|done].
  rewrite after_fields_other by (apply (bool_decide_unpack _); vm_compute; exact I).
  by apply after_reset_lookup.
Qed.

(** X3: an upload within the limit sets the title and the size.  With a file
    of at most [MAX_FILE_SIZE] bytes that PIL opens, the page comes up showing
    the image; the session holds the file, and the Movie Title, Width and
    Height fields start from the file's name without extension and from the
    image's own width and height, whatever the session held for them. *)
Theorem accepted_upload_sets_title_and_size w f image :
  file_uploader ui = Some f → size f ≤ MAX_FILE_SIZE →
  Image_open f = inr image →
  ∃ w', page ui w = (Ret tt, w') ∧
    log w' = log w ++ page_events ++
               [StWrite "Conditioning Image :camera:"; StImage image] ∧
    session_state w' !! "uploaded_image" = Some (VFile f) ∧
    session_state w' !! "movie_title"
      = Some (widget ui "Movie Title" (VStr (splitext (name f)))) ∧
    session_state w' !! "width"
      = Some (widget ui "Width" (VInt (im_width image))) ∧
    session_state w' !! "height"
      = Some (widget ui "Height" (VInt (im_height image))).
Proof.
  intros Hf Hfit Himg. eexists.
  split; [exact (page_accepted _ _ _ Hf Hfit Himg)|]. world_simpl.
  destruct (after_upload_lookup f image (after_reset (session_state w)))
    as (Hu & Ht & Hw & Hh).
  split; [reflexivity|]. split; [|split; [|split]].
  - by rewrite after_fields_other
      by (apply (bool_decide_unpack _); vm_compute; exact I).
  - rewrite (after_fields_lookup ui _ "movie_title" "Movie Title" "movie_title")
      by (apply (bool_decide_unpack _); vm_compute; exact I).
    by rewrite Ht.
  - rewrite (after_fields_lookup ui _ "width" "Width" "width")
      by (apply (bool_decide_unpack _); vm_compute; exact I).
    by rewrite Hw.
  - rewrite (after_fields_lookup ui _ "height" "Height" "height")
      by (apply (bool_decide_unpack _); vm_compute; exact I).
    by rewrite Hh.
Qed.

(** X4: a file PIL cannot open is stored before it is opened.  With a file
    within the limit on which [Image.open] raises, the script raises that
    exception after the header; the session already holds the file as
    [uploaded_image] and its name as [movie_title], width and height are
    what the reset left, and no field has been run ([region] is as before). *)
Theorem undecodable_upload_is_stored w f e :
  file_uploader ui = Some f → size f ≤ MAX_FILE_SIZE →
  Image_open f = inl e →
  ∃ w', page ui w = (Raise e, w') ∧
    log w' = log w ++ page_events ∧
    session_state w' !! "uploaded_image" = Some (VFile f) ∧
    session_state w' !! "movie_title" = Some (VStr (splitext (name f))) ∧
    session_state w' !! "width"
      = Some (default (VInt 1024) (session_state w !! "width")) ∧
    session_state w' !! "height"
      = Some (default (VInt 576) (session_state w !! "height")) ∧
    session_state w' !! "region" = session_state w !! "region".
Proof.
  intros Hf Hfit Himg. eexists. split; [exact (page_undecodable _ _ _ Hf Hfit Himg)|].
  world_simpl. split; [reflexivity|].
  split; [by rewrite lookup_insert_ne, lookup_insert_eq by done|].
  split; [by rewrite lookup_insert_eq|].
  rewrite !lookup_insert_ne by done.
  split; [by apply after_reset_lookup|]. split; [by apply after_reset_lookup|].
  rewrite after_reset_union. by rewrite lookup_union_l.
Qed.

(** X5: the fields hold what the widgets give.  When the page comes up, the
    key of every field holds the user's entry where there is one; where there
    is none and the upload does not write the field's source, it holds what
    the session held for the source before the run, or the default. *)
Theorem fields_hold_the_widget_values w w' t l s :
  page ui w = (Ret tt, w') → (t, l, s) ∈ field_table →
  is_Some (session_state w' !! t) ∧
  (∀ v, inputs ui !! l = Some v → session_state w' !! t = Some v) ∧
  (inputs ui !! l = None → s ∉ upload_keys →
   session_state w' !! t
     = (session_state w ∪ list_to_map session_state_defaults) !! s).
Proof.
  intros Hrun Hrow. destruct (page_Ret _ _ Hrun) as (ss & -> & _ & _ & Hss).
  rewrite (after_fields_lookup ui ss t l s Hrow). unfold widget.
  split; [done|]. split.
  - by intros v ->.
  - intros -> Hs. cbn [default from_option id]. rewrite (Hss s Hs).
    pose proof (after_reset_present (session_state w)) as Hp.
    rewrite Forall_forall in Hp. destruct (Hp _ Hrow) as [v Hv].
    cbn [snd] in Hv. rewrite Hv. rewrite after_reset_union in Hv.
    by rewrite Hv.
Qed.

(** X6: the region the user types is stored aside.  When the page comes up,
    what the AWS Region field gives is stored under [region]; the key
    [aws_region], from which the clients are made, still holds what it
    held before the run, or the default [us-east-1]. *)
Theorem typed_region_is_stored_aside w w' :
  page ui w = (Ret tt, w') →
  session_state w' !! "aws_region"
    = Some (default (VStr "us-east-1") (session_state w !! "aws_region")) ∧
  session_state w' !! "region"
    = Some (widget ui "AWS Region"
              (default (VStr "us-east-1") (session_state w !! "aws_region"))).
Proof.
  intros Hrun. destruct (page_Ret _ _ Hrun) as (ss & -> & _ & _ & Hss).
  assert (ss !! "aws_region"
          = Some (default (VStr "us-east-1") (session_state w !! "aws_region")))
    as Hr.
  { rewrite Hss by (apply (bool_decide_unpack _); vm_compute; exact I).
    by apply after_reset_lookup. }
  split.
  - by rewrite after_fields_other
      by (apply (bool_decide_unpack _); vm_compute; exact I).
  - rewrite (after_fields_lookup ui ss "region" "AWS Region" "aws_region")
      by (apply (bool_decide_unpack _); vm_compute; exact I).
    by rewrite Hr.
Qed.

End PageRuns.

Lemma oversized_upload_is_ignored_witness :
  MAX_FILE_SIZE < size Demo.big_upload ∧
  ∃ w', Demo.show Demo.client_lib (Demo.with_upload Demo.big_upload) = (Ret tt, w') ∧
    log w' = log Demo.empty_world ++ page_events ++ [StError too_large] ∧
    session_state w'
      = after_fields (Demo.with_upload Demo.big_upload)
          (after_reset (session_state Demo.empty_world)) ∧
    session_state w' !! "uploaded_image"
      = Some (default VNone (session_state Demo.empty_world !! "uploaded_image")) ∧
    files w' = files Demo.empty_world ∧ s3 w' = s3 Demo.empty_world.
Proof.
  split; [reflexivity|].
  exact (oversized_upload_is_ignored (pylib := Demo.client_lib)
           (Demo.with_upload Demo.big_upload) Demo.empty_world
           Demo.big_upload eq_refl eq_refl).
Defined.

Lemma accepted_upload_sets_title_and_size_witness :
  size Demo.limit_upload = MAX_FILE_SIZE ∧
  ∃ w', Demo.show Demo.client_lib (Demo.with_upload Demo.limit_upload) = (Ret tt, w') ∧
    log w' = log Demo.empty_world ++ page_events ++
               [StWrite "Conditioning Image :camera:"; StImage Demo.picture] ∧
    session_state w' !! "uploaded_image" = Some (VFile Demo.limit_upload) ∧
    session_state w' !! "movie_title" = Some (VStr "limit") ∧
    session_state w' !! "width" = Some (VInt 64) ∧
    session_state w' !! "height" = Some (VInt 64).
Proof.
  split; [reflexivity|].
  refine (accepted_upload_sets_title_and_size (pylib := Demo.client_lib)
            (Demo.with_upload Demo.limit_upload) Demo.empty_world
            Demo.limit_upload Demo.picture eq_refl _ eq_refl).
  vm_compute. discriminate.
Defined.

Lemma undecodable_upload_is_stored_witness :
  ∃ w', Demo.show Demo.broken_lib (Demo.with_upload Demo.upload)
          = (Raise (PyError "UnidentifiedImageError"), w') ∧
    log w' = log Demo.empty_world ++ page_events ∧
    session_state w' !! "uploaded_image" = Some (VFile Demo.upload) ∧
    session_state w' !! "movie_title" = Some (VStr "demo") ∧
    session_state w' !! "width"
      = Some (default (VInt 1024) (session_state Demo.empty_world !! "width")) ∧
    session_state w' !! "height"
      = Some (default (VInt 576) (session_state Demo.empty_world !! "height")) ∧
    session_state w' !! "region" = session_state Demo.empty_world !! "region".
Proof.
  refine (undecodable_upload_is_stored (pylib := Demo.broken_lib)
            (Demo.with_upload Demo.upload) Demo.empty_world
            Demo.upload (PyError "UnidentifiedImageError") eq_refl _ eq_refl).
  vm_compute. discriminate.
Defined.

Lemma fields_hold_the_widget_values_witness :
  is_Some (session_state (Demo.show Demo.client_lib (Demo.with_upload Demo.upload)).2
             !! "fps") ∧
  (∀ v, inputs (Demo.with_upload Demo.upload) !! "Frames per Second" = Some v →
        session_state (Demo.show Demo.client_lib (Demo.with_upload Demo.upload)).2
          !! "fps" = Some v) ∧
  (inputs (Demo.with_upload Demo.upload) !! "Frames per Second" = None →
   "fps" ∉ upload_keys →
   session_state (Demo.show Demo.client_lib (Demo.with_upload Demo.upload)).2 !! "fps"
     = (session_state Demo.empty_world ∪ list_to_map session_state_defaults) !! "fps").
Proof.
  refine (fields_hold_the_widget_values (pylib := Demo.client_lib)
            (Demo.with_upload Demo.upload) Demo.empty_world _
            "fps" "Frames per Second" "fps" _ _).
  - vm_compute. reflexivity.
  - apply (bool_decide_unpack _). vm_compute. exact I.
Defined.

Lemma typed_region_is_stored_aside_witness :
  session_state (Demo.show Demo.client_lib (Demo.with_upload Demo.upload)).2
    !! "aws_region" = Some (VStr "us-east-1") ∧
  session_state (Demo.show Demo.client_lib (Demo.with_upload Demo.upload)).2
    !! "region" = Some (VStr "eu-west-1").
Proof.
  refine (typed_region_is_stored_aside (pylib := Demo.client_lib)
            (Demo.with_upload Demo.upload) Demo.empty_world _ _).
  vm_compute. reflexivity.
Defined.

(** ** What a poll has done when it ends *)

Section PollerReturns.
Context {pylib : PyLib} (remote : Remote).

(** A turn that ends in [continue] found nothing, slept, and touched nothing
    but the log. *)
Lemma turn_continue r i w w' :
  turn remote r i w = (Ret None, w') →
  pending_at remote r i ∧
  session_state w' = session_state w ∧ files w' = files w ∧ s3 w' = s3 w ∧
  elapsed (log w') = elapsed (log w) + 15 ∧
  checks (log w') = S (checks (log w)) ∧
  failure_fetches (log w') = S (failure_fetches (log w)).
Proof.
  intros Ht.
  destruct (success_check remote r i) as [e|body] eqn:Hc.
  - destruct (is_not_found e) eqn:Hnf.
    + assert (pending_at remote r i) as Hp.
      { split; [by exists e|].
        rewrite (turn_not_found _ _ _ _ _ Hc Hnf) in Ht.
        destruct (failure_fetch remote r i) as [e'|blob]; [by exists e'|done]. }
      split; [done|].
      destruct (turn_pending remote r i w Hp) as (w1 & Ht1 & ?).
      rewrite Ht1 in Ht. by injection Ht as <-.
    + by rewrite (turn_hard_error _ _ _ _ _ Hc Hnf) in Ht.
  - by rewrite (turn_success _ _ _ _ _ Hc) in Ht.
Qed.

(** While the loop runs it has only waited. *)
Lemma poller_running fuel r w w' :
  poll_loop remote fuel r w = (Running, w') →
  (∀ i, (i < fuel)%nat → pending_at remote r i) ∧
  session_state w' = session_state w ∧ files w' = files w ∧ s3 w' = s3 w ∧
  elapsed (log w') = elapsed (log w) + 15 * Z.of_nat fuel ∧
  checks (log w') = (checks (log w) + fuel)%nat ∧
  failure_fetches (log w') = (failure_fetches (log w) + fuel)%nat.
Proof.
  revert w'. induction fuel as [|fuel IH]; intros w' Hrun.
  - cbv [poll_loop while_True running] in Hrun. injection Hrun as <-.
    split; [intros i Hi; lia|]. repeat split; lia.
  - destruct (poll_loop remote fuel r w) as [[b|e|] wi] eqn:Hfuel.
    + unfold poll_loop in Hrun, Hfuel.
      replace (S fuel) with (fuel + 1)%nat in Hrun by lia.
      by rewrite (while_True_add _ _ _ _ _ (turn_not_Running remote r)), Hfuel in Hrun.
    + unfold poll_loop in Hrun, Hfuel.
      replace (S fuel) with (fuel + 1)%nat in Hrun by lia.
      by rewrite (while_True_add _ _ _ _ _ (turn_not_Running remote r)), Hfuel in Hrun.
    + destruct (IH wi eq_refl) as (Hp & ? & ? & ? & ? & ? & ?).
      rewrite (poller_decides remote _ _ _ _ (S fuel) Hfuel) in Hrun by lia.
      rewrite Nat.sub_diag in Hrun. unfold bind in Hrun.
      destruct (turn remote r fuel wi) as [[[b|]|e|] w1] eqn:Ht;
        [discriminate Hrun| |discriminate Hrun|
         by destruct (turn_not_Running remote r fuel wi); rewrite Ht].
      cbn [while_True running] in Hrun. injection Hrun as <-.
      destruct (turn_continue _ _ _ _ Ht) as (Hpf & ? & ? & ? & ? & ? & ?).
      split.
      { intros i Hi. destruct (decide (i = fuel)) as [->|]; [done|]. apply Hp. lia. }
      repeat split; try congruence; lia.
Qed.

(** A run that returns has decided on some turn, after waiting on every
    turn before. *)
Lemma poller_returned fuel r w b w' :
  poll_loop remote fuel r w = (Ret b, w') →
  ∃ i wi, (i < fuel)%nat ∧
    poll_loop remote i r w = (Running, wi) ∧
    turn remote r i wi = (Ret (Some b), w').
Proof.
  revert w'. induction fuel as [|fuel IH]; intros w' Hrun;
    [by cbv [poll_loop while_True running] in Hrun|].
  destruct (poll_loop remote fuel r w) as [[b'|e|] wi] eqn:Hfuel.
  - unfold poll_loop in Hrun, Hfuel.
    replace (S fuel) with (fuel + 1)%nat in Hrun by lia.
    rewrite (while_True_add _ _ _ _ _ (turn_not_Running remote r)), Hfuel in Hrun.
    injection Hrun as -> ->.
    destruct (IH _ eq_refl) as (i & wj & ? & ? & ?). exists i, wj.
    split; [lia|done].
  - unfold poll_loop in Hrun, Hfuel.
    replace (S fuel) with (fuel + 1)%nat in Hrun by lia.
    by rewrite (while_True_add _ _ _ _ _ (turn_not_Running remote r)), Hfuel in Hrun.
  - rewrite (poller_decides remote _ _ _ _ (S fuel) Hfuel) in Hrun by lia.
    rewrite Nat.sub_diag in Hrun. unfold bind in Hrun.
    destruct (turn remote r fuel wi) as [[[b'|]|e|] w1] eqn:Ht;
      [|discriminate Hrun|discriminate Hrun|discriminate Hrun].
    injection Hrun as -> ->. exists fuel, wi. split; [lia|done].
Qed.

(** X7: what a poll that returns has done.  A call of [get_model_response]
    that returns did so on some turn [i] after [i] turns on which neither
    location gave anything: it has slept [15 * i] seconds and checked the
    success location [i + 1] times, the session and the bucket are as
    before, and the local files are as before except that, when it returns
    [True], the response file holds what [download_file] gave on turn [i]. *)
Theorem poller_return_accounting r w fuel b w' :
  get_model_response remote fuel r w = (Ret b, w') →
  ∃ i, (i < fuel)%nat ∧
    (∀ j, (j < i)%nat → pending_at remote r j) ∧
    elapsed (log w') = elapsed (log w) + 15 * Z.of_nat i ∧
    checks (log w') = (checks (log w) + i + 1)%nat ∧
    session_state w' = session_state w ∧ s3 w' = s3 w ∧
    (if b
     then ∃ body, success_check remote r i = inr body ∧
                  files w' = <[RESPONSE_PAYLOAD := body]> (files w)
     else files w' = files w).
Proof.
  intros Hrun.
  destruct (get_model_response_started _ _ _ _ _ _ Hrun ltac:(done))
    as [region Hr].
  rewrite (get_model_response_region _ _ _ _ _ Hr) in Hrun.
  destruct (poller_returned _ _ _ _ _ Hrun) as (i & wi & Hi & Hw & Ht).
  destruct (poller_running _ _ _ _ Hw) as (Hp & Hss & Hfs & Hs3 & Hel & Hch & _).
  exists i. split; [done|]. split; [done|].
  destruct (success_check remote r i) as [e|body] eqn:Hc.
  - destruct (is_not_found e) eqn:Hnf.
    + rewrite (turn_not_found _ _ _ _ _ Hc Hnf) in Ht.
      destruct (failure_fetch remote r i) as [e'|blob]; [done|].
      pose proof (f_equal fst Ht) as Hb. pose proof (f_equal snd Ht) as Hw'.
      cbn [fst snd] in Hb, Hw'. subst w'. injection Hb as <-. world_simpl.
      rewrite !elapsed_app, !checks_app, elapsed_success_events,
        checks_success_events, Hel, Hch, Hss, Hfs, Hs3.
      unfold elapsed, checks. cbn [foldr List.filter is_check length].
      repeat split; lia.
    + by rewrite (turn_hard_error _ _ _ _ _ Hc Hnf) in Ht.
  - rewrite (turn_success _ _ _ _ _ Hc) in Ht.
    pose proof (f_equal fst Ht) as Hb. pose proof (f_equal snd Ht) as Hw'.
    cbn [fst snd] in Hb, Hw'. subst w'. injection Hb as <-. world_simpl.
    rewrite !elapsed_app, !checks_app, elapsed_success_events,
      checks_success_events, Hel, Hch, Hss, Hfs, Hs3.
    unfold elapsed, checks. cbn [foldr List.filter is_check length].
    split; [lia|]. split; [lia|]. split; [done|]. split; [done|].
    by exists body.
Qed.

(** X8: a failure record ends the poll.  When the loop reaches a turn on
    which the check of the success location ends in a not-found error and the
    failure location can be fetched, the poll returns [False] on that turn for
    every larger fuel: it prints the record, does not sleep on that turn and
    writes no local file. *)
Theorem failure_record_ends_the_poll r w i wi e blob fuel :
  get_model_response remote i r w = (Running, wi) →
  success_check remote r i = inl e → is_not_found e = true →
  failure_fetch remote r i = inr blob → (i < fuel)%nat →
  ∃ w', get_model_response remote fuel r w = (Ret false, w') ∧
    log w' = log wi ++ success_events remote r i ++
               [Print "Waiting for model output...";
                DownloadFileobj (failure_location r).1 (failure_location r).2;
                PrintFailure blob] ∧
    elapsed (log w') = elapsed (log w) + 15 * Z.of_nat i ∧
    files w' = files w ∧ session_state w' = session_state w ∧ s3 w' = s3 w.
Proof.
  intros Hw Hc Hnf Hf Hlt.
  destruct (get_model_response_started _ _ _ _ _ _ Hw ltac:(done))
    as [region Hr].
  rewrite (get_model_response_region _ _ _ _ _ Hr) in Hw.
  destruct (poller_running _ _ _ _ Hw) as (_ & Hss & Hfs & Hs3 & Hel & _ & _).
  pose proof (turn_not_found remote r i wi e Hc Hnf) as Ht. rewrite Hf in Ht.
  eexists. split.
  - rewrite (get_model_response_region _ _ _ _ _ Hr).
    rewrite (poller_decides remote _ _ _ _ _ Hw Hlt).
    rewrite (bind_Ret _ _ _ _ _ Ht). reflexivity.
  - world_simpl. split; [reflexivity|].
    rewrite !elapsed_app, elapsed_success_events, Hel, Hss, Hfs, Hs3.
    unfold elapsed. cbn [foldr]. repeat split; lia.
Qed.

(** X9: every error of the failure location is swallowed.  When the loop
    reaches a turn on which the check of the success location ends in a
    not-found error and the fetch of the failure location raises, whatever
    the exception is, the poll sleeps fifteen seconds and goes on to the next
    turn; the exception is not reported. *)
Theorem failure_location_errors_are_swallowed r w i wi e e' :
  get_model_response remote i r w = (Running, wi) →
  success_check remote r i = inl e → is_not_found e = true →
  failure_fetch remote r i = inl e' →
  ∃ w', get_model_response remote (S i) r w = (Running, w') ∧
    log w' = log wi ++ success_events remote r i ++
               [Print "Waiting for model output...";
                DownloadFileobj (failure_location r).1 (failure_location r).2;
                Sleep 15].
Proof.
  intros Hw Hc Hnf Hf.
  destruct (get_model_response_started _ _ _ _ _ _ Hw ltac:(done))
    as [region Hr].
  rewrite (get_model_response_region _ _ _ _ _ Hr) in Hw.
  pose proof (turn_not_found remote r i wi e Hc Hnf) as Ht. rewrite Hf in Ht.
  eexists. split.
  - rewrite (get_model_response_region _ _ _ _ _ Hr).
    rewrite (poller_decides remote _ _ _ _ (S i) Hw) by lia.
    rewrite (bind_Ret _ _ _ _ _ Ht), Nat.sub_diag. reflexivity.
  - world_simpl. reflexivity.
Qed.

End PollerReturns.

Lemma poller_return_accounting_witness :
  ∃ i, (i < 5)%nat ∧
    (∀ j, (j < i)%nat →
          pending_at (pylib := Demo.client_lib) (Demo.ready_at 2 Demo.two_frames)
            Demo.job j) ∧
    elapsed (log (Demo.poll (Demo.ready_at 2 Demo.two_frames) 5).2)
      = elapsed (log Demo.region_world) + 15 * Z.of_nat i ∧
    checks (log (Demo.poll (Demo.ready_at 2 Demo.two_frames) 5).2)
      = (checks (log Demo.region_world) + i + 1)%nat ∧
    session_state (Demo.poll (Demo.ready_at 2 Demo.two_frames) 5).2
      = session_state Demo.region_world ∧
    s3 (Demo.poll (Demo.ready_at 2 Demo.two_frames) 5).2 = s3 Demo.region_world ∧
    ∃ body,
      success_check (pylib := Demo.client_lib) (Demo.ready_at 2 Demo.two_frames)
        Demo.job i = inr body ∧
      files (Demo.poll (Demo.ready_at 2 Demo.two_frames) 5).2
        = <[RESPONSE_PAYLOAD := body]> (files Demo.region_world).
Proof.
  refine (poller_return_accounting (pylib := Demo.client_lib)
            (Demo.ready_at 2 Demo.two_frames) Demo.job Demo.region_world 5 true
            (Demo.poll (Demo.ready_at 2 Demo.two_frames) 5).2 _).
  vm_compute. reflexivity.
Defined.

Lemma failure_record_ends_the_poll_witness :
  ∃ w', Demo.poll (Demo.failed_at 1) 4 = (Ret false, w') ∧
    log w' = log (Demo.poll (Demo.failed_at 1) 1).2 ++
               success_events (pylib := Demo.client_lib) (Demo.failed_at 1)
                 Demo.job 1 ++
               [Print "Waiting for model output...";
                DownloadFileobj
                  (failure_location (pylib := Demo.client_lib) Demo.job).1
                  (failure_location (pylib := Demo.client_lib) Demo.job).2;
                PrintFailure [Byte.x21]] ∧
    elapsed (log w') = elapsed (log Demo.region_world) + 15 * Z.of_nat 1 ∧
    files w' = files Demo.region_world ∧
    session_state w' = session_state Demo.region_world ∧
    s3 w' = s3 Demo.region_world.
Proof.
  refine (failure_record_ends_the_poll (pylib := Demo.client_lib)
            (Demo.failed_at 1) Demo.job Demo.region_world 1
            (Demo.poll (Demo.failed_at 1) 1).2 (ClientError "404") [Byte.x21] 4
            _ eq_refl eq_refl eq_refl _).
  - vm_compute. reflexivity.
  - lia.
Defined.

Lemma failure_location_errors_are_swallowed_witness :
  ∃ w', Demo.poll Demo.unreadable_failure 3 = (Running, w') ∧
    log w' = log (Demo.poll Demo.unreadable_failure 2).2 ++
               success_events (pylib := Demo.client_lib) Demo.unreadable_failure
                 Demo.job 2 ++
               [Print "Waiting for model output...";
                DownloadFileobj
                  (failure_location (pylib := Demo.client_lib) Demo.job).1
                  (failure_location (pylib := Demo.client_lib) Demo.job).2;
                Sleep 15].
Proof.
  refine (failure_location_errors_are_swallowed (pylib := Demo.client_lib)
            Demo.unreadable_failure Demo.job Demo.region_world 2
            (Demo.poll Demo.unreadable_failure 2).2 (ClientError "404")
            (ClientError "AccessDenied") _ eq_refl eq_refl eq_refl).
  vm_compute. reflexivity.
Defined.

(** ** What is staged for the button *)

Section Request.
Context {codec : Base64} {pylib : PyLib} (remote : Remote) (ui : UserInput).

Lemma ss_getitem_run k w v :
  session_state w !! k = Some v → ss_getitem k w = (Ret v, w).
Proof. intros Hk. unfold ss_getitem. by rewrite Hk. Qed.

Lemma request_document_lookup ss encoded k :
  k ∈ request_fields →
  request_document ss encoded !! k = Some (default VNone (ss !! k)).
Proof.
  intros Hk. unfold request_fields in Hk. unfold request_document.
  repeat (apply elem_of_cons in Hk as [->|Hk]; [reflexivity|]).
  by apply elem_of_nil in Hk.
Qed.

Lemma request_fields_rows k :
  k ∈ request_fields → ∃ l, (k, l, k) ∈ field_table.
Proof.
  intros Hk. unfold request_fields in Hk.
  repeat (apply elem_of_cons in Hk as [->|Hk];
          [eexists; unfold field_table;
           repeat first [apply list_elem_of_here | apply list_elem_of_further]|]).
  by apply elem_of_nil in Hk.
Qed.

(** What a field's key holds when the page has come up. *)
Lemma page_field_lookup w w1 t l s :
  page ui w = (Ret tt, w1) → (t, l, s) ∈ field_table →
  ∃ v0, session_state w1 !! t = Some (widget ui l v0) ∧
        (s ∉ upload_keys →
         (session_state w ∪ list_to_map session_state_defaults) !! s = Some v0).
Proof.
  intros Hrun Hrow. destruct (page_Ret _ _ _ Hrun) as (ss & -> & _ & _ & Hss).
  rewrite (after_fields_lookup ui ss t l s Hrow).
  exists (default VNone (ss !! s)). split; [done|].
  intros Hs. rewrite (Hss s Hs).
  pose proof (after_reset_present (session_state w)) as Hp.
  rewrite Forall_forall in Hp. destruct (Hp _ Hrow) as [v Hv].
  cbn [snd] in Hv. rewrite Hv. rewrite after_reset_union in Hv. by rewrite Hv.
Qed.

(** X10: the request carries the fields.  When the page has come up and
    [invoke_model] returns, the request document written to the request file
    and uploaded to the bucket has exactly the image and the twelve request
    fields; each field holds what the session holds for it after the page:
    the user's entry where there is one, and, for a field the upload does
    not write, with no entry and nothing in the session before the run, the
    default of [reset_session_states]. *)
Theorem request_carries_the_fields w w1 r w2 :
  page ui w = (Ret tt, w1) →
  invoke_model remote w1 = (Ret r, w2) →
  ∃ data b,
    files w2 !! REQUEST_PAYLOAD = Some (RequestJson data) ∧
    session_state w1 !! "s3_bucket" = Some (VStr b) ∧
    s3 w2 !! (b, "async_inference/input/payload.json")
      = Some (RequestJson data) ∧
    dom data = list_to_set ("image" :: request_fields) ∧
    (∀ k, k ∈ request_fields → data !! k = session_state w1 !! k) ∧
    (∀ k l v, (k, l, k) ∈ field_table → k ∈ request_fields →
              inputs ui !! l = Some v → data !! k = Some v) ∧
    (∀ k l, (k, l, k) ∈ field_table → k ∈ request_fields →
            k ∉ upload_keys → inputs ui !! l = None →
            session_state w !! k = None →
            data !! k
              = (list_to_map session_state_defaults : gmap string PyVal) !! k).
Proof.
  intros Hpage Hrun.
  destruct (invoke_model_Ret _ _ _ _ Hrun)
    as (u & image & jpeg & b & endpoint & _ & _ & _ & Hb & _ & Hw2).
  cbv zeta in Hw2. subst w2.
  set (data := request_document (session_state w1)
                 ("data:text/plain;base64," +:+ b64encode jpeg)).
  assert (∀ k, k ∈ request_fields → data !! k = session_state w1 !! k) as Hdata.
  { intros k Hk. unfold data. rewrite (request_document_lookup _ _ _ Hk).
    destruct (request_fields_rows k Hk) as [l Hrow].
    destruct (page_field_lookup _ _ _ _ _ Hpage Hrow) as (v0 & -> & _). done. }
  exists data, b. world_simpl. rewrite !lookup_insert_eq.
  do 3 (split; [done|]). split; [|split; [done|split]].
  - unfold data, request_document. rewrite dom_list_to_map_L. reflexivity.
  - intros k l v Hrow Hk Hl. rewrite (Hdata k Hk).
    destruct (page_field_lookup _ _ _ _ _ Hpage Hrow) as (v0 & -> & _).
    unfold widget. by rewrite Hl.
  - intros k l Hrow Hk Hup Hl Hnew. rewrite (Hdata k Hk).
    destruct (page_field_lookup _ _ _ _ _ Hpage Hrow) as (v0 & -> & Hv0).
    unfold widget. rewrite Hl. cbn [default from_option id].
    rewrite <-(Hv0 Hup). by apply lookup_union_r.
Qed.

(** X11: without an upload there is nothing to send.  When the session
    holds no image before the run, its key [uploaded_image] being absent, as
    in a new session, or holding [None], as after a run without an accepted
    upload, and the uploader is empty or holds a file over the limit, the
    page comes up, and [invoke_model] then raises [AttributeError] from
    [Image.open(None)] before it writes, uploads or invokes anything. *)
Theorem create_video_needs_an_upload w w1 :
  default VNone (session_state w !! "uploaded_image") = VNone →
  (file_uploader ui = None ∨
   ∃ f, file_uploader ui = Some f ∧ MAX_FILE_SIZE < size f) →
  page ui w = (Ret tt, w1) →
  invoke_model remote w1 = (Raise (PyError "AttributeError"), w1).
Proof.
  intros Hnone Hui Hpage.
  assert (session_state w1 !! "uploaded_image" = Some VNone) as Hu.
  { assert (session_state w1 = after_fields ui (after_reset (session_state w)))
      as ->.
    { destruct Hui as [Hf|(f & Hf & Hbig)].
      - rewrite (page_without_upload _ _ Hf) in Hpage.
        pose proof (f_equal snd Hpage) as Hw. cbn [snd] in Hw. subst w1.
        by world_simpl.
      - rewrite (page_rejected _ _ _ Hf Hbig) in Hpage.
        pose proof (f_equal snd Hpage) as Hw. cbn [snd] in Hw. subst w1.
        by world_simpl. }
    rewrite after_fields_other
      by (apply (bool_decide_unpack _); vm_compute; exact I).
    rewrite (after_reset_lookup _ "uploaded_image" VNone) by reflexivity.
    by rewrite Hnone. }
  unfold invoke_model.
  rewrite (bind_Ret _ _ _ _ _ (ss_getitem_run _ _ _ Hu)).
  apply bind_Raise. reflexivity.
Qed.

(** X12: the endpoint is invoked only on an uploaded request.  However a
    call of [invoke_model] ends, if it has called [invoke_endpoint_async]
    then the upload of the request file had succeeded before: the request
    file and the object at [async_inference/input/payload.json] of the
    session's bucket hold the same request document, and the input location
    handed to the endpoint is that object. *)
Theorem endpoint_is_invoked_on_an_uploaded_request w o w' :
  invoke_model remote w = (o, w') →
  ∀ ep loc t,
    InvokeEndpointAsync ep loc t ∈ log w' →
    InvokeEndpointAsync ep loc t ∉ log w →
    ∃ b data,
      session_state w !! "s3_bucket" = Some (VStr b) ∧
      s3_upload_file remote (VStr b) "async_inference/input/payload.json"
        = None ∧
      files w' !! REQUEST_PAYLOAD = Some (RequestJson data) ∧
      s3 w' !! (b, "async_inference/input/payload.json")
        = Some (RequestJson data) ∧
      loc = "s3://" +:+ b +:+ "/async_inference/input/payload.json".
Proof.
  intros Hrun. refine (wp_run _ _ _ _ _ _ Hrun). clear Hrun.
  unfold invoke_model, upload_file, encode_image, json_dump.
  wp_go.
  all: intros <-; world_simpl; intros ep loc t Hin Hnew.
  all: rewrite ?elem_of_app, ?list_elem_of_singleton in Hin.
  all: repeat match goal with H : _ ∨ _ |- _ => destruct H as [H|H] end.
  all: try (exfalso; exact (Hnew Hin)).
  all: try discriminate Hin.
  all: injection Hin as -> -> ->.
  all: repeat match goal with H : VStr _ = VStr _ |- _ => injection H as -> end.
  all: eexists _, _; split; [reflexivity|]; split; [eassumption|].
  all: rewrite !lookup_insert_eq; split; [reflexivity|]; split; reflexivity.
Qed.

End Request.

Lemma request_carries_the_fields_witness :
  ∃ data b,
    files (Demo.stage (Demo.show Demo.client_lib (Demo.with_upload Demo.upload)).2).2
      !! REQUEST_PAYLOAD = Some (RequestJson data) ∧
    session_state (Demo.show Demo.client_lib (Demo.with_upload Demo.upload)).2
      !! "s3_bucket" = Some (VStr b) ∧
    s3 (Demo.stage (Demo.show Demo.client_lib (Demo.with_upload Demo.upload)).2).2
      !! (b, "async_inference/input/payload.json") = Some (RequestJson data) ∧
    dom data = list_to_set ("image" :: request_fields) ∧
    (∀ k, k ∈ request_fields →
          data !! k
            = session_state
                (Demo.show Demo.client_lib (Demo.with_upload Demo.upload)).2 !! k) ∧
    (∀ k l v, (k, l, k) ∈ field_table → k ∈ request_fields →
              inputs (Demo.with_upload Demo.upload) !! l = Some v →
              data !! k = Some v) ∧
    (∀ k l, (k, l, k) ∈ field_table → k ∈ request_fields →
            k ∉ upload_keys →
            inputs (Demo.with_upload Demo.upload) !! l = None →
            session_state Demo.empty_world !! k = None →
            data !! k
              = (list_to_map session_state_defaults : gmap string PyVal) !! k).
Proof.
  refine (request_carries_the_fields (codec := PyBase64.base64)
            (pylib := Demo.client_lib) Demo.never_ready
            (Demo.with_upload Demo.upload) Demo.empty_world
            (Demo.show Demo.client_lib (Demo.with_upload Demo.upload)).2
            Demo.job
            (Demo.stage (Demo.show Demo.client_lib (Demo.with_upload Demo.upload)).2).2
            _ _).
  - vm_compute. reflexivity.
  - vm_compute. reflexivity.
Defined.

Lemma create_video_needs_an_upload_witness :
  session_state (Demo.show Demo.client_lib (Demo.with_upload Demo.big_upload)).2
    !! "uploaded_image" = Some VNone ∧
  invoke_model (codec := PyBase64.base64) (pylib := Demo.client_lib)
    Demo.never_ready Demo.shown_again.2
  = (Raise (PyError "AttributeError"), Demo.shown_again.2).
Proof.
  split; [vm_compute; reflexivity|].
  refine (create_video_needs_an_upload (codec := PyBase64.base64)
            (pylib := Demo.client_lib) Demo.never_ready
            (Demo.with_upload Demo.big_upload)
            (Demo.show Demo.client_lib (Demo.with_upload Demo.big_upload)).2
            Demo.shown_again.2 _ _ _).
  - vm_compute. reflexivity.
  - right. exists Demo.big_upload. split; reflexivity.
  - vm_compute. reflexivity.
Defined.

Lemma endpoint_is_invoked_on_an_uploaded_request_witness :
  InvokeEndpointAsync (VStr ENDPOINT_NAME)
    ("s3://" +:+ S3_BUCKET +:+ "/async_inference/input/payload.json") 3600
    ∈ log Demo.staged_once ∧
  ∃ b data,
    session_state Demo.shown !! "s3_bucket" = Some (VStr b) ∧
    s3_upload_file Demo.never_ready (VStr b)
      "async_inference/input/payload.json" = None ∧
    files Demo.staged_once !! REQUEST_PAYLOAD = Some (RequestJson data) ∧
    s3 Demo.staged_once !! (b, "async_inference/input/payload.json")
      = Some (RequestJson data) ∧
    "s3://" +:+ S3_BUCKET +:+ "/async_inference/input/payload.json"
      = "s3://" +:+ b +:+ "/async_inference/input/payload.json".
Proof.
  assert (log Demo.shown =
            page_events ++
            [StWrite "Conditioning Image :camera:"; StImage Demo.picture])
    as Hshown by (vm_compute; reflexivity).
  assert (log Demo.staged_once = log Demo.shown ++
            [S3UploadFile REQUEST_PAYLOAD (VStr S3_BUCKET)
               "async_inference/input/payload.json" "application/json";
             InvokeEndpointAsync (VStr ENDPOINT_NAME)
               ("s3://" +:+ S3_BUCKET +:+ "/async_inference/input/payload.json")
               3600])
    as Hstaged by (vm_compute; reflexivity).
  assert (InvokeEndpointAsync (VStr ENDPOINT_NAME)
            ("s3://" +:+ S3_BUCKET +:+ "/async_inference/input/payload.json") 3600
            ∈ log Demo.staged_once) as Hin.
  { rewrite Hstaged. apply elem_of_app. right.
    apply list_elem_of_further, list_elem_of_here. }
  split; [exact Hin|].
  refine (endpoint_is_invoked_on_an_uploaded_request (codec := PyBase64.base64)
            (pylib := Demo.client_lib) Demo.never_ready Demo.shown
            (Ret Demo.job) Demo.staged_once _ _ _ _ Hin _).
  - vm_compute. reflexivity.
  - rewrite Hshown. unfold page_events. intros Hold.
    repeat (apply elem_of_cons in Hold as [Hold|Hold]; [discriminate Hold|]).
    by apply elem_of_nil in Hold.
Defined.

(** ** What the handler does to a request *)

Section HandlerRuns.

Import Inference.

Ltac pop_step :=
  lazymatch goal with
  | |- wp (pop _) _ _ =>
      apply wp_pop; cbn [data pipe_calls]; rewrite ?lookup_delete_ne by done;
      lazymatch goal with |- match ?x with _ => _ end => wp_case x end;
      cbv beta iota zeta
  | |- wp (pop_default _ _) _ _ =>
      apply wp_pop_default; cbn [data pipe_calls];
      rewrite ?lookup_delete_ne by done; cbv beta iota zeta
  | |- _ => wp_step
  end; cbn [data pipe_calls].

Context {codec : Base64} {hlib : Lib}.

Lemma lookup_foldl_delete (keys : list string) (d : gmap string PyVal) k :
  foldl (λ d k, delete k d) d keys !! k
    = if bool_decide (k ∈ keys) then None else d !! k.
Proof.
  revert d. induction keys as [|k' keys IH]; intros d; cbn [foldl].
  - by rewrite bool_decide_eq_false_2 by apply not_elem_of_nil.
  - rewrite IH. destruct (decide (k = k')) as [->|Hne].
    + rewrite (bool_decide_eq_true_2 (k' ∈ k' :: keys)) by apply list_elem_of_here.
      rewrite lookup_delete_eq. by case_bool_decide.
    + rewrite lookup_delete_ne by done.
      case_bool_decide as Hin.
      * by rewrite bool_decide_eq_true_2 by (by apply list_elem_of_further).
      * rewrite bool_decide_eq_false_2; [done|].
        intros [?|?]%elem_of_cons; done.
Qed.

(** A call that returns has popped every key it knows. *)
Lemma predict_fn_pops w doc w' :
  predict_fn w = (Ret doc, w') →
  data w' = foldl (λ d k, delete k d) (data w) popped_keys.
Proof.
  intros Hrun. refine (wp_run _ _ _ _ _ _ Hrun). clear Hrun.
  unfold predict_fn, call_pipe.
  repeat (pop_step; try wp_leaf).
  intros <-. reflexivity.
Qed.

(** X13: the handler fills in what the request leaves out.  A call of
    [predict_fn] that returns echoes the movie title and, for each of the
    eleven optional parameters, the request's value or else the handler's
    default; the image is not echoed.  The pipeline was called once, with
    the same values for the parameters that are not the size, the generator
    being what [torch.manual_seed] gave for the seed. *)
Theorem handler_fills_in_defaults w doc w' :
  predict_fn w = (Ret doc, w') →
  config doc !! "movie_title" = data w !! "movie_title" ∧
  dom (config doc) = list_to_set ("movie_title" :: optional_parameters.*1) ∧
  (∀ k d, (k, d) ∈ optional_parameters →
          config doc !! k = Some (default d (data w !! k))) ∧
  ∃ args,
    pipe_calls w' = pipe_calls w ++ [args] ∧
    p_num_frames args = default (VInt 25) (data w !! "num_frames") ∧
    p_num_inference_steps args
      = default (VInt 25) (data w !! "num_inference_steps") ∧
    p_min_guidance_scale args
      = default (VFloat 1.0) (data w !! "min_guidance_scale") ∧
    p_max_guidance_scale args
      = default (VFloat 3.0) (data w !! "max_guidance_scale") ∧
    p_fps args = default (VInt 6) (data w !! "fps") ∧
    p_motion_bucket_id args = default (VInt 127) (data w !! "motion_bucket_id") ∧
    p_noise_aug_strength args
      = default (VFloat 0.02) (data w !! "noise_aug_strength") ∧
    p_decode_chunk_size args
      = default (VInt 8) (data w !! "decode_chunk_size") ∧
    manual_seed (default (VInt 42) (data w !! "seed")) = inr (p_generator args).
Proof.
  intros Hrun.
  destruct (predict_fn_Ret _ _ _ Hrun)
    as (title & value & source & image & generator & pics
        & Ht & _ & _ & _ & Hg & _ & Hc & ->).
  cbn [config]. split; [by rewrite Ht|]. split; [|split].
  - unfold echoed_config. rewrite dom_list_to_map_L. reflexivity.
  - intros k d Hk. unfold optional_parameters in Hk. unfold echoed_config.
    repeat (apply elem_of_cons in Hk as [[= -> ->]|Hk]; [reflexivity|]).
    by apply elem_of_nil in Hk.
  - exists (pipe_args_of (data w) image generator). split; [exact Hc|].
    cbn [pipe_args_of p_num_frames p_num_inference_steps p_min_guidance_scale
         p_max_guidance_scale p_fps p_motion_bucket_id p_noise_aug_strength
         p_decode_chunk_size p_generator].
    do 8 (split; [reflexivity|]). exact Hg.
Qed.

(** X14: the handler uses up the request.  A call of [predict_fn] that
    returns has popped the thirteen keys it knows from the dictionary it was
    given and left every other key alone; called again on that dictionary
    it raises [KeyError] without reaching the pipeline. *)
Theorem handler_uses_up_the_request w doc w' :
  predict_fn w = (Ret doc, w') →
  (∀ k, k ∈ popped_keys → data w' !! k = None) ∧
  (∀ k, k ∉ popped_keys → data w' !! k = data w !! k) ∧
  predict_fn w' = (Raise (PyError "KeyError"), w').
Proof.
  intros Hrun. pose proof (predict_fn_pops _ _ _ Hrun) as Hd.
  assert (∀ k, k ∈ popped_keys → data w' !! k = None) as Hgone.
  { intros k Hk. rewrite Hd, lookup_foldl_delete.
    by rewrite bool_decide_eq_true_2. }
  split; [exact Hgone|]. split.
  - intros k Hk. rewrite Hd, lookup_foldl_delete.
    by rewrite bool_decide_eq_false_2.
  - unfold predict_fn. apply bind_Raise. unfold pop.
    rewrite (Hgone "movie_title"); [done|]. apply list_elem_of_here.
Qed.

(** X15: no title or no image, no pipeline.  Without [movie_title] in the
    request [predict_fn] raises [KeyError] and leaves the request as it is;
    with a title but without [image] it raises [KeyError] after it has popped
    the title.  The pipeline is not called in either case. *)
Theorem handler_needs_title_and_image w :
  (data w !! "movie_title" = None →
   predict_fn w = (Raise (PyError "KeyError"), w)) ∧
  (∀ title, data w !! "movie_title" = Some title →
            data w !! "image" = None →
            predict_fn w =
              (Raise (PyError "KeyError"),
               {| data := delete "movie_title" (data w);
                  pipe_calls := pipe_calls w |})).
Proof.
  split.
  - intros Ht. unfold predict_fn. apply bind_Raise. unfold pop. by rewrite Ht.
  - intros title Ht Hi. unfold predict_fn.
    assert (pop "movie_title" w =
              (Ret title, {| data := delete "movie_title" (data w);
                             pipe_calls := pipe_calls w |})) as Hpop
      by (unfold pop; by rewrite Ht).
    rewrite (bind_Ret _ _ _ _ _ Hpop). apply bind_Raise. unfold pop.
    cbn [data pipe_calls]. rewrite lookup_delete_ne by done. by rewrite Hi.
Qed.

End HandlerRuns.

Lemma handler_fills_in_defaults_witness :
  config (Demo.answer Demo.picture Demo.bare_request) !! "movie_title"
    = Demo.bare_request !! "movie_title" ∧
  dom (config (Demo.answer Demo.picture Demo.bare_request))
    = list_to_set ("movie_title" :: Inference.optional_parameters.*1) ∧
  (∀ k d, (k, d) ∈ Inference.optional_parameters →
          config (Demo.answer Demo.picture Demo.bare_request) !! k
            = Some (default d (Demo.bare_request !! k))) ∧
  ∃ args,
    Inference.pipe_calls (Demo.handle Demo.picture Demo.bare_request).2
      = [] ++ [args] ∧
    Inference.p_num_frames args
      = default (VInt 25) (Demo.bare_request !! "num_frames") ∧
    Inference.p_num_inference_steps args
      = default (VInt 25) (Demo.bare_request !! "num_inference_steps") ∧
    Inference.p_min_guidance_scale args
      = default (VFloat 1.0) (Demo.bare_request !! "min_guidance_scale") ∧
    Inference.p_max_guidance_scale args
      = default (VFloat 3.0) (Demo.bare_request !! "max_guidance_scale") ∧
    Inference.p_fps args = default (VInt 6) (Demo.bare_request !! "fps") ∧
    Inference.p_motion_bucket_id args
      = default (VInt 127) (Demo.bare_request !! "motion_bucket_id") ∧
    Inference.p_noise_aug_strength args
      = default (VFloat 0.02) (Demo.bare_request !! "noise_aug_strength") ∧
    Inference.p_decode_chunk_size args
      = default (VInt 8) (Demo.bare_request !! "decode_chunk_size") ∧
    Inference.manual_seed (Lib := Demo.handler_lib Demo.picture)
      (default (VInt 42) (Demo.bare_request !! "seed"))
      = inr (Inference.p_generator args).
Proof.
  refine (handler_fills_in_defaults (codec := PyBase64.base64)
            (hlib := Demo.handler_lib Demo.picture)
            {| Inference.data := Demo.bare_request; Inference.pipe_calls := [] |}
            (Demo.answer Demo.picture Demo.bare_request)
            (Demo.handle Demo.picture Demo.bare_request).2 _).
  vm_compute. reflexivity.
Defined.

Lemma handler_uses_up_the_request_witness :
  (∀ k, k ∈ Inference.popped_keys →
        Inference.data (Demo.handle Demo.picture Demo.sized_request).2 !! k = None) ∧
  (∀ k, k ∉ Inference.popped_keys →
        Inference.data (Demo.handle Demo.picture Demo.sized_request).2 !! k
          = Demo.sized_request !! k) ∧
  Inference.predict_fn (codec := PyBase64.base64)
      (hlib := Demo.handler_lib Demo.picture)
      (Demo.handle Demo.picture Demo.sized_request).2
    = (Raise (PyError "KeyError"),
       (Demo.handle Demo.picture Demo.sized_request).2).
Proof.
  refine (handler_uses_up_the_request (codec := PyBase64.base64)
            (hlib := Demo.handler_lib Demo.picture)
            {| Inference.data := Demo.sized_request; Inference.pipe_calls := [] |}
            (Demo.answer Demo.picture Demo.sized_request)
            (Demo.handle Demo.picture Demo.sized_request).2 _).
  vm_compute. reflexivity.
Defined.

Lemma handler_needs_title_and_image_witness :
  Inference.predict_fn (codec := PyBase64.base64)
      (hlib := Demo.handler_lib Demo.picture)
      {| Inference.data := {["movie_title" := VStr "demo"]};
         Inference.pipe_calls := [] |}
    = (Raise (PyError "KeyError"),
       {| Inference.data := delete "movie_title" {["movie_title" := VStr "demo"]};
          Inference.pipe_calls := [] |}).
Proof.
  exact (proj2 (handler_needs_title_and_image (codec := PyBase64.base64)
                  (hlib := Demo.handler_lib Demo.picture)
                  {| Inference.data := {["movie_title" := VStr "demo"]};
                     Inference.pipe_calls := [] |})
           (VStr "demo") eq_refl eq_refl).
Defined.

(** ** From the response file to the video *)

Lemma store_frames_lookup_ne decoded idx fs p :
  (∀ i, (i < length decoded)%nat → p ≠ frame_name (idx + i)) →
  store_frames idx decoded fs !! p = fs !! p.
Proof.
  revert idx fs. induction decoded as [|d ds IH]; intros idx fs Hp; [done|].
  cbn [store_frames]. rewrite IH.
  - apply lookup_insert_ne. intros <-. apply (Hp 0%nat); cbn; [lia|].
    by rewrite Nat.add_0_r.
  - intros i Hi. replace (S idx + i)%nat with (idx + S i)%nat by lia.
    apply Hp. cbn. lia.
Qed.

Lemma store_frames_lookup0 decoded fs i d :
  (length decoded ≤ 99)%nat → decoded !! i = Some d →
  store_frames 0 decoded fs !! frame_name i = Some (Bytes d).
Proof. intros Hn Hi. exact (store_frames_lookup decoded 0 fs i d Hn Hi). Qed.

(** Writing [new] frames over the [old] ones of an earlier, longer run
    leaves the new frames followed by the rest of the old ones. *)
Lemma store_frames_over new old fs :
  (length new ≤ length old)%nat → (length old ≤ 99)%nat →
  store_frames 0 new (store_frames 0 old fs)
    = store_frames 0 (new ++ drop (length new) old) fs.
Proof.
  intros Hn Hm. apply map_eq. intros p.
  assert (length (new ++ drop (length new) old) = length old) as Hlen
    by (rewrite length_app, length_drop; lia).
  destruct (decide (p ∈ frame_name <$> seq 0 (length old))) as [Hin|Hout].
  - apply list_elem_of_fmap in Hin as (i & -> & Hi).
    apply elem_of_seq in Hi as [_ Hi]. cbn in Hi.
    destruct (decide (i < length new)%nat) as [Hlt|Hge].
    + destruct (lookup_lt_is_Some_2 new i Hlt) as [d Hd].
      rewrite (store_frames_lookup0 new _ i d) by (done || lia).
      symmetry. apply store_frames_lookup0; [lia|].
      by apply lookup_app_l_Some.
    + destruct (lookup_lt_is_Some_2 old i Hi) as [d Hd].
      rewrite store_frames_lookup_ne.
      * rewrite (store_frames_lookup0 old fs i d) by (done || lia).
        symmetry. apply store_frames_lookup0; [lia|].
        rewrite lookup_app_r by lia. rewrite lookup_drop.
        by replace (length new + (i - length new))%nat with i by lia.
      * intros j Hj Heq. apply frame_name_inj99 in Heq; lia.
  - assert (∀ l : list (list Byte.byte), length l ≤ length old →
              ∀ i, (i < length l)%nat → p ≠ frame_name (0 + i))%nat as Hne.
    { intros l Hl i Hi ->. apply Hout. apply list_elem_of_fmap.
      exists i. split; [done|]. apply elem_of_seq. lia. }
    rewrite !store_frames_lookup_ne; [done|..].
    + apply Hne. lia.
    + by apply Hne.
    + by apply Hne.
Qed.

Section Video.
Context {codec : Base64} {pylib : PyLib} (remote : Remote).

Lemma read_file_run p w d :
  files w !! p = Some d → read_file p w = (Ret d, w).
Proof. intros Hp. unfold read_file. by rewrite Hp. Qed.

Lemma process_video_frames_decoded w doc decoded :
  files w !! RESPONSE_PAYLOAD = Some (ResultJson doc) →
  decodes (frames doc) decoded →
  process_video_frames w = (Ret tt, set_files (store_frames 0 decoded) w).
Proof.
  intros Hfile Hd. unfold process_video_frames.
  rewrite (bind_Ret _ _ _ _ _ (read_file_run _ _ _ Hfile)).
  by apply write_frames_decoded.
Qed.

Lemma convert_frames_to_video_run path w fps :
  session_state w !! "fps" = Some fps →
  ffmpeg_run remote
    {| ff_input := "frames_out/*.jpg"; ff_pattern_type := "glob";
       ff_framerate := fps; ff_output := path;
       ff_crf := 20; ff_preset := "slower"; ff_movflags := "faststart";
       ff_pix_fmt := "yuv420p"; ff_vcodec := "libx264";
       ff_overwrite_output := true; ff_quiet := true |} = None →
  convert_frames_to_video remote path w =
    (Ret tt,
     set_files (insert path (Video fps (pictures (files w))))
       (add_events
          [FfmpegRun
             {| ff_input := "frames_out/*.jpg"; ff_pattern_type := "glob";
                ff_framerate := fps; ff_output := path;
                ff_crf := 20; ff_preset := "slower"; ff_movflags := "faststart";
                ff_pix_fmt := "yuv420p"; ff_vcodec := "libx264";
                ff_overwrite_output := true; ff_quiet := true |}] w)).
Proof.
  intros Hfps Hrun. unfold convert_frames_to_video.
  rewrite (bind_Ret _ _ _ _ _ (ss_getitem_run _ _ _ Hfps)).
  unfold bind, emit, modify, call_, gets, write_file. rewrite Hrun.
  reflexivity.
Qed.

(** X16: up to 99 frames become the video in the order of the response.
    When the response file holds at most 99 frames that all decode, no
    [frames_out/*.jpg] lay there before and the encoder succeeds, decoding
    and encoding return normally, the encoder was given the session's [fps]
    as frame rate, and the video holds the decoded frames in the order of
    the response document. *)
Theorem frames_become_the_video_in_order w doc decoded fps path :
  files w !! RESPONSE_PAYLOAD = Some (ResultJson doc) →
  decodes (frames doc) decoded →
  (length (frames doc) ≤ 99)%nat →
  (∀ p, is_frame_jpg p = true → files w !! p = None) →
  session_state w !! "fps" = Some fps →
  (∀ args, ffmpeg_run remote args = None) →
  ∃ w' args,
    (process_video_frames >> convert_frames_to_video remote path) w
      = (Ret tt, w') ∧
    log w' = log w ++ [FfmpegRun args] ∧
    ff_framerate args = fps ∧ ff_output args = path ∧
    ff_input args = "frames_out/*.jpg" ∧
    files w' !! path = Some (Video fps decoded).
Proof.
  intros Hfile Hd Hn Hfs Hfps Hff. eexists _, _. split.
  - rewrite (bind_Ret _ _ _ _ _ (process_video_frames_decoded _ _ _ Hfile Hd)).
    apply convert_frames_to_video_run; [by world_simpl|apply Hff].
  - world_simpl. split; [reflexivity|]. do 3 (split; [reflexivity|]).
    rewrite lookup_insert_eq, pictures_store; [done| |done].
    by rewrite <-(Forall2_length _ _ _ Hd).
Qed.

(** X17: the frames of an earlier run stay.  [frames_out] is never emptied:
    when it holds the frames [old] of an earlier run and the response file
    now holds fewer frames (at most 99 in either run), decoding overwrites
    the first files only, and the encoder then reads the new frames followed
    by the remaining old ones. *)
Theorem frames_of_an_earlier_run_stay w fs doc decoded old :
  files w = store_frames 0 old fs →
  (∀ p, is_frame_jpg p = true → fs !! p = None) →
  files w !! RESPONSE_PAYLOAD = Some (ResultJson doc) →
  decodes (frames doc) decoded →
  (length decoded ≤ length old)%nat → (length old ≤ 99)%nat →
  ∃ w', process_video_frames w = (Ret tt, w') ∧
        pictures (files w') = decoded ++ drop (length decoded) old.
Proof.
  intros Hold Hfs Hfile Hd Hn Hm. eexists. split.
  - exact (process_video_frames_decoded _ _ _ Hfile Hd).
  - world_simpl. rewrite Hold, store_frames_over by done.
    apply pictures_store; [|done]. rewrite length_app, length_drop. lia.
Qed.

End Video.

Lemma frames_become_the_video_in_order_witness :
  ∃ w' args,
    (process_video_frames (codec := PyBase64.base64) >>
     convert_frames_to_video Demo.never_ready "video_out/demo.mp4") Demo.received
      = (Ret tt, w') ∧
    log w' = log Demo.received ++ [FfmpegRun args] ∧
    ff_framerate args = VInt 6 ∧ ff_output args = "video_out/demo.mp4" ∧
    ff_input args = "frames_out/*.jpg" ∧
    files w' !! "video_out/demo.mp4"
      = Some (Video (VInt 6) [[Byte.x01]; [Byte.x02]]).
Proof.
  refine (frames_become_the_video_in_order (codec := PyBase64.base64)
            Demo.never_ready Demo.received Demo.two_frames
            [[Byte.x01]; [Byte.x02]] (VInt 6) "video_out/demo.mp4"
            eq_refl _ _ _ eq_refl _).
  - repeat constructor.
  - cbn. lia.
  - intros p Hp. apply lookup_singleton_None. intros <-. discriminate Hp.
  - reflexivity.
Defined.

Lemma frames_of_an_earlier_run_stay_witness :
  ∃ w', process_video_frames (codec := PyBase64.base64) Demo.second_run
          = (Ret tt, w') ∧
        pictures (files w') = [[Byte.x01]; [Byte.x02]] ++
                              drop (length [[Byte.x01]; [Byte.x02]])
                                Demo.earlier_frames.
Proof.
  refine (frames_of_an_earlier_run_stay (codec := PyBase64.base64)
            Demo.second_run (files Demo.received) Demo.two_frames
            [[Byte.x01]; [Byte.x02]] Demo.earlier_frames
            eq_refl _ _ _ _ _).
  - intros p Hp. apply lookup_singleton_None. intros <-. discriminate Hp.
  - vm_compute. reflexivity.
  - repeat constructor.
  - cbn. lia.
  - cbn. lia.
Defined.

(** ** The button: [handle_video_creation] and [play_video] *)

Lemma bind_Ret_inv {W A B} (c : M W A) (k : A → M W B) w b w' :
  bind c k w = (Ret b, w') →
  ∃ a w1, c w = (Ret a, w1) ∧ k a w1 = (Ret b, w').
Proof.
  unfold bind. destruct (c w) as [[a|e|] w1]; [|done..].
  intros Hk. by exists a, w1.
Qed.

Lemma encoder_runs_app l1 l2 :
  encoder_runs (l1 ++ l2) = encoder_runs l1 ++ encoder_runs l2.
Proof. unfold encoder_runs. apply List.filter_app. Qed.

Section Button.
Context {codec : Base64} {pylib : PyLib} (remote : Remote) (ui : UserInput).

Lemma encoder_runs_success_events r i :
  encoder_runs (success_events remote r i) = [].
Proof.
  unfold success_events.
  by destruct (head_object remote i (success_location r).1 (success_location r).2).
Qed.

(** A turn of the poller does not run the encoder. *)
Lemma turn_encoder_runs r i w o w' :
  turn remote r i w = (o, w') →
  encoder_runs (log w') = encoder_runs (log w).
Proof.
  intros Ht.
  assert (∃ evs, log w' = log w ++ success_events remote r i ++ evs ∧
                 encoder_runs evs = []) as (evs & -> & Hevs).
  { destruct (success_check remote r i) as [e|body] eqn:Hc.
    - destruct (is_not_found e) eqn:Hnf.
      + rewrite (turn_not_found _ _ _ _ _ Hc Hnf) in Ht.
        destruct (failure_fetch remote r i) as [e'|blob];
          pose proof (f_equal snd Ht) as Hw; cbn [snd] in Hw; subst w';
          world_simpl; eexists; (split; [reflexivity|reflexivity]).
      + rewrite (turn_hard_error _ _ _ _ _ Hc Hnf) in Ht.
        pose proof (f_equal snd Ht) as Hw; cbn [snd] in Hw; subst w'.
        world_simpl. exists []. by rewrite app_nil_r.
    - rewrite (turn_success _ _ _ _ _ Hc) in Ht.
      pose proof (f_equal snd Ht) as Hw; cbn [snd] in Hw; subst w'.
      world_simpl. eexists. split; [by rewrite <-app_assoc|reflexivity]. }
  rewrite !encoder_runs_app, encoder_runs_success_events, Hevs.
  by rewrite !app_nil_r.
Qed.

Lemma while_True_encoder_runs r fuel i w o w' :
  while_True fuel (turn remote r) i w = (o, w') →
  encoder_runs (log w') = encoder_runs (log w).
Proof.
  revert i w. induction fuel as [|fuel IH]; intros i w Hrun.
  - cbn in Hrun. by injection Hrun as _ <-.
  - cbn [while_True] in Hrun. unfold bind in Hrun.
    destruct (turn remote r i w) as [[[b|]|e|] w1] eqn:Ht.
    + pose proof (f_equal snd Hrun) as Hw; cbn [snd] in Hw; subst w'.
      exact (turn_encoder_runs _ _ _ _ _ Ht).
    + rewrite (IH _ _ Hrun). exact (turn_encoder_runs _ _ _ _ _ Ht).
    + pose proof (f_equal snd Hrun) as Hw; cbn [snd] in Hw; subst w'.
      exact (turn_encoder_runs _ _ _ _ _ Ht).
    + pose proof (f_equal snd Hrun) as Hw; cbn [snd] in Hw; subst w'.
      exact (turn_encoder_runs _ _ _ _ _ Ht).
Qed.

(** A poll that returns leaves session state and bucket alone and does not
    run the encoder. *)
Lemma poller_quiet fuel r w b w' :
  get_model_response remote fuel r w = (Ret b, w') →
  session_state w' = session_state w ∧ s3 w' = s3 w ∧
  encoder_runs (log w') = encoder_runs (log w).
Proof.
  intros Hrun.
  destruct (get_model_response_started _ _ _ _ _ _ Hrun ltac:(done))
    as [region Hr].
  rewrite (get_model_response_region _ _ _ _ _ Hr) in Hrun.
  split; [|split].
  - destruct (poller_returned _ _ _ _ _ _ Hrun) as (i & wi & _ & Hw & Ht).
    destruct (poller_running _ _ _ _ _ Hw) as (_ & Hss & _).
    rewrite <-Hss. clear Hw Hss Hrun.
    destruct (success_check remote r i) as [e|body] eqn:Hc.
    + destruct (is_not_found e) eqn:Hnf.
      * rewrite (turn_not_found _ _ _ _ _ Hc Hnf) in Ht.
        destruct (failure_fetch remote r i) as [e'|blob];
          pose proof (f_equal snd Ht) as Hw; cbn [snd] in Hw; subst w';
          by world_simpl.
      * by rewrite (turn_hard_error _ _ _ _ _ Hc Hnf) in Ht.
    + rewrite (turn_success _ _ _ _ _ Hc) in Ht.
      pose proof (f_equal snd Ht) as Hw; cbn [snd] in Hw; subst w'.
      by world_simpl.
  - destruct (poller_returned _ _ _ _ _ _ Hrun) as (i & wi & _ & Hw & Ht).
    destruct (poller_running _ _ _ _ _ Hw) as (_ & _ & _ & Hs3 & _).
    rewrite <-Hs3. clear Hw Hs3 Hrun.
    destruct (success_check remote r i) as [e|body] eqn:Hc.
    + destruct (is_not_found e) eqn:Hnf.
      * rewrite (turn_not_found _ _ _ _ _ Hc Hnf) in Ht.
        destruct (failure_fetch remote r i) as [e'|blob];
          pose proof (f_equal snd Ht) as Hw; cbn [snd] in Hw; subst w';
          by world_simpl.
      * by rewrite (turn_hard_error _ _ _ _ _ Hc Hnf) in Ht.
    + rewrite (turn_success _ _ _ _ _ Hc) in Ht.
      pose proof (f_equal snd Ht) as Hw; cbn [snd] in Hw; subst w'.
      by world_simpl.
  - unfold poll_loop in Hrun.
    exact (while_True_encoder_runs _ _ _ _ _ _ Hrun).
Qed.

(** Decoding touches nothing but the local files. *)
Lemma write_frames_quiet idx video_frames w o w' :
  write_frames idx video_frames w = (o, w') →
  session_state w' = session_state w ∧ s3 w' = s3 w ∧ log w' = log w.
Proof.
  revert idx w. induction video_frames as [|f fs IH]; intros idx w Hrun.
  - cbn in Hrun. by injection Hrun as _ <-.
  - cbn [write_frames] in Hrun. unfold bind, write_file, modify, call in Hrun.
    destruct (b64decode f) as [e|d].
    + cbn in Hrun. by injection Hrun as _ <-.
    + cbn [ret] in Hrun. apply IH in Hrun as (-> & -> & ->). by world_simpl.
Qed.

Lemma process_video_frames_quiet w o w' :
  process_video_frames w = (o, w') →
  session_state w' = session_state w ∧ s3 w' = s3 w ∧ log w' = log w.
Proof.
  unfold process_video_frames, bind, read_file.
  destruct (files w !! RESPONSE_PAYLOAD) as [[| |doc|]|];
    try (intros Hrun; by injection Hrun as _ <-).
  apply write_frames_quiet.
Qed.

Lemma convert_frames_to_video_Ret path w w' :
  convert_frames_to_video remote path w = (Ret tt, w') →
  ∃ fps args,
    session_state w !! "fps" = Some fps ∧
    ff_framerate args = fps ∧ ff_output args = path ∧
    ff_input args = "frames_out/*.jpg" ∧ ff_pattern_type args = "glob" ∧
    w' = set_files (insert path (Video fps (pictures (files w))))
           (add_events [FfmpegRun args] w).
Proof.
  unfold convert_frames_to_video, bind, ss_getitem, emit, modify, call_, gets,
    write_file.
  destruct (session_state w !! "fps") as [fps|]; [|done].
  match goal with |- context [ffmpeg_run remote ?a] =>
    destruct (ffmpeg_run remote a); [done|]; intros Hrun; exists fps, a
  end.
  pose proof (f_equal snd Hrun) as Hw. cbn [snd] in Hw. by subst w'.
Qed.

(** [play_video] sets its flag, then ends and shows what
    [play_video_outcome] says. *)
Lemma play_video_run path w :
  play_video ui path w =
    ((play_video_outcome ui path (files w)).1,
     add_events (play_video_outcome ui path (files w)).2
       (set_session_state (insert "play_video_disabled" (VBool false)) w)).
Proof.
  unfold play_video, play_video_outcome, bind, ss_setitem, modify.
  case_bool_decide as Hp.
  - unfold try_except_Exception, open_rb, bind, read_file, call_, emit, modify.
    cbn [files set_session_state].
    destruct (open_error path) as [e|].
    + unfold raise. destruct (is_missing_file e); [reflexivity|].
      unfold raise, add_events, set_log. cbn. by rewrite app_nil_r.
    + unfold ret. rewrite files_set_session_state.
      by destruct (files w !! path) as [video|].
  - unfold ret, add_events, set_log. cbn. by rewrite app_nil_r.
Qed.

(** Whatever [play_video] shows is on the page only. *)
Lemma play_video_outcome_quiet path fs :
  Forall (λ e, is_display e = true) (play_video_outcome ui path fs).2 ∧
  encoder_runs (play_video_outcome ui path fs).2 = [].
Proof.
  unfold play_video_outcome. case_bool_decide; [|by split].
  destruct (open_error path) as [e|].
  - destruct (is_missing_file e); split; by repeat constructor.
  - destruct (fs !! path); split; by repeat constructor.
Qed.

Lemma ss_getitem_Ret k w v w' :
  ss_getitem k w = (Ret v, w') → w' = w ∧ session_state w !! k = Some v.
Proof.
  unfold ss_getitem. destruct (session_state w !! k) as [v'|]; [|done].
  intros Hrun. pose proof (f_equal snd Hrun) as Hw. cbn [snd] in Hw.
  injection Hrun as -> _. by subst w'.
Qed.

(** A run of the button that returns, step by step: the request is staged,
    the poll returns, and when it returned [True] the frames are decoded and
    the encoder is run once, which leaves the video at the title's path. *)
Lemma video_creation_Ret w w' fuel :
  "Create Video" ∈ buttons ui →
  handle_video_creation remote ui fuel w = (Ret tt, w') →
  ∃ b data r w1 (received : bool) w2,
    invoke_model remote w = (Ret r, w1) ∧
    get_model_response remote fuel r w1 = (Ret received, w2) ∧
    session_state w !! "s3_bucket" = Some (VStr b) ∧
    s3 w' = <[(b, "async_inference/input/payload.json") := RequestJson data]>
              (s3 w) ∧
    data !! "fps" = Some (default VNone (session_state w !! "fps")) ∧
    if received
    then ∃ args title pics,
           encoder_runs (log w') = encoder_runs (log w) ++ [FfmpegRun args] ∧
           session_state w !! "fps" = Some (ff_framerate args) ∧
           data !! "fps" = Some (ff_framerate args) ∧
           session_state w !! "movie_title" = Some title ∧
           ff_output args = video_path_of title ∧
           ff_input args = "frames_out/*.jpg" ∧ ff_pattern_type args = "glob" ∧
           files w' !! video_path_of title
             = Some (Video (ff_framerate args) pics)
    else encoder_runs (log w') = encoder_runs (log w).
Proof.
  intros Hbutton Hrun. unfold handle_video_creation in Hrun.
  rewrite bool_decide_eq_true_2 in Hrun by done.
  apply bind_Ret_inv in Hrun as ([] & w3 & Hblock & Hplay).
  apply bind_Ret_inv in Hblock as (r & w1 & Hinv & Hrest).
  apply bind_Ret_inv in Hrest as (received & w2 & Hpoll & Hthen).
  apply bind_Ret_inv in Hplay as (title & w4 & Hget & Hpv).
  apply ss_getitem_Ret in Hget as [-> Htitle].
  rewrite play_video_run in Hpv.
  pose proof (f_equal snd Hpv) as Hw'. cbn [snd] in Hw'. clear Hpv.
  destruct (play_video_outcome_quiet (video_path_of title) (files w3))
    as [_ Hquiet].
  set (evs := (play_video_outcome ui (video_path_of title) (files w3)).2) in *.
  clearbody evs. subst w'.
  destruct (invoke_model_Ret _ _ _ _ Hinv)
    as (u & image & jpeg & b & endpoint & _ & _ & _ & Hb & _ & Hw1).
  cbv zeta in Hw1.
  destruct (poller_quiet _ _ _ _ _ Hpoll) as (Hss2 & Hs32 & Hlog2).
  assert (session_state w1 = session_state w) as Hss1 by (subst w1; by world_simpl).
  assert (s3 w1 = <[(b, "async_inference/input/payload.json") :=
                     RequestJson (request_document (session_state w)
                       ("data:text/plain;base64," +:+ b64encode jpeg))]> (s3 w))
    as Hs31 by (subst w1; by world_simpl).
  assert (encoder_runs (log w1) = encoder_runs (log w)) as Hlog1.
  { subst w1. world_simpl. rewrite !encoder_runs_app. cbn. by rewrite !app_nil_r. }
  exists b, (request_document (session_state w)
               ("data:text/plain;base64," +:+ b64encode jpeg)),
    r, w1, received, w2.
  split; [exact Hinv|]. split; [exact Hpoll|]. split; [done|].
  assert (request_document (session_state w)
            ("data:text/plain;base64," +:+ b64encode jpeg) !! "fps"
          = Some (default VNone (session_state w !! "fps"))) as Hfps.
  { apply request_document_lookup. apply (bool_decide_unpack _). vm_compute. exact I. }
  clear Hinv Hpoll Hw1.
  destruct received.
  - apply bind_Ret_inv in Hthen as ([] & w2a & Hproc & Hthen).
    apply bind_Ret_inv in Hthen as (title' & w2a' & Hget' & Hthen).
    apply ss_getitem_Ret in Hget' as [-> Htitle'].
    apply bind_Ret_inv in Hthen as ([] & w2b & Hconv & Hemit).
    destruct (process_video_frames_quiet _ _ _ Hproc) as (Hssa & Hs3a & Hloga).
    destruct (convert_frames_to_video_Ret _ _ _ Hconv)
      as (fps & args & Hsfps & Hrate & Hout & Hin & Hpat & Hw2b).
    unfold emit, modify in Hemit. pose proof (f_equal snd Hemit) as Hw3.
    cbn [snd] in Hw3. subst w3 w2b. world_simpl.
    rewrite Hs3a, Hs32, Hs31. split; [done|]. split; [done|].
    exists args, title', (pictures (files w2a)).
    rewrite Hssa, Hss2, Hss1 in Hsfps, Htitle'.
    rewrite !encoder_runs_app, Hquiet, Hloga, Hlog2, Hlog1.
    split; [cbn; by rewrite !app_nil_r|]. rewrite Hrate.
    split; [done|]. split; [by rewrite Hfps, Hsfps|]. split; [done|].
    split; [by rewrite Hout|]. do 2 (split; [done|]).
    apply lookup_insert_eq.
  - unfold ret in Hthen. pose proof (f_equal snd Hthen) as Hw3. cbn [snd] in Hw3.
    subst w3. world_simpl. rewrite Hs32, Hs31. split; [done|]. split; [done|].
    rewrite !encoder_runs_app, Hquiet, Hlog2, Hlog1. by rewrite app_nil_r.
Qed.

(** X18: the video is encoded at the rate that was staged.  When the button
    is pressed and [handle_video_creation] returns, [invoke_model] has
    returned an invocation and [get_model_response] has returned on it; the
    request document lies at the one key of the session's bucket and holds
    the session's [fps].  If that poll returned [True] the encoder was run
    exactly once, on the glob [frames_out/*.jpg], with that same [fps] as
    frame rate and [video_out/<movie_title>.mp4] as output; if it returned
    [False] the encoder was not run. *)
Theorem video_is_encoded_at_the_staged_rate w w' fuel :
  "Create Video" ∈ buttons ui →
  handle_video_creation remote ui fuel w = (Ret tt, w') →
  ∃ b data r w1 (received : bool) w2,
    invoke_model remote w = (Ret r, w1) ∧
    get_model_response remote fuel r w1 = (Ret received, w2) ∧
    session_state w !! "s3_bucket" = Some (VStr b) ∧
    s3 w' = <[(b, "async_inference/input/payload.json") := RequestJson data]>
              (s3 w) ∧
    data !! "fps" = Some (default VNone (session_state w !! "fps")) ∧
    if received
    then ∃ args title,
           encoder_runs (log w') = encoder_runs (log w) ++ [FfmpegRun args] ∧
           session_state w !! "fps" = Some (ff_framerate args) ∧
           data !! "fps" = Some (ff_framerate args) ∧
           session_state w !! "movie_title" = Some title ∧
           ff_output args = video_path_of title ∧
           ff_input args = "frames_out/*.jpg" ∧ ff_pattern_type args = "glob"
    else encoder_runs (log w') = encoder_runs (log w).
Proof.
  intros Hbutton Hrun.
  destruct (video_creation_Ret _ _ _ Hbutton Hrun)
    as (b & data & r & w1 & received & w2 & Hinv & Hpoll & Hb & Hs3 & Hfps
        & Hthen).
  exists b, data, r, w1, received, w2. do 5 (split; [done|]).
  destruct received; [|exact Hthen].
  destruct Hthen as (args & title & pics & Hlog & Hrate & Hd & Ht & Hout & Hin
                     & Hpat & _).
  by exists args, title.
Qed.

(** X19: [play_video] catches only a missing file.  It always sets
    [play_video_disabled] to [False] and touches neither files nor bucket.
    Without the Play Video button it shows nothing and returns.  With the
    button it shows the video when the file opens, shows a warning and
    returns when the file is not there, and lets every other error of [open]
    (a name that is too long, a directory) propagate. *)
Theorem play_video_catches_only_a_missing_file path w :
  ∃ o evs,
    play_video ui path w =
      (o, add_events evs
            (set_session_state (insert "play_video_disabled" (VBool false)) w)) ∧
    ("Play Video" ∉ buttons ui → o = Ret tt ∧ evs = []) ∧
    ("Play Video" ∈ buttons ui →
     (∀ e, open_error path = Some e → is_missing_file e = false →
           o = Raise e ∧ evs = []) ∧
     (∀ video, open_error path = None → files w !! path = Some video →
               o = Ret tt ∧ evs = [StVideo video]) ∧
     (open_error path = None → files w !! path = None →
      o = Ret tt ∧
      evs = [StWarning "Video does not exist. Please create the video first."]) ∧
     (∀ e, open_error path = Some e → is_missing_file e = true →
           o = Ret tt ∧
           evs = [StWarning
                    "Video does not exist. Please create the video first."])).
Proof.
  eexists _, _. split; [apply play_video_run|].
  unfold play_video_outcome. split.
  - intros Hp. by rewrite bool_decide_eq_false_2.
  - intros Hp. rewrite bool_decide_eq_true_2 by done.
    split; [|split; [|split]].
    + intros e -> Hm. by rewrite Hm.
    + by intros video -> ->.
    + by intros -> ->.
    + intros e -> Hm. by rewrite Hm.
Qed.

Lemma main_steps fuel w :
  main remote ui fuel w
    = bind (page ui) (λ _, handle_video_creation remote ui fuel) w.
Proof.
  unfold main, page, bind.
  destruct (configure_page w) as [[[]|?|] w1]; [|done..].
  destruct (reset_session_states w1) as [[[]|?|] w2]; [|done..].
  destruct (handle_file_upload ui w2) as [[[]|?|] w3]; [|done..].
  by destruct (display_input_fields ui w3) as [[[]|?|] w4].
Qed.

Lemma page_shows w w1 :
  page ui w = (Ret tt, w1) →
  files w1 = files w ∧ s3 w1 = s3 w ∧
  ∃ evs, log w1 = log w ++ evs ∧ Forall (λ e, is_display e = true) evs.
Proof.
  intros Hrun. destruct (file_uploader ui) as [f|] eqn:Hf.
  - destruct (Z_lt_le_dec MAX_FILE_SIZE (size f)) as [Hbig|Hfit].
    + rewrite (page_rejected _ _ _ Hf Hbig) in Hrun.
      pose proof (f_equal snd Hrun) as Hw. cbn [snd] in Hw. subst w1.
      world_simpl. do 2 (split; [done|]). eexists. split; [done|].
      unfold page_events. by repeat constructor.
    + destruct (Image_open f) as [e|image] eqn:Himg.
      * by rewrite (page_undecodable _ _ _ _ Hf Hfit Himg) in Hrun.
      * rewrite (page_accepted _ _ _ _ Hf Hfit Himg) in Hrun.
        pose proof (f_equal snd Hrun) as Hw. cbn [snd] in Hw. subst w1.
        world_simpl. do 2 (split; [done|]). eexists. split; [done|].
        unfold page_events. by repeat constructor.
  - rewrite (page_without_upload _ _ Hf) in Hrun.
    pose proof (f_equal snd Hrun) as Hw. cbn [snd] in Hw. subst w1.
    world_simpl. do 2 (split; [done|]). eexists. split; [done|].
    unfold page_events. by repeat constructor.
Qed.

(** X20: without the button nothing is written or sent.  When Create Video
    is not pressed and the script returns, local files and bucket are as
    before the run, and every event of the run only shows something on the
    page: no upload, no invocation, no poll, no encoder run. *)
Theorem without_the_button_nothing_is_sent w w' fuel :
  "Create Video" ∉ buttons ui →
  main remote ui fuel w = (Ret tt, w') →
  files w' = files w ∧ s3 w' = s3 w ∧
  ∃ evs, log w' = log w ++ evs ∧ Forall (λ e, is_display e = true) evs.
Proof.
  intros Hbutton Hrun. rewrite main_steps in Hrun.
  apply bind_Ret_inv in Hrun as ([] & w1 & Hpage & Hrun).
  destruct (page_shows _ _ Hpage) as (Hf1 & Hs1 & evs1 & Hl1 & Hd1).
  unfold handle_video_creation in Hrun.
  rewrite bool_decide_eq_false_2 in Hrun by done.
  apply bind_Ret_inv in Hrun as ([] & w2 & Hret & Hplay).
  unfold ret in Hret. pose proof (f_equal snd Hret) as Hw2. cbn [snd] in Hw2.
  subst w2.
  apply bind_Ret_inv in Hplay as (title & w3 & Hget & Hpv).
  apply ss_getitem_Ret in Hget as [-> Htitle].
  rewrite play_video_run in Hpv.
  pose proof (f_equal snd Hpv) as Hw'. cbn [snd] in Hw'.
  destruct (play_video_outcome_quiet (video_path_of title) (files w1))
    as [Hshown _].
  set (evs := (play_video_outcome ui (video_path_of title) (files w1)).2) in *.
  clearbody evs. subst w'. world_simpl. do 2 (split; [done|]).
  exists (evs1 ++ evs). split; [by rewrite Hl1, app_assoc|].
  apply Forall_app. by split.
Qed.

End Button.

Lemma video_is_encoded_at_the_staged_rate_witness :
  ∃ b data r w1 (received : bool) w2,
    invoke_model (codec := PyBase64.base64) (pylib := Demo.client_lib)
      (Demo.ready_at 1 Demo.two_frames) Demo.shown = (Ret r, w1) ∧
    get_model_response (pylib := Demo.client_lib)
      (Demo.ready_at 1 Demo.two_frames) 5 r w1 = (Ret received, w2) ∧
    session_state Demo.shown !! "s3_bucket" = Some (VStr b) ∧
    s3 Demo.created.2
      = <[(b, "async_inference/input/payload.json") := RequestJson data]>
          (s3 Demo.shown) ∧
    data !! "fps" = Some (default VNone (session_state Demo.shown !! "fps")) ∧
    if received
    then ∃ args title,
           encoder_runs (log Demo.created.2)
             = encoder_runs (log Demo.shown) ++ [FfmpegRun args] ∧
           session_state Demo.shown !! "fps" = Some (ff_framerate args) ∧
           data !! "fps" = Some (ff_framerate args) ∧
           session_state Demo.shown !! "movie_title" = Some title ∧
           ff_output args = video_path_of (pylib := Demo.client_lib) title ∧
           ff_input args = "frames_out/*.jpg" ∧ ff_pattern_type args = "glob"
    else encoder_runs (log Demo.created.2) = encoder_runs (log Demo.shown).
Proof.
  refine (video_is_encoded_at_the_staged_rate (codec := PyBase64.base64)
            (pylib := Demo.client_lib) (Demo.ready_at 1 Demo.two_frames)
            Demo.page Demo.shown Demo.created.2 5 _ _).
  - apply (bool_decide_unpack _). vm_compute. exact I.
  - vm_compute. reflexivity.
Defined.

Lemma without_the_button_nothing_is_sent_witness :
  files Demo.idle_run.2 = files Demo.empty_world ∧
  s3 Demo.idle_run.2 = s3 Demo.empty_world ∧
  ∃ evs, log Demo.idle_run.2 = log Demo.empty_world ++ evs ∧
         Forall (λ e, is_display e = true) evs.
Proof.
  refine (without_the_button_nothing_is_sent (codec := PyBase64.base64)
            (pylib := Demo.client_lib) Demo.never_ready Demo.idle
            Demo.empty_world Demo.idle_run.2 5 _ _).
  - apply (bool_decide_unpack _). vm_compute. exact I.
  - vm_compute. reflexivity.
Defined.

Lemma play_video_catches_only_a_missing_file_witness :
  play_video (pylib := Demo.client_lib) Demo.idle Demo.long_path
    Demo.empty_world
  = (Raise (PyError "OSError"),
     add_events []
       (set_session_state (insert "play_video_disabled" (VBool false))
          Demo.empty_world)).
Proof.
  destruct (play_video_catches_only_a_missing_file (pylib := Demo.client_lib)
              Demo.idle Demo.long_path Demo.empty_world)
    as (o & evs & Hrun & _ & Hpressed).
  assert ("Play Video" ∈ buttons Demo.idle) as Hp
    by (apply (bool_decide_unpack _); vm_compute; exact I).
  destruct (proj1 (Hpressed Hp) (PyError "OSError") eq_refl eq_refl)
    as [-> ->].
  exact Hrun.
Defined.

(** ** The size limit of the upload *)

Ltac in_list := apply (bool_decide_unpack _); vm_compute; exact I.

Section Limit.
Context {codec : Base64} {pylib : PyLib} (remote : Remote) (ui : UserInput).

Lemma request_document_serializable ss encoded :
  (∀ k, k ∈ request_fields →
        ∃ v, ss !! k = Some v ∧ json_serializable v = true) →
  map_Forall (λ _ v, json_serializable v = true) (request_document ss encoded).
Proof.
  intros Hser k v Hk. unfold request_document in Hk.
  apply elem_of_list_to_map_2 in Hk.
  repeat (apply elem_of_cons in Hk as [[= -> ->]|Hk];
    [first [ reflexivity
           | match goal with
             |- json_serializable (default VNone (ss !! ?key)) = true =>
               destruct (Hser key) as (x & -> & Hx); [in_list|exact Hx]
             end ]|]).
  by apply elem_of_nil in Hk.
Qed.

(** [invoke_model] when nothing fails. *)
Lemma invoke_model_run w f image jpeg b region endpoint r :
  session_state w !! "uploaded_image" = Some (VFile f) →
  Image_open f = inr image → jpeg_save image = inr jpeg →
  (∀ k, k ∈ request_fields →
        ∃ v, session_state w !! k = Some v ∧ json_serializable v = true) →
  session_state w !! "s3_bucket" = Some (VStr b) →
  s3_upload_file remote (VStr b) "async_inference/input/payload.json" = None →
  session_state w !! "aws_region" = Some region →
  session_state w !! "sagemaker_endpoint_name" = Some endpoint →
  invoke_endpoint_async remote endpoint
    ("s3://" +:+ b +:+ "/async_inference/input/payload.json") 3600 = inr r →
  ∃ w', invoke_model remote w = (Ret r, w').
Proof.
  intros Hu Himg Hjpeg Hser Hb Hup Hreg Hep Hinv.
  pose proof (request_document_serializable (session_state w)
                ("data:text/plain;base64," +:+ b64encode jpeg) Hser) as Hok.
  unfold request_document in Hok.
  destruct (Hser "movie_title") as (v1 & H1 & _); [in_list|].
  destruct (Hser "width") as (v2 & H2 & _); [in_list|].
  destruct (Hser "height") as (v3 & H3 & _); [in_list|].
  destruct (Hser "num_frames") as (v4 & H4 & _); [in_list|].
  destruct (Hser "num_inference_steps") as (v5 & H5 & _); [in_list|].
  destruct (Hser "min_guidance_scale") as (v6 & H6 & _); [in_list|].
  destruct (Hser "max_guidance_scale") as (v7 & H7 & _); [in_list|].
  destruct (Hser "fps") as (v8 & H8 & _); [in_list|].
  destruct (Hser "motion_bucket_id") as (v9 & H9 & _); [in_list|].
  destruct (Hser "noise_aug_strength") as (v10 & H10 & _); [in_list|].
  destruct (Hser "decode_chunk_size") as (v11 & H11 & _); [in_list|].
  destruct (Hser "seed") as (v12 & H12 & _); [in_list|].
  rewrite H1, H2, H3, H4, H5, H6, H7, H8, H9, H10, H11, H12 in Hok.
  cbn [default from_option id] in Hok.
  match type of Hok with
  | ?P => assert (bool_decide P = true) as Hbd by (by apply bool_decide_eq_true_2)
  end.
  clear Hser.
  assert (Image_open_value (VFile f) = inr image) as Himg' by exact Himg.
  clear Himg.
  assert (wp (invoke_model remote) (λ o _, o = Ret r) w) as Hwp.
  { unfold invoke_model, upload_file, encode_image, json_dump.
    wp_go. all: try reflexivity. all: try congruence.
    all: match goal with
         | H : invoke_endpoint_async _ _ _ _ = _ |- _ => cbn [py_str] in H
         end; congruence. }
  unfold wp in Hwp. exists (invoke_model remote w).2.
  destruct (invoke_model remote w) as [o w']. cbn [fst snd] in *. by subst o.
Qed.

Lemma page_aws_region w w1 :
  page ui w = (Ret tt, w1) →
  session_state w1 !! "aws_region"
    = Some (default (VStr "us-east-1") (session_state w !! "aws_region")).
Proof.
  intros Hrun. destruct (page_Ret _ _ _ Hrun) as (ss & -> & _ & _ & Hss).
  rewrite after_fields_other by in_list.
  rewrite Hss by in_list. by apply after_reset_lookup.
Qed.

Lemma invoke_model_without_image w :
  session_state w !! "uploaded_image" = Some VNone →
  invoke_model remote w = (Raise (PyError "AttributeError"), w).
Proof.
  intros Hu. unfold invoke_model.
  rewrite (bind_Ret _ _ _ _ _ (ss_getitem_run _ _ _ Hu)).
  apply bind_Raise. reflexivity.
Qed.

Lemma request_document_image ss encoded :
  request_document ss encoded !! "image" = Some (VStr encoded).
Proof. reflexivity. Qed.

(** C6: the size limit is checked by a message.  With a file of more than
    [MAX_FILE_SIZE] bytes in the uploader [handle_file_upload] shows the
    error message and returns: it raises nothing and stores nothing of the
    file, so the page comes up with [uploaded_image] as the session held it.
    Staging the request from there raises [AttributeError] before any remote
    call when the session held no image, and when it returns, the request it
    has written was built from the image the session held before, not from
    the file in the uploader.  With a file of at most [MAX_FILE_SIZE] bytes
    that PIL opens, the page comes up holding the file, and staging returns
    with the request built from that file, provided the image is saved as
    JPEG, the fields hold values [json.dump] takes, and the upload and the
    invocation succeed. *)
Theorem size_limit_is_checked_by_message w f :
  file_uploader ui = Some f →
  (MAX_FILE_SIZE < size f →
   handle_file_upload ui w = (Ret tt, add_events [StError too_large] w) ∧
   ∃ w1, page ui w = (Ret tt, w1) ∧
     session_state w1 !! "uploaded_image"
       = Some (default VNone (session_state w !! "uploaded_image")) ∧
     (default VNone (session_state w !! "uploaded_image") = VNone →
      invoke_model remote w1 = (Raise (PyError "AttributeError"), w1)) ∧
     (∀ r w2, invoke_model remote w1 = (Ret r, w2) →
        ∃ earlier image jpeg data,
          session_state w !! "uploaded_image" = Some (VFile earlier) ∧
          Image_open earlier = inr image ∧ jpeg_save image = inr jpeg ∧
          files w2 !! REQUEST_PAYLOAD = Some (RequestJson data) ∧
          data !! "image"
            = Some (VStr ("data:text/plain;base64," +:+ b64encode jpeg)))) ∧
  (size f ≤ MAX_FILE_SIZE →
   ∀ image, Image_open f = inr image →
   ∃ w1, page ui w = (Ret tt, w1) ∧
     session_state w1 !! "uploaded_image" = Some (VFile f) ∧
     ∀ jpeg b endpoint r,
       jpeg_save image = inr jpeg →
       (∀ k v, k ∈ request_fields → session_state w1 !! k = Some v →
               json_serializable v = true) →
       session_state w1 !! "s3_bucket" = Some (VStr b) →
       s3_upload_file remote (VStr b) "async_inference/input/payload.json"
         = None →
       session_state w1 !! "sagemaker_endpoint_name" = Some endpoint →
       invoke_endpoint_async remote endpoint
         ("s3://" +:+ b +:+ "/async_inference/input/payload.json") 3600
         = inr r →
       ∃ w2 data,
         invoke_model remote w1 = (Ret r, w2) ∧
         files w2 !! REQUEST_PAYLOAD = Some (RequestJson data) ∧
         s3 w2 !! (b, "async_inference/input/payload.json")
           = Some (RequestJson data) ∧
         data !! "image"
           = Some (VStr ("data:text/plain;base64," +:+ b64encode jpeg))).
Proof.
  intros Hf. split.
  - intros Hbig. split; [exact (handle_file_upload_rejected _ _ _ Hf Hbig)|].
    eexists. split; [exact (page_rejected _ _ _ Hf Hbig)|].
    assert (session_state
              (set_session_state (λ ss, after_fields ui (after_reset ss))
                 (add_events (page_events ++ [StError too_large]) w))
              !! "uploaded_image"
            = Some (default VNone (session_state w !! "uploaded_image"))) as Hu.
    { world_simpl. rewrite after_fields_other by in_list.
      by apply after_reset_lookup. }
    split; [exact Hu|]. split.
    + intros Hnone. rewrite Hnone in Hu.
      exact (invoke_model_without_image _ Hu).
    + intros r w2 Hrun.
      destruct (invoke_model_Ret _ _ _ _ Hrun)
        as (u & image & jpeg & b & endpoint & Hu' & Hv & Hj & _ & _ & Hw2).
      cbv zeta in Hw2. rewrite Hu in Hu'. injection Hu' as Hu'.
      destruct u as [| | | | |earlier]; try discriminate Hv.
      exists earlier, image, jpeg,
        (request_document
           (session_state
              (set_session_state (λ ss, after_fields ui (after_reset ss))
                 (add_events (page_events ++ [StError too_large]) w)))
           ("data:text/plain;base64," +:+ b64encode jpeg)).
      split; [by destruct (session_state w !! "uploaded_image") as [x|];
                cbn in Hu'; subst|].
      split; [exact Hv|]. split; [exact Hj|]. subst w2.
      split; [|apply request_document_image].
      rewrite files_add_events, files_set_s3, files_add_events, files_set_files.
      apply lookup_insert_eq.
  - intros Hfit image Himg. eexists.
    split; [exact (page_accepted _ _ _ _ Hf Hfit Himg)|].
    pose proof (page_accepted _ w _ _ Hf Hfit Himg) as Hpage.
    set (w1 := set_session_state
                 (λ ss, after_fields ui (after_upload f image (after_reset ss)))
                 (add_events
                    (page_events ++
                     [StWrite "Conditioning Image :camera:"; StImage image]) w))
      in *.
    assert (session_state w1 !! "uploaded_image" = Some (VFile f)) as Hu.
    { unfold w1. world_simpl. rewrite after_fields_other by in_list.
      apply after_upload_lookup. }
    split; [exact Hu|].
    intros jpeg b endpoint r Hj Hser Hb Hup Hep Hinv.
    destruct (invoke_model_run w1 f image jpeg b
                (default (VStr "us-east-1") (session_state w !! "aws_region"))
                endpoint r Hu Himg Hj)
      as [w2 Hrun]; try done.
    { intros k Hk. destruct (request_fields_rows k Hk) as [l Hrow].
      destruct (page_field_lookup _ _ _ _ _ _ Hpage Hrow) as (v0 & Hv & _).
      eexists. split; [exact Hv|]. exact (Hser _ _ Hk Hv). }
    { exact (page_aws_region _ _ Hpage). }
    exists w2. 
    destruct (invoke_model_Ret _ _ _ _ Hrun)
      as (u & image' & jpeg' & b' & endpoint' & Hu' & Hv & Hj' & Hb' & _ & Hw2).
    cbv zeta in Hw2. rewrite Hu in Hu'. injection Hu' as <-.
    cbn [Image_open_value] in Hv. rewrite Himg in Hv. injection Hv as <-.
    rewrite Hj in Hj'. injection Hj' as <-.
    rewrite Hb in Hb'. injection Hb' as <-.
    exists (request_document (session_state w1)
              ("data:text/plain;base64," +:+ b64encode jpeg)).
    split; [exact Hrun|]. rewrite Hw2.
    split; [|split; [|apply request_document_image]].
    + rewrite files_add_events, files_set_s3, files_add_events, files_set_files.
      apply lookup_insert_eq.
    + rewrite s3_add_events, s3_set_s3. apply lookup_insert_eq.
Qed.
End Limit.

(** ** The defaults of the parameters *)

Section Defaults.
Import Inference.
Context {codec : Base64} {hlib : Lib}.



End Defaults.

(** ** The frame rate of the video *)

Section Rate.
Context {codec : Base64} {pylib : PyLib} {hlib : Inference.Lib}
  (remote : Remote) (ui : UserInput).

End Rate.

(** C6 fails on the code: with an upload of 5 MiB and one byte in the
    uploader of a session in which an upload had been accepted before,
    [handle_file_upload] returns after the error message, the page comes up
    with the earlier upload still in the session, and staging the request
    returns with the endpoint invoked; from the empty world the page comes up
    as well, and staging raises [AttributeError]. *)
Lemma oversize_upload_does_not_stop_the_request :
  MAX_FILE_SIZE < size Demo.big_upload ∧
  file_uploader (Demo.with_upload Demo.big_upload) = Some Demo.big_upload ∧
  handle_file_upload (pylib := Demo.client_lib)
      (Demo.with_upload Demo.big_upload) Demo.shown
    = (Ret tt, add_events [StError too_large] Demo.shown) ∧
  Demo.replaced.1 = Ret tt ∧
  session_state Demo.replaced.2 !! "uploaded_image"
    = Some (VFile Demo.upload) ∧
  (Demo.stage Demo.replaced.2).1 = Ret Demo.job ∧
  last (log (Demo.stage Demo.replaced.2).2)
    = Some (InvokeEndpointAsync (VStr ENDPOINT_NAME)
              ("s3://" +:+ S3_BUCKET +:+ "/async_inference/input/payload.json")
              3600) ∧
  (Demo.show Demo.client_lib (Demo.with_upload Demo.big_upload)).1 = Ret tt ∧
  Demo.stage (Demo.show Demo.client_lib (Demo.with_upload Demo.big_upload)).2
    = (Raise (PyError "AttributeError"),
       (Demo.show Demo.client_lib (Demo.with_upload Demo.big_upload)).2).
Proof.
  do 8 (split; [vm_compute; reflexivity|]). vm_compute. reflexivity.
Qed.

Lemma size_limit_is_checked_by_message_witness :
  (∃ w1,
     App.page (pylib := Demo.client_lib) (Demo.with_upload Demo.big_upload)
       Demo.shown = (Ret tt, w1) ∧
     session_state w1 !! "uploaded_image" = Some (VFile Demo.upload) ∧
     ∀ r w2,
       invoke_model (codec := PyBase64.base64) (pylib := Demo.client_lib)
         Demo.never_ready w1 = (Ret r, w2) →
       ∃ data,
         files w2 !! REQUEST_PAYLOAD = Some (RequestJson data) ∧
         data !! "image"
           = Some (VStr ("data:text/plain;base64," +:+
                         PyBase64.encode (im_pixels Demo.picture)))) ∧
  (∃ w1 w2 data,
     App.page (pylib := Demo.client_lib) (Demo.with_upload Demo.limit_upload)
       Demo.empty_world = (Ret tt, w1) ∧
     session_state w1 !! "uploaded_image" = Some (VFile Demo.limit_upload) ∧
     invoke_model (codec := PyBase64.base64) (pylib := Demo.client_lib)
       Demo.never_ready w1 = (Ret Demo.job, w2) ∧
     files w2 !! REQUEST_PAYLOAD = Some (RequestJson data) ∧
     s3 w2 !! (S3_BUCKET, "async_inference/input/payload.json")
       = Some (RequestJson data) ∧
     data !! "image"
       = Some (VStr ("data:text/plain;base64," +:+
                     PyBase64.encode (im_pixels Demo.picture)))).
Proof.
  split.
  - destruct (proj1 (size_limit_is_checked_by_message
                       (codec := PyBase64.base64) (pylib := Demo.client_lib)
                       Demo.never_ready (Demo.with_upload Demo.big_upload)
                       Demo.shown Demo.big_upload eq_refl))
      as (_ & w1 & Hpage & Hu & _ & Hsent).
    { vm_compute. reflexivity. }
    exists w1. split; [exact Hpage|].
    split; [rewrite Hu; vm_compute; reflexivity|].
    intros r w2 Hrun.
    destruct (Hsent r w2 Hrun) as (earlier & image & jpeg & data & He & Hi & Hj
                                   & Hfile & Himage).
    exists data. split; [exact Hfile|].
    vm_compute in Hi. injection Hi as <-. vm_compute in Hj. injection Hj as <-.
    exact Himage.
  - destruct (proj2 (size_limit_is_checked_by_message
                       (codec := PyBase64.base64) (pylib := Demo.client_lib)
                       Demo.never_ready (Demo.with_upload Demo.limit_upload)
                       Demo.empty_world Demo.limit_upload eq_refl))
      with (image := Demo.picture)
      as (w1 & Hpage & Hu & Hstaged).
    { vm_compute. discriminate. }
    { reflexivity. }
    assert (w1 = (Demo.show Demo.client_lib
                    (Demo.with_upload Demo.limit_upload)).2) as Hw1
      by (unfold Demo.show; rewrite Hpage; reflexivity).
    destruct (Hstaged (im_pixels Demo.picture) S3_BUCKET (VStr ENDPOINT_NAME)
                Demo.job eq_refl)
      as (w2 & data & Hrun & Hfile & Hs3 & Himage).
    { intros k v Hk Hv. rewrite Hw1 in Hv. unfold request_fields in Hk.
      repeat (apply elem_of_cons in Hk as [->|Hk];
              [vm_compute in Hv; injection Hv as <-; reflexivity|]).
      apply elem_of_nil in Hk. destruct Hk. }
    { rewrite Hw1. vm_compute. reflexivity. }
    { reflexivity. }
    { rewrite Hw1. vm_compute. reflexivity. }
    { reflexivity. }
    exists w1, w2, data. repeat (split; [assumption|]). assumption.
Defined.



(** ** [base64]: what is encoded is decoded *)

Module Base64RoundTrip.

Import PyBase64.
Local Open Scope N_scope.

Lemma all_bytes_spec b : b ∈ all_bytes.
Proof.
  unfold all_bytes. apply list_elem_of_omap. exists (Byte.to_N b). split.
  - apply list_elem_of_fmap. exists (N.to_nat (Byte.to_N b)). split.
    + by rewrite N2Nat.id.
    + apply elem_of_seq. pose proof (Byte.to_N_bounded b). lia.
  - apply Byte.of_to_N.
Qed.

Lemma for_all_bytes (P : Byte.byte → bool) :
  forallb P all_bytes = true → ∀ b, P b = true.
Proof.
  intros HP b. rewrite forallb_forall in HP. apply HP.
  apply list_elem_of_In, all_bytes_spec.
Qed.

Lemma for_all_byte_pairs (P : Byte.byte → Byte.byte → bool) :
  forallb (λ a, forallb (P a) all_bytes) all_bytes = true →
  ∀ a b, P a b = true.
Proof.
  intros HP a b. apply for_all_bytes. by apply (for_all_bytes (λ a, forallb (P a) all_bytes)).
Qed.

Lemma sextet_spec v :
  sextet v = true →
  Ascii.eqb (table_b2a v) "=" = false ∧
  (N_of_ascii (table_b2a v) <? 128) = true ∧
  table_a2b (table_b2a v) = Some v.
Proof.
  unfold sextet. intros H.
  apply andb_true_iff in H as [H H3]. apply andb_true_iff in H as [H1 H2].
  apply negb_true_iff in H1. apply bool_decide_eq_true in H3. done.
Qed.

Lemma facts_one a :
  sextet (v0 a) && sextet (v3 a)
  && sextet (N.shiftl (N.land (byte_to_N a) 3) 4)
  && sextet (N.shiftl (N.land (byte_to_N a) 15) 2)
  && N_eqb_byte (N.lor (N.shiftl (v0 a) 2) (N.land (byte_to_N a) 3)) a
  && N_eqb_byte (N.lor (N.shiftl (N.shiftr (byte_to_N a) 4) 4)
                   (N.land (byte_to_N a) 15)) a
  && N_eqb_byte (N.lor (N.shiftl (N.shiftr (byte_to_N a) 6) 6) (v3 a)) a
  && (N.shiftr (N.shiftl (N.land (byte_to_N a) 3) 4) 4 =? N.land (byte_to_N a) 3)
  && (N.shiftr (N.shiftl (N.land (byte_to_N a) 15) 2) 2 =? N.land (byte_to_N a) 15)
  = true.
Proof. revert a. apply for_all_bytes. vm_compute. reflexivity. Qed.

Lemma facts_two a b :
  sextet (v1 a b) && sextet (v2 a b)
  && (N.shiftr (v1 a b) 4 =? N.land (byte_to_N a) 3)
  && (N.land (v1 a b) 15 =? N.shiftr (byte_to_N b) 4)
  && (N.shiftr (v2 a b) 2 =? N.land (byte_to_N a) 15)
  && (N.land (v2 a b) 3 =? N.shiftr (byte_to_N b) 6)
  = true.
Proof. revert a b. apply for_all_byte_pairs. vm_compute. reflexivity. Qed.

Ltac split_facts H :=
  repeat match type of H with
         | (_ && _) = true => apply andb_true_iff in H as [H ?]
         end.

Lemma a2b_data c v rest q lc pads out :
  Ascii.eqb c "=" = false → table_a2b c = Some v →
  a2b_loop (String c rest) q lc pads out =
    match q with
    | 0%nat => a2b_loop rest 1 v 0 out
    | 1%nat =>
        a2b_loop rest 2 (N.land v 15) 0
          (byte_of_N (N.lor (N.shiftl lc 2) (N.shiftr v 4)) :: out)
    | 2%nat =>
        a2b_loop rest 3 (N.land v 3) 0
          (byte_of_N (N.lor (N.shiftl lc 4) (N.shiftr v 2)) :: out)
    | _ =>
        a2b_loop rest 0 0 0 (byte_of_N (N.lor (N.shiftl lc 6) v) :: out)
    end.
Proof. intros He Hv. cbn [a2b_loop]. by rewrite He, Hv. Qed.

Lemma a2b_sextet v rest q lc pads out :
  sextet v = true →
  a2b_loop (String (table_b2a v) rest) q lc pads out =
    match q with
    | 0%nat => a2b_loop rest 1 v 0 out
    | 1%nat =>
        a2b_loop rest 2 (N.land v 15) 0
          (byte_of_N (N.lor (N.shiftl lc 2) (N.shiftr v 4)) :: out)
    | 2%nat =>
        a2b_loop rest 3 (N.land v 3) 0
          (byte_of_N (N.lor (N.shiftl lc 4) (N.shiftr v 2)) :: out)
    | _ =>
        a2b_loop rest 0 0 0 (byte_of_N (N.lor (N.shiftl lc 6) v) :: out)
    end.
Proof.
  intros Hv. destruct (sextet_spec v Hv) as (He & _ & Ht).
  by apply a2b_data.
Qed.

(** The first two characters of a group give back its first byte. *)
Lemma a2b_first a v rest out :
  sextet v = true → N.shiftr v 4 = N.land (byte_to_N a) 3 →
  a2b_loop (String (table_b2a (v0 a)) (String (table_b2a v) rest)) 0 0 0 out
    = a2b_loop rest 2 (N.land v 15) 0 (a :: out).
Proof.
  intros Hv Hshift. pose proof (facts_one a) as Ha. split_facts Ha.
  rewrite (a2b_sextet (v0 a)) by done. cbv beta iota.
  rewrite (a2b_sextet v) by done. cbv beta iota. rewrite Hshift.
  do 2 f_equal. by apply Byte.byte_dec_bl.
Qed.

Lemma a2b_group a b c rest out :
  a2b_loop (String (table_b2a (v0 a)) (String (table_b2a (v1 a b))
             (String (table_b2a (v2 b c)) (String (table_b2a (v3 c)) rest))))
    0 0 0 out
  = a2b_loop rest 0 0 0 (c :: b :: a :: out).
Proof.
  pose proof (facts_one b) as Hb. split_facts Hb.
  pose proof (facts_one c) as Hc. split_facts Hc.
  pose proof (facts_two a b) as Hab. split_facts Hab.
  pose proof (facts_two b c) as Hbc. split_facts Hbc.
  repeat match goal with H : (_ =? _) = true |- _ => apply N.eqb_eq in H end.
  rewrite (a2b_first a (v1 a b)) by done.
  rewrite (a2b_sextet (v2 b c)) by done. cbv beta iota.
  rewrite (a2b_sextet (v3 c)) by done. cbv beta iota.
  repeat match goal with H : _ = _ |- _ => rewrite H end.
  f_equal. f_equal; [|f_equal]; by apply Byte.byte_dec_bl.
Qed.

Lemma triples_ind {A} (P : list A → Prop) :
  P [] → (∀ a, P [a]) → (∀ a b, P [a; b]) →
  (∀ a b c l, P l → P (a :: b :: c :: l)) → ∀ l, P l.
Proof.
  intros H0 H1 H2 H3. fix IH 1. intros [|a [|b [|c l]]]; [done..|].
  apply H3, IH.
Qed.

Lemma encode_three a b c rest :
  encode (a :: b :: c :: rest) =
    String (table_b2a (v0 a)) (String (table_b2a (v1 a b))
      (String (table_b2a (v2 b c)) (String (table_b2a (v3 c)) (encode rest)))).
Proof. reflexivity. Qed.

Lemma encode_two a b :
  encode [a; b] =
    String (table_b2a (v0 a)) (String (table_b2a (v1 a b))
      (String (table_b2a (N.shiftl (N.land (byte_to_N b) 15) 2)) "=")).
Proof. reflexivity. Qed.

Lemma encode_one a :
  encode [a] =
    String (table_b2a (v0 a))
      (String (table_b2a (N.shiftl (N.land (byte_to_N a) 3) 4)) "==").
Proof. reflexivity. Qed.

Lemma a2b_encode bs :
  ∀ out, a2b_loop (encode bs) 0 0 0 out = inr (rev out ++ bs).
Proof.
  induction bs as [|a|a b|a b c rest IH] using triples_ind; intros out.
  - cbn. by rewrite app_nil_r.
  - pose proof (facts_one a) as Ha. split_facts Ha.
    repeat match goal with H : (_ =? _) = true |- _ => apply N.eqb_eq in H end.
    rewrite encode_one, a2b_first by done. reflexivity.
  - pose proof (facts_one b) as Hb. split_facts Hb.
    pose proof (facts_two a b) as Hab. split_facts Hab.
    repeat match goal with H : (_ =? _) = true |- _ => apply N.eqb_eq in H end.
    rewrite encode_two, (a2b_first a (v1 a b)) by done.
    rewrite (a2b_sextet (N.shiftl (N.land (byte_to_N b) 15) 2)) by done.
    cbv beta iota.
    repeat match goal with H : _ = _ |- _ => rewrite H end.
    match goal with
    | H : N_eqb_byte (N.lor (N.shiftl (N.shiftr (byte_to_N b) 4) 4) _) b = true
      |- _ => apply Byte.byte_dec_bl in H; rewrite H
    end.
    cbn. by rewrite <-app_assoc.
  - rewrite encode_three, a2b_group, IH. cbn [rev]. by rewrite <-!app_assoc.
Qed.

Lemma is_ascii_sextet v rest :
  sextet v = true → is_ascii (String (table_b2a v) rest) = is_ascii rest.
Proof.
  intros Hv. destruct (sextet_spec v Hv) as (_ & Ha & _).
  cbn [is_ascii]. by rewrite Ha.
Qed.

Lemma is_ascii_encode bs : is_ascii (encode bs) = true.
Proof.
  induction bs as [|a|a b|a b c rest IH] using triples_ind.
  - reflexivity.
  - pose proof (facts_one a) as Ha. split_facts Ha.
    rewrite encode_one, !is_ascii_sextet by done. reflexivity.
  - pose proof (facts_one a) as Ha. split_facts Ha.
    pose proof (facts_one b) as Hb. split_facts Hb.
    pose proof (facts_two a b) as Hab. split_facts Hab.
    rewrite encode_two, !is_ascii_sextet by done. reflexivity.
  - pose proof (facts_one a) as Ha. split_facts Ha.
    pose proof (facts_one c) as Hc. split_facts Hc.
    pose proof (facts_two a b) as Hab. split_facts Hab.
    pose proof (facts_two b c) as Hbc. split_facts Hbc.
    by rewrite encode_three, !is_ascii_sextet.
Qed.

(** What [b64encode] writes, [b64decode] reads back. *)
Lemma decode_encode bs : decode (encode bs) = inr bs.
Proof. unfold decode. by rewrite is_ascii_encode, a2b_encode. Qed.

End Base64RoundTrip.

(** ** From the handler's answer to the frames on disk *)

Section HandlerToClient.
Context {pylib : PyLib} {hlib : Inference.Lib}.

Lemma decodes_encoded (decoded : list (list Byte.byte)) :
  decodes (codec := PyBase64.base64) (PyBase64.encode <$> decoded) decoded.
Proof.
  unfold decodes. induction decoded as [|d ds IH]; constructor; [|exact IH].
  apply Base64RoundTrip.decode_encode.
Qed.

Lemma map_encoded (pictures : list Image) :
  map (λ frame, b64encode (Base64 := PyBase64.base64)
                  (Inference.frame_jpeg frame)) pictures
  = PyBase64.encode <$> (Inference.frame_jpeg <$> pictures).
Proof.
  induction pictures as [|p ps IH]; [done|]. cbn [map]. rewrite IH.
  reflexivity.
Qed.

(** X21: the client decodes what the handler encodes.  On the answer of a
    call of [predict_fn] that returns, [process_video_frames] returns: it
    raises on no frame, and leaves in [frames_out] the JPEG bytes of the
    frames the pipeline gave, frame [i] (from 0) in the file numbered
    [i + 1], for up to 99 frames. *)
Theorem client_decodes_what_the_handler_encodes hw doc hw' w :
  Inference.predict_fn (codec := PyBase64.base64) hw = (Ret doc, hw') →
  files w !! RESPONSE_PAYLOAD = Some (ResultJson doc) →
  ∃ args pictures,
    Inference.pipe_calls hw' = Inference.pipe_calls hw ++ [args] ∧
    Inference.pipe args = inr pictures ∧
    length (frames doc) = length pictures ∧
    process_video_frames (codec := PyBase64.base64) w
      = (Ret tt,
         set_files (store_frames 0 (Inference.frame_jpeg <$> pictures)) w) ∧
    ((length pictures ≤ 99)%nat →
     ∀ i picture, pictures !! i = Some picture →
       store_frames 0 (Inference.frame_jpeg <$> pictures) (files w)
         !! frame_name i
       = Some (Bytes (Inference.frame_jpeg picture))).
Proof.
  intros Hrun Hfile.
  destruct (predict_fn_Ret _ _ _ Hrun)
    as (title & value & source & image & generator & pictures
        & _ & _ & _ & _ & _ & Hpipe & Hcalls & Hdoc).
  exists (Inference.pipe_args_of (Inference.data hw) image generator), pictures.
  split; [exact Hcalls|]. split; [exact Hpipe|].
  assert (frames doc = PyBase64.encode <$> (Inference.frame_jpeg <$> pictures))
    as Hframes by (rewrite Hdoc; cbn [frames]; apply map_encoded).
  split; [by rewrite Hframes, !length_fmap|]. split.
  - apply (process_video_frames_decoded w doc); [exact Hfile|].
    rewrite Hframes. apply decodes_encoded.
  - intros Hn i picture Hi. apply store_frames_lookup0.
    + by rewrite length_fmap.
    + by rewrite list_lookup_fmap, Hi.
Qed.

End HandlerToClient.

Lemma client_decodes_what_the_handler_encodes_witness :
  ∃ args pictures,
    Inference.pipe_calls (Demo.handle Demo.picture Demo.bare_request).2
      = [] ++ [args] ∧
    Inference.pipe (Lib := Demo.handler_lib Demo.picture) args = inr pictures ∧
    length (frames (Demo.answer Demo.picture Demo.bare_request))
      = length pictures ∧
    process_video_frames (codec := PyBase64.base64)
        (Demo.downloaded (Demo.answer Demo.picture Demo.bare_request))
      = (Ret tt,
         set_files
           (store_frames 0
              (Inference.frame_jpeg (Lib := Demo.handler_lib Demo.picture)
                 <$> pictures))
           (Demo.downloaded (Demo.answer Demo.picture Demo.bare_request))) ∧
    ((length pictures ≤ 99)%nat →
     ∀ i picture, pictures !! i = Some picture →
       store_frames 0
         (Inference.frame_jpeg (Lib := Demo.handler_lib Demo.picture)
            <$> pictures)
         (files (Demo.downloaded (Demo.answer Demo.picture Demo.bare_request)))
         !! frame_name i
       = Some (Bytes (Inference.frame_jpeg
                        (Lib := Demo.handler_lib Demo.picture) picture))).
Proof.
  refine (client_decodes_what_the_handler_encodes
            (hlib := Demo.handler_lib Demo.picture)
            {| Inference.data := Demo.bare_request; Inference.pipe_calls := [] |}
            (Demo.answer Demo.picture Demo.bare_request)
            (Demo.handle Demo.picture Demo.bare_request).2
            (Demo.downloaded (Demo.answer Demo.picture Demo.bare_request)) _ _).
  - vm_compute. reflexivity.
  - reflexivity.
Defined.
